(** * The query builder of the Plant API (utils/queryBuilder.js)

    A shallow embedding of [queryBuilder], the function every list route of
    the API calls to turn [req.query] into a MongoDB filter, a sort, a page
    window and a paginated response envelope, followed by the properties the
    specification states about it.

    Conventions of the embedding.
    - A JavaScript string is its sequence of code units; the model carries
      the code units below 256, as [string].  On that range the built-ins
      used by the source ([trim], [split], [parseInt], [encodeURIComponent],
      the case folding of the [i] flag) are written out in full.
    - A JavaScript number is a double.  The numbers the source computes
      with are whole numbers, infinities and [NaN], and the type [Js.number]
      has just those: a whole number is carried as the integer it is, and
      every operation rounds its exact result to the nearest double (to
      even at 53 bits, to an infinity from [2^1024]).  The sign of a zero is
      not carried.  A count of documents is a whole number below [2^53], of
      type [Z].
    - [undefined] (an absent property) is [None].
    - Objects keep their properties in creation order; [Object.keys] lists
      array indices first, in ascending order, as the language does.  An
      assignment to the name [__proto__] sets the prototype and creates no
      property: the assignments whose name comes from the request
      ([manualFilter], the sort object) are written with that case, while
      a property defined by a literal or a spread is created under any
      name.  No object the request or the options hand over has a property
      named [__proto__], so the filter object, a finite map, is written by
      plain insertion.
    - The message prefix of the thrown error is the one constant of the
      source with a code unit above 255 (the dotless i of [Hatası]); it is
      carried as the two octets of its UTF-8 form.
    - What the source obtains from outside (the date parser of the engine,
      its verdict on a pattern outside the fragment modelled here, the
      [Categories] collection, and the [Model] being queried: the date
      paths of its schema, its CastError and the answers of its collection)
      is a field of the record [Env]. *)

From Stdlib Require Import ZArith QArith Qround String Ascii List Lia.
From stdpp Require Import gmap strings list pretty.

Local Open Scope Z_scope.

(** ** Built-ins of the language *)

Module Js.

(** [WhiteSpace] and [LineTerminator] code units below 256: TAB, LF, VT,
    FF, CR, SP and NBSP. *)
Definition is_white_space (c : ascii) : bool :=
  match N_of_ascii c with
  | 9 | 10 | 11 | 12 | 13 | 32 | 160 => true
  | _ => false
  end%N.

Definition is_line_terminator (c : ascii) : bool :=
  match N_of_ascii c with
  | 10 | 13 => true
  | _ => false
  end%N.

Definition is_empty (s : string) : bool :=
  match s with EmptyString => true | String _ _ => false end.

Fixpoint trimStart (s : string) : string :=
  match s with
  | EmptyString => EmptyString
  | String c r => if is_white_space c then trimStart r else s
  end.

Fixpoint trimEnd (s : string) : string :=
  match s with
  | EmptyString => EmptyString
  | String c r =>
      let r' := trimEnd r in
      if is_white_space c && is_empty r' then EmptyString else String c r'
  end.

(** [String.prototype.trim] *)
Definition trim (s : string) : string := trimEnd (trimStart s).

(** [s.includes(c)] for a one-character needle *)
Fixpoint includes (c : ascii) (s : string) : bool :=
  match s with
  | EmptyString => false
  | String d r => if Ascii.eqb d c then true else includes c r
  end.

(** [s.split(c)] for a one-character separator *)
Fixpoint split (c : ascii) (s : string) : list string :=
  match s with
  | EmptyString => [EmptyString]
  | String d r =>
      if Ascii.eqb d c then EmptyString :: split c r
      else match split c r with
           | h :: t => String d h :: t
           | [] => [String d EmptyString]
           end
  end.

(** [l.join(sep)] *)
Fixpoint join (sep : string) (l : list string) : string :=
  match l with
  | [] => EmptyString
  | [s] => s
  | s :: t => s +:+ sep +:+ join sep t
  end.

(** [s.startsWith('-')] *)
Definition startsWith (c : ascii) (s : string) : bool :=
  match s with
  | String d _ => Ascii.eqb d c
  | EmptyString => false
  end.

(** [s.substring(1)] *)
Definition substring1 (s : string) : string :=
  match s with
  | String _ r => r
  | EmptyString => EmptyString
  end.

(** *** Numbers

    The numbers of the language are doubles.  Those the source meets are
    whole numbers, the two infinities and [NaN]; a whole number is carried
    as the integer it is.  (The sign of a zero is not carried: no
    operation used here tells [-0] from [0].) *)
Inductive number :=
| Num (n : Z)
| Infinity
| NegInfinity
| NaN.

(** The multiple a whole number [n >= 0] rounds to when 53 bits are kept:
    the nearest one, the even one of two at a tie. *)
Definition nearest53 (n : Z) : Z :=
  let bits := Z.log2 n + 1 in
  if bits <=? 53 then n
  else
    let unit := 2 ^ (bits - 53) in
    let q := n / unit in
    let rest := n mod unit in
    let up := (unit <? 2 * rest) || ((2 * rest =? unit) && Z.odd q) in
    (if up then q + 1 else q) * unit.

(** The number a whole number is as a double: the nearest double, which is
    an infinity from [2^1024] on. *)
Definition to_double (n : Z) : number :=
  let m := nearest53 (Z.abs n) in
  if 2 ^ 1024 <=? m then (if n <? 0 then NegInfinity else Infinity)
  else Num (Z.sgn n * m).

Definition sign (a : number) : Z :=
  match a with
  | Num n => Z.sgn n
  | Infinity => 1
  | NegInfinity => -1
  | NaN => 0
  end.

(** [a + b] *)
Definition add (a b : number) : number :=
  match a, b with
  | Num x, Num y => to_double (x + y)
  | NaN, _ | _, NaN => NaN
  | Infinity, NegInfinity | NegInfinity, Infinity => NaN
  | Infinity, _ | _, Infinity => Infinity
  | NegInfinity, _ | _, NegInfinity => NegInfinity
  end.

(** [a - b] *)
Definition sub (a b : number) : number :=
  match a, b with
  | Num x, Num y => to_double (x - y)
  | NaN, _ | _, NaN => NaN
  | Infinity, Infinity | NegInfinity, NegInfinity => NaN
  | Infinity, _ | _, NegInfinity => Infinity
  | NegInfinity, _ | _, Infinity => NegInfinity
  end.

(** [a * b] *)
Definition mul (a b : number) : number :=
  match a, b with
  | Num x, Num y => to_double (x * y)
  | NaN, _ | _, NaN => NaN
  | _, _ =>
      match sign a * sign b with
      | 0 => NaN
      | Z.pos _ => Infinity
      | Z.neg _ => NegInfinity
      end
  end.

(** [a < b] *)
Definition ltb (a b : number) : bool :=
  match a, b with
  | Num x, Num y => x <? y
  | NaN, _ | _, NaN => false
  | _, NegInfinity | Infinity, _ => false
  | NegInfinity, _ | _, Infinity => true
  end.

(** [Math.max(a, b)] and [Math.min(a, b)] *)
Definition Math_max (a b : number) : number :=
  match a, b with
  | NaN, _ | _, NaN => NaN
  | _, _ => if ltb a b then b else a
  end.

Definition Math_min (a b : number) : number :=
  match a, b with
  | NaN, _ | _, NaN => NaN
  | _, _ => if ltb b a then b else a
  end.

(** [n || d] on numbers: [NaN] and [0] are falsy. *)
Definition num_or (n d : number) : number :=
  match n with
  | NaN | Num 0 => d
  | _ => n
  end.

Declare Scope num_scope.
Delimit Scope num_scope with num.
Bind Scope num_scope with number.
Infix "+" := add : num_scope.
Infix "-" := sub : num_scope.
Infix "*" := mul : num_scope.

(** The value of a digit in the given radix (10 or 16). *)
Definition digit (radix : Z) (c : ascii) : option Z :=
  let n := Z.of_N (N_of_ascii c) in
  let v :=
    if (48 <=? n) && (n <=? 57) then Some (n - 48)
    else if (97 <=? n) && (n <=? 122) then Some (n - 87)
    else if (65 <=? n) && (n <=? 90) then Some (n - 55)
    else None in
  match v with
  | Some d => if d <? radix then Some d else None
  | None => None
  end.

(** The longest prefix of digits, read in the radix; [acc] is [None] until
    a digit has been seen. *)
Fixpoint digits (radix : Z) (s : string) (acc : option Z) : option Z :=
  match s with
  | EmptyString => acc
  | String c r =>
      match digit radix c with
      | Some d => digits radix r (Some (radix * default 0 acc + d))
      | None => acc
      end
  end.

(** [parseInt(s)] with no radix argument: leading white space is skipped,
    a sign is read, [0x] or [0X] selects radix 16, and the longest prefix
    of digits gives the whole number, which the result is as a double;
    [NaN] when there is no digit. *)
Definition parseInt (s : string) : number :=
  let s1 := trimStart s in
  let '(sign, s2) :=
    match s1 with
    | String "-" r => (-1, r)
    | String "+" r => (1, r)
    | _ => (1, s1)
    end%char in
  let '(radix, s3) :=
    match s2 with
    | String "0" (String "x" r) => (16, r)
    | String "0" (String "X" r) => (16, r)
    | _ => (10, s2)
    end%char in
  match digits radix s3 None with
  | Some n => to_double (sign * n)
  | None => NaN
  end.

(** The digits of a whole number. *)
Definition integer_to_string (n : Z) : string := pretty n.

(** The whole number with the fewest significant digits among those the
    double [v > 0] is the nearest double of: the nearer one of two with as
    many digits, the even one at a tie.  [d] is the number of digits of
    [v] and [k] the number of digits tried. *)
Fixpoint shortest (fuel : nat) (v d k : Z) : Z :=
  match fuel with
  | O => v
  | S fuel =>
      let unit := 10 ^ (d - k) in
      let lo := v / unit * unit in
      let hi := lo + unit in
      let ok w := match to_double w with Num x => x =? v | _ => false end in
      match ok lo, ok hi with
      | true, true =>
          if (v - lo <? hi - v) || ((v - lo =? hi - v) && Z.even (v / unit))
          then lo else hi
      | true, false => lo
      | false, true => hi
      | false, false => shortest fuel v d (k + 1)
      end
  end.

Fixpoint strip_zeros (s : string) : string :=
  match s with
  | EmptyString => EmptyString
  | String c r =>
      let r' := strip_zeros r in
      if Ascii.eqb c "0" && is_empty r' then EmptyString else String c r'
  end.

(** [String(n)]: the fewest digits that give the double back, written out
    in full up to 21 digits and with an exponent beyond. *)
Definition num_to_string (n : number) : string :=
  match n with
  | NaN => "NaN"
  | Infinity => "Infinity"
  | NegInfinity => "-Infinity"
  | Num z =>
      let v := Z.abs z in
      let d := Z.of_nat (String.length (integer_to_string v)) in
      let text := integer_to_string (shortest (Z.to_nat (Z.min 17 d)) v d 1) in
      let written :=
        if (String.length text <=? 21)%nat then text
        else
          match text with
          | String c r =>
              let fraction := strip_zeros r in
              String c (if is_empty fraction then EmptyString else "." +:+ fraction)
              +:+ "e+" +:+ integer_to_string (Z.of_nat (String.length r))
          | EmptyString => text
          end in
      if z <? 0 then "-" +:+ written else written
  end.

(** A value of [req.query] (or one a route stored there). *)
#[warning="-register-all"]
Inductive value :=
| VStr (s : string)
| VNum (n : number)
| VBool (b : bool)
| VArr (items : list value)
| VObj (props : list (string * value)).

(** [ToString]: an array is the join of its items with a comma, any other
    object is ["[object Object]"]. *)
Fixpoint ToString (v : value) : string :=
  match v with
  | VStr s => s
  | VNum n => num_to_string n
  | VBool b => if b then "true" else "false"
  | VArr items => join "," (map ToString items)
  | VObj _ => "[object Object]"
  end.

(** [ToString] of a property that may be absent *)
Definition ToString_opt (v : option value) : string :=
  match v with
  | Some v => ToString v
  | None => "undefined"
  end.

(** [ToBoolean] *)
Definition truthy (v : option value) : bool :=
  match v with
  | None => false
  | Some (VStr s) => negb (is_empty s)
  | Some (VNum n) => match n with Num 0 | NaN => false | _ => true end
  | Some (VBool b) => b
  | Some (VArr _) | Some (VObj _) => true
  end.

(** [typeof v === 'object'] *)
Definition is_object (v : value) : bool :=
  match v with
  | VArr _ | VObj _ => true
  | _ => false
  end.

End Js.

Import Js.

(** ** Objects *)

(** An object is the list of its own properties in creation order, each name
    once. *)
Abbreviation object := (list (string * value)).

(** [o[k]] *)
Fixpoint obj_get (k : string) (o : object) : option value :=
  match o with
  | [] => None
  | (k', v) :: r => if String.eqb k' k then Some v else obj_get k r
  end.

(** The property [k] defined as [v]: an existing property keeps its place,
    a new one goes last. *)
Fixpoint define_property (k : string) (v : value) (o : object) : object :=
  match o with
  | [] => [(k, v)]
  | (k', v') :: r =>
      if String.eqb k' k then (k', v) :: r else (k', v') :: define_property k v r
  end.

(** [o[k] = v].  Under the name [__proto__] an object has the accessor it
    inherits, and the assignment goes to its setter: no property is made
    (what the setter does to the prototype shows in no own property). *)
Definition obj_set (k : string) (v : value) (o : object) : object :=
  if String.eqb k "__proto__" then o else define_property k v o.
Arguments obj_set : simpl never.

Definition is_digit (c : ascii) : bool :=
  let n := N_of_ascii c in ((48 <=? n) && (n <=? 57))%N.

Fixpoint all_digits (s : string) : bool :=
  match s with
  | EmptyString => true
  | String c r => is_digit c && all_digits r
  end.

(** An array index is a canonical numeric string below [2^32 - 1]. *)
Definition array_index (k : string) : option N :=
  match k with
  | EmptyString => None
  | String c r =>
      if all_digits k && (negb (Ascii.eqb c "0") || is_empty r) then
        match digits 10 k None with
        | Some n => if n <? 4294967295 then Some (Z.to_N n) else None
        | None => None
        end
      else None
  end.

Fixpoint insert_index (e : N * string) (l : list (N * string)) : list (N * string) :=
  match l with
  | [] => [e]
  | e' :: r => if (fst e <? fst e')%N then e :: l else e' :: insert_index e r
  end.

(** The order of [Object.keys]: array indices ascending, then the other
    names in creation order. *)
Definition own_keys (names : list string) : list string :=
  let indices :=
    foldr insert_index []
      (omap (fun k => match array_index k with
                      | Some n => Some (n, k)
                      | None => None
                      end) names) in
  map snd indices ++
  List.filter (fun k => match array_index k with Some _ => false | None => true end) names.

(** [Object.keys(o)] *)
Definition Object_keys (o : object) : list string := own_keys (map fst o).

(** The own properties of a value that is an object: those of an array are
    its indices. *)
Definition props_of (v : value) : object :=
  match v with
  | VObj props => props
  | VArr items => imap (fun i x => (integer_to_string (Z.of_nat i), x)) items
  | _ => []
  end.

(** ** Completion of a step: a value, or a thrown error with its message *)

Inductive result (A : Type) :=
| Ok (a : A)
| Throw (message : string).
Arguments Ok {A} a.
Arguments Throw {A} message.

#[global] Instance result_bind : MBind result := fun A B k r =>
  match r with
  | Ok a => k a
  | Throw m => Throw m
  end.

Definition is_Ok {A} (r : result A) : bool :=
  match r with Ok _ => true | Throw _ => false end.

(** ** Configuration *)

(** The [options] argument; an absent property is [None]. *)
Record Options := {
  opt_defaultLimit : option Z;
  opt_maxLimit : option Z;
  opt_defaultSort : option string;
  opt_allowedSortFields : option (list string);
  opt_allowedFilterFields : option (list string);
  searchFields : option (list string);
  dateField : option string;
  populate : option value
}.

Record Config := {
  defaultLimit : Z;
  maxLimit : Z;
  defaultSort : string;
  allowedSortFields : list string;
  allowedFilterFields : list string
}.

Definition defaults : Config := {|
  defaultLimit := 100;
  maxLimit := 100;
  defaultSort := "createdAt";
  allowedSortFields := [];
  allowedFilterFields := []
|}.

(** [{ ...defaults, ...options }] *)
Definition config (options : Options) : Config := {|
  defaultLimit := default (defaultLimit defaults) (opt_defaultLimit options);
  maxLimit := default (maxLimit defaults) (opt_maxLimit options);
  defaultSort := default (defaultSort defaults) (opt_defaultSort options);
  allowedSortFields :=
    default (allowedSortFields defaults) (opt_allowedSortFields options);
  allowedFilterFields :=
    default (allowedFilterFields defaults) (opt_allowedFilterFields options)
|}.

(** The part of the Express request the function reads. *)
Record Request := {
  req_query : object;
  req_protocol : string;
  req_host : option string;   (* req.get('host') *)
  req_baseUrl : string;
  req_path : string
}.

(** ** 1. Pagination *)

(** [Math.max(1, parseInt(req.query.page) || 1)] *)
Definition page (q : object) : number :=
  Math_max (Num 1) (num_or (parseInt (ToString_opt (obj_get "page" q))) (Num 1)).

(** [Math.min(Math.max(1, parseInt(req.query.limit) || config.defaultLimit),
    config.maxLimit)] *)
Definition limit (cfg : Config) (q : object) : number :=
  Math_min
    (Math_max (Num 1)
       (num_or (parseInt (ToString_opt (obj_get "limit" q))) (Num (defaultLimit cfg))))
    (Num (maxLimit cfg)).

(** [(page - 1) * limit] *)
Definition skip (cfg : Config) (q : object) : number :=
  ((page q - Num 1) * limit cfg q)%num.

(** ** 2. Sorting *)

(** [array.includes(x)] on strings *)
Definition includes_str (x : string) (l : list string) : bool :=
  existsb (String.eqb x) l.

(** [sortObject[fieldName] = direction] on the empty [sortObject]: one
    property, and none under the name [__proto__], whose setter ignores a
    number. *)
Definition sort_on (fieldName : string) (direction : Z) : list (string * Z) :=
  if String.eqb fieldName "__proto__" then [] else [(fieldName, direction)].

(** The sort object: one field, [1] ascending or [-1] descending.  A [sort]
    value that is truthy and not a string has no [startsWith]. *)
Definition sortObject (cfg : Config) (q : object) : result (list (string * Z)) :=
  let sort := obj_get "sort" q in
  if truthy sort then
    match sort with
    | Some (VStr sortField) =>
        let isDescending := startsWith "-" sortField in
        let fieldName := if isDescending then substring1 sortField else sortField in
        if (length (allowedSortFields cfg) =? 0)%nat
           || includes_str fieldName (allowedSortFields cfg)
        then Ok (sort_on fieldName (if isDescending then -1 else 1))
        else Ok [(defaultSort cfg, -1)]
    | _ => Throw "sortField.startsWith is not a function"
    end
  else Ok [(defaultSort cfg, -1)].

(** ** Regular expressions *)

Module RegExp.

(** A RegExp object: the pattern text and the flags it was made from. *)
Record t := { pattern : string; flags : string }.

(** [SyntaxCharacter] of the pattern grammar. *)
Definition is_syntax_char (c : ascii) : bool :=
  match c with
  | "^" | "$" | "\" | "." | "*" | "+" | "?"
  | "(" | ")" | "[" | "]" | "{" | "}" | "|" => true
  | _ => false
  end%char.

(** The fragment of the pattern language given a meaning here: a sequence
    of atoms (a pattern character, an escaped syntax character, or the dot),
    each with at most one greedy quantifier. *)
Inductive atom :=
| Lit (c : ascii)
| Dot.

Inductive quantifier := One | Star | Plus | Opt.

Inductive token :=
| TAtom (a : atom)
| TQuant (q : quantifier).

Fixpoint tokens (s : string) : option (list token) :=
  match s with
  | EmptyString => Some []
  | String c r =>
      match c with
      | "\"%char =>
          match r with
          | String d r' =>
              if is_syntax_char d then cons (TAtom (Lit d)) <$> tokens r' else None
          | EmptyString => None
          end
      | "."%char => cons (TAtom Dot) <$> tokens r
      | "*"%char => cons (TQuant Star) <$> tokens r
      | "+"%char => cons (TQuant Plus) <$> tokens r
      | "?"%char => cons (TQuant Opt) <$> tokens r
      | _ => if is_syntax_char c then None else cons (TAtom (Lit c)) <$> tokens r
      end
  end.

Fixpoint terms (ts : list token) : option (list (atom * quantifier)) :=
  match ts with
  | [] => Some []
  | TQuant _ :: _ => None
  | TAtom a :: r =>
      match r with
      | TQuant q :: r' => cons (a, q) <$> terms r'
      | _ => cons (a, One) <$> terms r
      end
  end.

(** The pattern as a term sequence; [None] outside the fragment. *)
Definition compile (src : string) : option (list (atom * quantifier)) :=
  tokens src ≫= terms.

(** [Canonicalize] under the [i] flag, on code units below 256: the upper
    case of a letter when that is one code unit of the same range. *)
Definition canonicalize (c : ascii) : ascii :=
  let n := N_of_ascii c in
  if (((97 <=? n) && (n <=? 122))
      || ((224 <=? n) && (n <=? 254) && negb (n =? 247)))%N
  then ascii_of_N (n - 32) else c.

Definition same_char (ignoreCase : bool) (a b : ascii) : bool :=
  if ignoreCase then Ascii.eqb (canonicalize a) (canonicalize b) else Ascii.eqb a b.

Definition atom_matches (ignoreCase : bool) (a : atom) (c : ascii) : bool :=
  match a with
  | Lit l => same_char ignoreCase l c
  | Dot => negb (is_line_terminator c)
  end.

(** Zero or more characters accepted by [ok], then the continuation. *)
Fixpoint star (ok : ascii -> bool) (k : string -> bool) (s : string) : bool :=
  k s ||
  match s with
  | String c r => ok c && star ok k r
  | EmptyString => false
  end.

(** The term sequence matches a prefix of the subject. *)
Fixpoint match_here (ignoreCase : bool) (p : list (atom * quantifier)) (s : string) : bool :=
  match p with
  | [] => true
  | (a, q) :: p' =>
      let ok := atom_matches ignoreCase a in
      let k := match_here ignoreCase p' in
      match q with
      | One => match s with String c r => ok c && k r | EmptyString => false end
      | Opt => k s || match s with String c r => ok c && k r | EmptyString => false end
      | Star => star ok k s
      | Plus => match s with String c r => ok c && star ok k r | EmptyString => false end
      end
  end.

(** The term sequence matches somewhere in the subject. *)
Fixpoint search (ignoreCase : bool) (p : list (atom * quantifier)) (s : string) : bool :=
  match_here ignoreCase p s ||
  match s with
  | String _ r => search ignoreCase p r
  | EmptyString => false
  end.

(** [re.test(s)], for a pattern of the fragment. *)
Definition test (re : t) (s : string) : option bool :=
  p ← compile (pattern re);
  Some (search (includes "i" (flags re)) p s).

End RegExp.

(** What a case-insensitive substring match is, stated on the strings
    alone: the needle, letter case apart, occurs in the subject. *)
Fixpoint prefix_ci (needle s : string) : bool :=
  match needle, s with
  | EmptyString, _ => true
  | String a n', String b s' => RegExp.same_char true a b && prefix_ci n' s'
  | String _ _, EmptyString => false
  end.

Fixpoint contains_ci (needle s : string) : bool :=
  prefix_ci needle s ||
  match s with
  | String _ r => contains_ci needle r
  | EmptyString => false
  end.

(** The class of [/[.*+?^${}()|[\]\\]/g] in the filter stage. *)
Definition in_escape_class (c : ascii) : bool :=
  match c with
  | "." | "*" | "+" | "?" | "^" | "$" | "{" | "}"
  | "(" | ")" | "|" | "[" | "]" | "\" => true
  | _ => false
  end%char.

(** [filterValue.replace(/[.*+?^${}()|[\]\\]/g, '\\$&')] *)
Fixpoint escapeRegExp (s : string) : string :=
  match s with
  | EmptyString => EmptyString
  | String c r =>
      if in_escape_class c then String "\" (String c (escapeRegExp r))
      else String c (escapeRegExp r)
  end.

(** ** Dates and predicates *)

(** A Date object: its time value in milliseconds, [None] for the
    [Invalid Date]. *)
Record JsDate := { time_value : option Z }.

(** What a property of [filterObject] can hold. *)
Inductive pred :=
| PValue (v : value)                       (* the request's value itself *)
| PId (id : string)                        (* [categories._id] *)
| PIn (values : list string)               (* [{ $in: values }] *)
| PRegex (re : RegExp.t)                   (* [{ $regex: re }] *)
| POr (conditions : list (string * RegExp.t))  (* [[{ [field]: { $regex: re } }, ...]] *)
| PRange (gte lte : option JsDate).        (* [{ $gte?, $lte? }] *)

(** ** The environment of a call *)

Record Env (Doc : Type) := {
  (** [Date.parse]: the time value of a date string, [None] for [NaN] *)
  Date_parse : string -> option Z;
  (** the message of the SyntaxError the engine raises for a pattern, on
      patterns outside the fragment of [RegExp.compile] *)
  RegExp_syntax_error : string -> option string;
  (** [Categories.findOne({ name }).collation({ locale: 'tr', strength: 1 })]:
      the [_id] of the category found, if any *)
  Categories_findOne : string -> result (option string);
  (** the paths of the model's schema that hold dates ([createdAt] and
      [updatedAt], for a schema with [timestamps: true]) *)
  Date_paths : list string;
  (** the message of the CastError the model raises for a date that is
      not valid, at a path *)
  CastError : string -> string;
  (** the count of the collection, for a filter whose dates cast *)
  Collection_countDocuments : gmap string pred -> result Z;
  (** [Model.find(filterObject)], populated, then
      [.sort(sortObject).skip(skip).limit(limit).exec()] *)
  Model_exec :
    gmap string pred -> list value -> list (string * Z) -> number -> number
    -> result (list Doc)
}.
Arguments Date_parse {Doc} _ _.
Arguments RegExp_syntax_error {Doc} _ _.
Arguments Categories_findOne {Doc} _ _.
Arguments Date_paths {Doc} _.
Arguments CastError {Doc} _ _.
Arguments Collection_countDocuments {Doc} _ _.
Arguments Model_exec {Doc} _ _ _ _ _ _.

(** [isNaN(date.valueOf())], for a bound of a range. *)
Definition is_invalid (bound : option JsDate) : bool :=
  match bound with
  | Some {| time_value := None |} => true
  | _ => false
  end.

(** The filter has, at the path, a range one of whose bounds is the
    [Invalid Date]. *)
Definition invalid_date_at (filterObject : gmap string pred) (path : string) : bool :=
  match filterObject !! path with
  | Some (PRange gte lte) => is_invalid gte || is_invalid lte
  | _ => false
  end.

(** [Model.countDocuments(filterObject)]: the model casts the filter to
    its schema before the collection sees it, and the cast of an
    [Invalid Date] to a date path fails with a CastError, which rejects the
    call.  (Only the date range writes a range, so at most one path can
    fail in this way; what else the cast refuses is left to the
    collection's answer.) *)
Definition Model_countDocuments {Doc : Type} (E : Env Doc)
    (filterObject : gmap string pred) : result Z :=
  match List.find (invalid_date_at filterObject) (Date_paths E) with
  | Some path => Throw (CastError E path)
  | None => Collection_countDocuments E filterObject
  end.

Section QueryBuilder.

Context {Doc : Type}.
Variable E : Env Doc.

(** [new RegExp(src, flags)]: a pattern of the fragment is well formed; for
    any other the engine decides. *)
Definition RegExp_new (src flags : string) : result RegExp.t :=
  let re := {| RegExp.pattern := src; RegExp.flags := flags |} in
  match RegExp.compile src with
  | Some _ => Ok re
  | None =>
      match RegExp_syntax_error E src with
      | Some message => Throw message
      | None => Ok re
      end
  end.

(** [new Date(v)]: a string is parsed, a number is the time value (within
    the range of time values), an object goes through its string. *)
Definition Date_new (v : value) : JsDate :=
  match v with
  | VStr s => {| time_value := Date_parse E s |}
  | VNum (Num n) =>
      {| time_value := if Z.abs n <=? 8640000000000000 then Some n else None |}
  | VNum _ => {| time_value := None |}
  | VBool b => {| time_value := Some (if b then 1 else 0) |}
  | VArr _ | VObj _ => {| time_value := Date_parse E (ToString v) |}
  end.

(** ** 3. Filtering *)

Fixpoint strip_prefix (p s : string) : option string :=
  match p, s with
  | EmptyString, _ => Some s
  | String a p', String b s' => if Ascii.eqb a b then strip_prefix p' s' else None
  | String _ _, EmptyString => None
  end.

(** The string without its last character, when that is [c]. *)
Fixpoint strip_last (c : ascii) (s : string) : option string :=
  match s with
  | EmptyString => None
  | String d EmptyString => if Ascii.eqb d c then Some EmptyString else None
  | String d r => String d <$> strip_last c r
  end.

Fixpoint has_line_terminator (s : string) : bool :=
  match s with
  | EmptyString => false
  | String c r => is_line_terminator c || has_line_terminator r
  end.

(** [key.match(/^filter\[(.+)\]$/)]: the captured field name. *)
Definition match_filter_key (key : string) : option string :=
  rest ← strip_prefix "filter[" key;
  fieldName ← strip_last "]" rest;
  if is_empty fieldName || has_line_terminator fieldName then None
  else Some fieldName.

(** The manual scan of the parameter names for [filter[...]]. *)
Definition manualFilter (q : object) : object :=
  foldl (fun m key =>
           match match_filter_key key, obj_get key q with
           | Some fieldName, Some v => obj_set fieldName v m
           | _, _ => m
           end) [] (Object_keys q).

(** The object whose properties are the candidate filters, if any. *)
Definition filterToProcess (q : object) : option value :=
  let f := obj_get "filter" q in
  if negb (truthy f) || negb (from_option is_object false f) then
    let m := manualFilter q in
    if (0 <? length (Object_keys m))%nat then Some (VObj m) else f
  else f.

(** [arr.forEach], with a step that may throw. *)
Fixpoint forEach {A S : Type} (f : A -> S -> result S) (l : list A) (s : S) : result S :=
  match l with
  | [] => Ok s
  | x :: r => s' ← f x s; forEach f r s'
  end.

(** The predicate an accepted field gets from its value. *)
Definition field_predicate (field : string) (filterValue : value) : result pred :=
  match filterValue with
  | VStr s =>
      if includes "," s then Ok (PIn (map trim (split "," s)))
      else if String.eqb field "status" then Ok (PValue filterValue)
      else re ← RegExp_new (escapeRegExp s) "i"; Ok (PRegex re)
  | _ => Ok (PValue filterValue)
  end.

Definition field_allowed (cfg : Config) (field : string) : bool :=
  (length (allowedFilterFields cfg) =? 0)%nat
  || includes_str field (allowedFilterFields cfg).

(** The body of the [forEach] over the candidate fields. *)
Definition filter_step (cfg : Config) (props : object)
    (field : string) (filterObject : gmap string pred) : result (gmap string pred) :=
  if field_allowed cfg field then
    match obj_get field props with
    | Some filterValue =>
        p ← field_predicate field filterValue;
        Ok (<[field := p]> filterObject)
    | None => Ok filterObject
    end
  else Ok filterObject.

Definition field_filters (cfg : Config) (toProcess : option value)
    (filterObject : gmap string pred) : result (gmap string pred) :=
  match toProcess with
  | Some v =>
      if is_object v then
        forEach (filter_step cfg (props_of v)) (Object_keys (props_of v)) filterObject
      else Ok filterObject
  | None => Ok filterObject
  end.

(** The category name, resolved to its id through the collection. *)
Definition category_filter (q : object) (filterObject : gmap string pred)
    : result (gmap string pred) :=
  let categories := obj_get "categories" q in
  if truthy categories then
    match categories with
    | Some (VStr name) =>
        found ← Categories_findOne E (trim name);
        match found with
        | Some id => Ok (<["categoriesIds" := PId id]> filterObject)
        | None => Ok filterObject
        end
    | _ => Throw "req.query.categories.trim is not a function"
    end
  else Ok filterObject.

(** ** 4. Global search *)

Fixpoint mapM {A B : Type} (f : A -> result B) (l : list A) : result (list B) :=
  match l with
  | [] => Ok []
  | x :: r => y ← f x; ys ← mapM f r; Ok (y :: ys)
  end.

Definition search_filter (options : Options) (q : object)
    (filterObject : gmap string pred) : result (gmap string pred) :=
  match obj_get "search" q, searchFields options with
  | Some searchTerm, Some fields =>
      if truthy (Some searchTerm) then
        searchConditions ←
          mapM (fun field => re ← RegExp_new (ToString searchTerm) "i"; Ok (field, re))
               fields;
        Ok (<["$or" := POr searchConditions]> filterObject)
      else Ok filterObject
  | _, _ => Ok filterObject
  end.

(** ** 5. Date range *)

(** [options.dateField || 'createdAt'] *)
Definition date_field (options : Options) : string :=
  match dateField options with
  | Some f => if is_empty f then "createdAt" else f
  | None => "createdAt"
  end.

Definition date_bound (v : option value) : option JsDate :=
  match v with
  | Some d => if truthy v then Some (Date_new d) else None
  | None => None
  end.

(** [req.query.date_from || req.query.date_to] *)
Definition dates_given (q : object) : bool :=
  truthy (obj_get "date_from" q) || truthy (obj_get "date_to" q).

(** The range object: [$gte] from [date_from], [$lte] from [date_to]. *)
Definition date_range (q : object) : pred :=
  PRange (date_bound (obj_get "date_from" q)) (date_bound (obj_get "date_to" q)).

Definition date_filter (options : Options) (q : object)
    (filterObject : gmap string pred) : gmap string pred :=
  if dates_given q then <[date_field options := date_range q]> filterObject
  else filterObject.

(** The filter object as it stands when the date range is reached. *)
Definition filter_before_dates (options : Options) (q : object)
    : result (gmap string pred) :=
  let cfg := config options in
  let toProcess := filterToProcess q in
  f1 ← category_filter q ∅;
  f2 ← field_filters cfg toProcess f1;
  search_filter options q f2.

(** The filter object the query is made with. *)
Definition filterObject (options : Options) (q : object) : result (gmap string pred) :=
  f3 ← filter_before_dates options q;
  Ok (date_filter options q f3).

(** ** 6. Populate *)

(** The relation descriptors of [options.populate]: the items of an array,
    or the one descriptor. *)
Definition populates (options : Options) : list value :=
  match populate options with
  | Some (VArr items) => items
  | Some v => if truthy (Some v) then [v] else []
  | None => []
  end.

(** ** 8. Page arithmetic *)

(** [Math.ceil(totalCount / limit)] for a count, a whole number.  A
    division by zero gives an infinity, or [NaN] for [0 / 0]; a division by
    an infinity gives zero.  Otherwise the quotient is that of the
    rationals: a count is below [2^53], and the double nearest to the
    quotient then lies on the same side of every whole number as the
    quotient itself does. *)
Definition lastPage (totalCount : Z) (limit : number) : number :=
  match limit with
  | Num 0 =>
      if 0 <? totalCount then Infinity
      else if totalCount <? 0 then NegInfinity else NaN
  | Num l => Num (Qceiling (inject_Z totalCount / inject_Z l)%Q)
  | Infinity | NegInfinity => Num 0
  | NaN => NaN
  end.

(** ** 9. URLs *)

Definition is_unreserved (c : ascii) : bool :=
  let n := N_of_ascii c in
  (((48 <=? n) && (n <=? 57)) || ((65 <=? n) && (n <=? 90))
   || ((97 <=? n) && (n <=? 122)))%N
  || match c with
     | "-" | "_" | "." | "!" | "~" | "*" | "'" | "(" | ")" => true
     | _ => false
     end%char.

Definition hex_digit (n : N) : ascii :=
  match n with
  | 0 => "0" | 1 => "1" | 2 => "2" | 3 => "3" | 4 => "4" | 5 => "5"
  | 6 => "6" | 7 => "7" | 8 => "8" | 9 => "9" | 10 => "A" | 11 => "B"
  | 12 => "C" | 13 => "D" | 14 => "E" | _ => "F"
  end%N%char.

Definition percent (byte : N) : string :=
  String "%" (String (hex_digit (byte / 16)) (String (hex_digit (byte mod 16)) EmptyString)).

(** The UTF-8 octets of a code unit below 256, percent-encoded. *)
Definition encode_unit (c : ascii) : string :=
  let n := N_of_ascii c in
  if is_unreserved c then String c EmptyString
  else if (n <? 128)%N then percent n
  else percent (192 + n / 64) +:+ percent (128 + n mod 64).

(** [encodeURIComponent(s)] *)
Fixpoint encodeURIComponent (s : string) : string :=
  match s with
  | EmptyString => EmptyString
  | String c r => encode_unit c +:+ encodeURIComponent r
  end.

(** [`${req.protocol}://${req.get('host')}${req.baseUrl}${req.path}`] *)
Definition base_url (req : Request) : string :=
  req_protocol req +:+ "://" +:+ default "undefined" (req_host req)
  +:+ req_baseUrl req +:+ req_path req.

(** [params[key] !== undefined && params[key] !== ''] *)
Definition param_kept (params : object) (key : string) : bool :=
  match obj_get key params with
  | None => false
  | Some (VStr s) => negb (is_empty s)
  | Some _ => true
  end.

(** The query string of [buildUrl]. *)
Definition queryString (params : object) : string :=
  join "&"
    (map (fun key => key +:+ "=" +:+ encodeURIComponent (ToString_opt (obj_get key params)))
         (List.filter (param_kept params) (Object_keys params))).

Definition buildUrl (req : Request) (pageNum : number) : string :=
  let params := define_property "page" (VNum pageNum) (req_query req) in
  base_url req +:+ "?" +:+ queryString params.

(** ** 10. The response *)

Record QueryInfo := {
  filters_applied : nat;
  sort_by : string;
  sort_direction : string
}.

Record Response := {
  data : list Doc;
  total : Z;
  per_page : number;
  current_page : number;
  last_page : number;
  from : option number;
  to : option number;
  path : string;
  first_page_url : string;
  last_page_url : string;
  next_page_url : option string;
  prev_page_url : option string;
  current_page_url : string;
  query_info : QueryInfo
}.

Definition respond (cfg : Config) (req : Request) (filterObject : gmap string pred)
    (sortObject : list (string * Z)) (totalCount : Z) (data : list Doc) : Response :=
  let q := req_query req in
  let page := page q in
  let limit := limit cfg q in
  let skip := skip cfg q in
  let lastPage := lastPage totalCount limit in
  let hasNextPage := ltb page lastPage in
  let hasPrevPage := ltb (Num 1) page in
  {| data := data;
     total := totalCount;
     per_page := limit;
     current_page := page;
     last_page := lastPage;
     from := if 0 <? totalCount then Some (skip + Num 1)%num else None;
     to :=
       if 0 <? totalCount then Some (Math_min (skip + limit)%num (Num totalCount))
       else None;
     path := base_url req;
     first_page_url := buildUrl req (Num 1);
     last_page_url := buildUrl req lastPage;
     next_page_url :=
       if hasNextPage then Some (buildUrl req (page + Num 1)%num) else None;
     prev_page_url :=
       if hasPrevPage then Some (buildUrl req (page - Num 1)%num) else None;
     current_page_url := buildUrl req page;
     query_info :=
       {| filters_applied := size filterObject;
          sort_by :=
            match sortObject with
            | (k, _) :: _ => if is_empty k then defaultSort cfg else k
            | [] => defaultSort cfg
            end;
          sort_direction :=
            match sortObject with
            | (_, 1) :: _ => "asc"
            | _ => "desc"
            end |} |}.

(** The prefix the [catch] block puts before the message of any error
    (the text of the source file, as its bytes). *)
Definition error_prefix : string := "Query Builder Hatası: ".

(** The statements of the [try] block, in their order. *)
Definition queryBuilder_try (req : Request) (options : Options) : result Response :=
  let cfg := config options in
  let q := req_query req in
  sortObj ← sortObject cfg q;
  filt ← filterObject options q;
  totalCount ← Model_countDocuments E filt;
  data ← Model_exec E filt (populates options) sortObj (skip cfg q) (limit cfg q);
  Ok (respond cfg req filt sortObj totalCount data).

Definition queryBuilder (req : Request) (options : Options) : result Response :=
  match queryBuilder_try req options with
  | Ok response => Ok response
  | Throw message => Throw (error_prefix +:+ message)
  end.

End QueryBuilder.

(** ** A sample environment

    An engine that reads date-only ISO strings and rejects the pattern
    ["("], a [Categories] collection with one category, and a model of
    twenty-five documents, with the date paths of [timestamps: true], whose
    collection matches every filter. *)

Module Sample.

Definition two_digits (a b : ascii) : option Z :=
  match digit 10 a, digit 10 b with
  | Some x, Some y => Some (10 * x + y)
  | _, _ => None
  end.

(** Days from 1970-01-01 to the given civil date. *)
Definition days_from_civil (y m d : Z) : Z :=
  let y' := if m <=? 2 then y - 1 else y in
  let era := y' / 400 in
  let yoe := y' - era * 400 in
  let mp := (m + 9) mod 12 in
  let doy := (153 * mp + 2) / 5 + d - 1 in
  let doe := yoe * 365 + yoe / 4 - yoe / 100 + doy in
  era * 146097 + doe - 719468.

(** [YYYY-MM-DD], as UTC midnight. *)
Definition parse_iso_date (s : string) : option Z :=
  match s with
  | String y1 (String y2 (String y3 (String y4 (String h1
      (String m1 (String m2 (String h2 (String d1 (String d2 EmptyString))))))))) =>
      match two_digits y1 y2, two_digits y3 y4, two_digits m1 m2, two_digits d1 d2 with
      | Some c, Some y, Some m, Some d =>
          if Ascii.eqb h1 "-" && Ascii.eqb h2 "-"
             && (1 <=? m) && (m <=? 12) && (1 <=? d) && (d <=? 31)
          then Some (days_from_civil (100 * c + y) m d * 86400000)
          else None
      | _, _, _, _ => None
      end
  | _ => None
  end.

Definition documents : list string :=
  map (fun i => "plant-" +:+ integer_to_string (Z.of_nat i)) (seq 1 25).

(** The text between double quotes (code unit 34). *)
Definition quoted (s : string) : string :=
  String (ascii_of_N 34) s +:+ String (ascii_of_N 34) EmptyString.

Definition env : Env string := {|
  Date_parse := parse_iso_date;
  RegExp_syntax_error := fun src =>
    if String.eqb src "(" then Some "Invalid regular expression: /(/i: Unterminated group"
    else None;
  Categories_findOne := fun name =>
    Ok (if String.eqb name "Sukulent" then Some "66b1f0c2a4d3e5f6a7b8c9d0" else None);
  Date_paths := ["createdAt"; "updatedAt"];
  CastError := fun path =>
    "Cast to date failed for value " +:+ quoted "Invalid Date"
    +:+ " (type Date) at path " +:+ quoted path
    +:+ " for model " +:+ quoted "Plants";
  Collection_countDocuments := fun _ => Ok (Z.of_nat (length documents));
  Model_exec := fun _ _ _ skip limit =>
    match skip, limit with
    | Num skip, Num limit =>
        if (0 <=? skip) && (0 <=? limit)
        then Ok (take (Z.to_nat limit) (drop (Z.to_nat skip) documents))
        else Throw "skip and limit must not be negative"
    | _, _ => Throw "skip and limit must be whole numbers"
    end
|}.

Definition request (q : object) : Request := {|
  req_query := q;
  req_protocol := "http";
  req_host := Some "localhost:3000";
  req_baseUrl := "/plants";
  req_path := "/"
|}.

(** The options of the plants route. *)
Definition plants_options : Options := {|
  opt_defaultLimit := Some 20;
  opt_maxLimit := Some 100;
  opt_defaultSort := Some "createdAt";
  opt_allowedSortFields :=
    Some ["name"; "status"; "createdAt"; "updatedAt"; "price"; "stockCount"];
  opt_allowedFilterFields :=
    Some ["name"; "description"; "status"; "categoriesIds"; "height"; "humidity";
          "temperature"; "watering"; "sunlight"; "nutrients"; "forSale"; "price";
          "stockCount"];
  searchFields := Some ["name"; "description"; "height"; "humidity"; "temperature"];
  dateField := Some "createdAt";
  populate := None
|}.

(** No option given: the defaults apply. *)
Definition no_options : Options := {|
  opt_defaultLimit := None;
  opt_maxLimit := None;
  opt_defaultSort := None;
  opt_allowedSortFields := None;
  opt_allowedFilterFields := None;
  searchFields := None;
  dateField := None;
  populate := None
|}.

End Sample.

(** ** Notions used in the statements *)

(** The pattern that matches the characters of [s], one by one. *)
Definition literal (s : string) : list (RegExp.atom * RegExp.quantifier) :=
  map (fun c => (RegExp.Lit c, RegExp.One)) (list_ascii_of_string s).

(** The predicate of a value, as a function; [field_predicate] never
    throws. *)
Definition predicate_of (field : string) (filterValue : value) : pred :=
  match filterValue with
  | VStr s =>
      if includes "," s then PIn (map trim (split "," s))
      else if String.eqb field "status" then PValue filterValue
      else PRegex {| RegExp.pattern := escapeRegExp s; RegExp.flags := "i" |}
  | _ => PValue filterValue
  end.

(** The step and the fold of the [forEach], written without the error
    monad. *)
Definition filter_pure_step (cfg : Config) (props : object)
    (fo : gmap string pred) (field : string) : gmap string pred :=
  if field_allowed cfg field then
    match obj_get field props with
    | Some filterValue => <[field := predicate_of field filterValue]> fo
    | None => fo
    end
  else fo.

Definition filter_fold (cfg : Config) (props : object)
    (fields : list string) (fo : gmap string pred) : gmap string pred :=
  foldl (filter_pure_step cfg props) fo fields.




(** *** How the collection reads a stored value

    The condition [{ field: v }], against a document whose field holds the
    string [stored].  A value whose first key is an operator is read as
    operators, each of which has to hold; any other value is compared with
    the field, which it equals only when it is the same string.  ([None]:
    an operator other than [$eq], [$ne], [$in] and [$nin].) *)

Definition same_string (v : value) (stored : string) : bool :=
  match v with
  | VStr s => String.eqb s stored
  | _ => false
  end.

Definition has_operators (v : value) : bool :=
  match v with
  | VObj ((key, _) :: _) => startsWith "$" key
  | _ => false
  end.

Definition operator_holds (op : string) (operand : value) (stored : string)
    : option bool :=
  if String.eqb op "$eq" then Some (same_string operand stored)
  else if String.eqb op "$ne" then Some (negb (same_string operand stored))
  else if String.eqb op "$in" then
    match operand with
    | VArr items => Some (existsb (fun item => same_string item stored) items)
    | _ => None
    end
  else if String.eqb op "$nin" then
    match operand with
    | VArr items => Some (negb (existsb (fun item => same_string item stored) items))
    | _ => None
    end
  else None.

Definition condition_holds (v : value) (stored : string) : option bool :=
  if has_operators v then
    foldr (fun '(op, operand) rest =>
             b ← operator_holds op operand stored;
             c ← rest;
             Some (b && c))
          (Some true) (props_of v)
  else Some (same_string v stored).

(** The parameter is given, is not empty, and [new Date] makes the
    [Invalid Date] of it. *)
Definition unparseable {Doc : Type} (E : Env Doc) (v : option value) : Prop :=
  exists d, v = Some d /\ truthy v = true /\ time_value (Date_new E d) = None.

(** The parameter name that carries a field in the bracket syntax. *)
Definition bracket_key (fieldName : string) : string :=
  "filter[" +:+ fieldName +:+ "]".

(** The value the request offers as a filter on a field, through the
    [filter] object or the bracket syntax. *)
Definition candidate_value (q : object) (fieldName : string) : option value :=
  match filterToProcess q with
  | Some toProcess =>
      if is_object toProcess then obj_get fieldName (props_of toProcess) else None
  | None => None
  end.

(** The same, when the field passes [allowedFilterFields]. *)
Definition accepted_candidate (cfg : Config) (q : object) (fieldName : string)
    : option value :=
  if field_allowed cfg fieldName then candidate_value q fieldName else None.

(** The id the [categories] parameter resolves to, if it is given and a
    category of that name is found. *)
Definition category_id {Doc : Type} (E : Env Doc) (q : object) : option string :=
  match obj_get "categories" q with
  | Some (VStr name) =>
      if is_empty name then None
      else match Categories_findOne E (trim name) with
           | Ok found => found
           | Throw _ => None
           end
  | _ => None
  end.

(** The [$or] clause of a search: one condition per search field, the
    pattern being the search term. *)
Definition search_clause (options : Options) (q : object) : option pred :=
  match obj_get "search" q, searchFields options with
  | Some searchTerm, Some fields =>
      if truthy (Some searchTerm) then
        Some (POr (map (fun field =>
                (field, {| RegExp.pattern := ToString searchTerm;
                           RegExp.flags := "i" |})) fields))
      else None
  | _, _ => None
  end.

(** What the filter object holds under a name, the later directive winning:
    the date range, then the search clause, then the accepted candidate,
    then the category. *)
Definition filter_entry {Doc : Type} (E : Env Doc) (options : Options)
    (q : object) (k : string) : option pred :=
  if dates_given q && bool_decide (k = date_field options) then
    Some (date_range E q)
  else
    match (if bool_decide (k = "$or") then search_clause options q else None) with
    | Some clause => Some clause
    | None =>
        match accepted_candidate (config options) q k with
        | Some v => Some (predicate_of k v)
        | None =>
            if bool_decide (k = "categoriesIds") then PId <$> category_id E q
            else None
        end
    end.

(** The parameter is given, truthy, and is not a string (what a repeated
    parameter, an array, is). *)
Definition given_not_string (v : option value) : Prop :=
  truthy v = true /\ forall s, v <> Some (VStr s).

(** *** Reading a query string back

    What a flat query-string parser does with the text after the [?]: the
    pairs are separated by [&], the name ends at the first [=], and in both
    parts [+] is a space and [%XX] an octet of UTF-8.  (Octets of code
    units from 256 on are outside the strings of the model.) *)










(** * The routes that use the builder *)

(** What a handler sends: a status with its JSON body, or a status with
    [{ success: false, message }]. *)
Inductive reply (A : Type) :=
| Sent (status : Z) (body : A)
| Refused (status : Z) (message : string).
Arguments Sent {A} status body.
Arguments Refused {A} status message.

(** [{ ...plant.toObject(), imageUrl }] *)
Record WithImageUrl (Doc : Type) := {
  plant : Doc;
  imageUrl : string
}.
Arguments plant {Doc} _.
Arguments imageUrl {Doc} _.

(** [`${req.protocol}://${req.get('host')}/images/${filename}`] *)
Definition toImageUrl (req : Request) (filename : option string) : string :=
  req_protocol req +:+ "://" +:+ default "undefined" (req_host req)
  +:+ "/images/" +:+ default "undefined" filename.

(** [{ ...result, data }] *)
Definition with_data {A B : Type} (result : @Response A) (d : list B) : @Response B := {|
  data := d;
  total := total result;
  per_page := per_page result;
  current_page := current_page result;
  last_page := last_page result;
  from := from result;
  to := to result;
  path := path result;
  first_page_url := first_page_url result;
  last_page_url := last_page_url result;
  next_page_url := next_page_url result;
  prev_page_url := prev_page_url result;
  current_page_url := current_page_url result;
  query_info := query_info result
|}.

(** The request with another [req.query]. *)
Definition with_query (req : Request) (q : object) : Request := {|
  req_query := q;
  req_protocol := req_protocol req;
  req_host := req_host req;
  req_baseUrl := req_baseUrl req;
  req_path := req_path req
|}.

(** ** GET /categories/:id/plants *)

Definition category_plants_options : Options := {|
  opt_defaultLimit := Some 5;
  opt_maxLimit := Some 50;
  opt_defaultSort := Some "createdAt";
  opt_allowedSortFields := Some ["name"; "status"; "createdAt"];
  opt_allowedFilterFields := Some ["name"; "description"; "status"; "categoriesIds"];
  searchFields := Some ["name"; "description"];
  dateField := Some "createdAt";
  populate := Some (VObj [("path", VStr "categoriesIds");
                          ("select", VStr "name description")])
|}.

(** [req.query] once the handler has stored the id of the path in it. *)
Definition category_plants_query (req : Request) (id : string) : object :=
  obj_set "filter[categoriesIds]" (VStr id) (req_query req).

Definition category_plants {Doc : Type} (E : Env Doc) (image : Doc -> option string)
    (req : Request) (id : string) : reply (@Response (WithImageUrl Doc)) :=
  let req' := with_query req (category_plants_query req id) in
  match queryBuilder E req' category_plants_options with
  | Ok result =>
      Sent 200
        (with_data result
           (map (fun p => {| plant := p; imageUrl := toImageUrl req' (image p) |})
                (data result)))
  | Throw message => Refused 500 message
  end.

(** The image file of a sample document. *)
Definition sample_image (d : string) : option string := Some (d +:+ ".jpg").

(** * The plants routes *)

Module Plants.

(** A property read from [req.body] or [req.query]: absent, [null], or a
    value. *)
Inductive jsval :=
| JUndefined
| JNull
| JVal (v : value).

(** [req.body]: its properties, [None] being [null]. *)
Abbreviation body := (list (string * option value)).

Fixpoint body_get (k : string) (b : body) : jsval :=
  match b with
  | [] => JUndefined
  | (k', v) :: r =>
      if String.eqb k' k then match v with Some x => JVal x | None => JNull end
      else body_get k r
  end.

(** A property of [req.query] *)
Definition query_get (k : string) (q : object) : jsval :=
  match obj_get k q with
  | Some x => JVal x
  | None => JUndefined
  end.

Definition js_truthy (v : jsval) : bool :=
  match v with
  | JVal x => truthy (Some x)
  | _ => false
  end.

(** [typeof v !== 'undefined'] *)
Definition defined (v : jsval) : bool :=
  match v with JUndefined => false | _ => true end.

(** [v === ''] *)
Definition is_empty_string (v : jsval) : bool :=
  match v with
  | JVal (VStr s) => is_empty s
  | _ => false
  end.

(** [String.prototype.toLowerCase] on code units below 256: the letters
    [A]-[Z] and [À]-[Þ] (but not [×]). *)
Definition lower_unit (c : ascii) : ascii :=
  let n := N_of_ascii c in
  if (((65 <=? n) && (n <=? 90))
      || ((192 <=? n) && (n <=? 222) && negb (n =? 215)))%N
  then ascii_of_N (n + 32) else c.

Fixpoint toLowerCase (s : string) : string :=
  match s with
  | EmptyString => EmptyString
  | String c r => String (lower_unit c) (toLowerCase r)
  end.

(** [v === true || v === 1 || v === '1' ||
     (typeof v === 'string' && ['true','on','yes','y'].includes(v.toLowerCase()))] *)
Definition toBool (v : jsval) : bool :=
  match v with
  | JVal (VBool b) => b
  | JVal (VNum n) => match n with Num 1 => true | _ => false end
  | JVal (VStr s) =>
      String.eqb s "1" || includes_str (toLowerCase s) ["true"; "on"; "yes"; "y"]
  | _ => false
  end.

(** [Number.parseInt(s, 10)]: as [parseInt], but [0x] is no prefix. *)
Definition parseInt10 (s : string) : number :=
  let s1 := trimStart s in
  let '(sign, s2) :=
    match s1 with
    | String "-" r => (-1, r)
    | String "+" r => (1, r)
    | _ => (1, s1)
    end%char in
  match digits 10 s2 None with
  | Some n => to_double (sign * n)
  | None => NaN
  end.

Definition js_to_string (v : jsval) : string :=
  match v with
  | JUndefined => "undefined"
  | JNull => "null"
  | JVal x => ToString x
  end.

(** The results of [toNonNegIntOrNull]: [null], ['INVALID'], or a number. *)
Inductive count :=
| CountNull
| INVALID
| Count (n : Z).

Definition toNonNegIntOrNull (v : jsval) : count :=
  if negb (defined v) || match v with JNull => true | _ => false end
     || is_empty_string v
  then CountNull
  else
    match parseInt10 (js_to_string v) with
    | Num n => if n <? 0 then INVALID else Count n
    | _ => INVALID          (* [!Number.isFinite(n)] *)
    end.

(** [Number(v)], an IEEE double, is left to the engine: the type of numbers
    with the conversion and the two tests the routes apply to a price. *)
Record Numeric := {
  num : Type;
  Number_ : jsval -> num;
  Number_isNaN : num -> bool;
  negative : num -> bool        (* [n < 0] *)
}.

(** The three outcomes of reading [req.body.price]. *)
Inductive price_read (N : Numeric) :=
| NoPrice
| InvalidPrice
| Price (n : num N).
Arguments NoPrice {N}.
Arguments InvalidPrice {N}.
Arguments Price {N} n.

Definition read_price (N : Numeric) (v : jsval) : price_read N :=
  if defined v && negb (is_empty_string v) then
    let n := Number_ N v in
    if Number_isNaN N n || negative N n then InvalidPrice else Price n
  else NoPrice.

(** [categoriesIds] once normalized: the ids of a comma-separated string,
    or the value as it came. *)
Inductive ids :=
| Ids (l : list string)
| IdsValue (v : value).

(** [categoriesIds.split(',').map((s) => s.trim()).filter(Boolean)] for a
    string *)
Definition normalize_ids (v : value) : ids :=
  match v with
  | VStr s => Ids (List.filter (fun x => negb (is_empty x)) (map trim (split "," s)))
  | _ => IdsValue v
  end.

(** The stock count POST and PUT read from the body: nothing when it is
    absent or the empty string. *)
Definition body_stock (b : body) : count :=
  if defined (body_get "stockCount" b)
     && negb (is_empty_string (body_get "stockCount" b))
  then toNonNegIntOrNull (body_get "stockCount" b)
  else CountNull.

(** ** POST /plants: the payload *)

Module Create.

Record payload (N : Numeric) := {
  name : jsval;
  description : jsval;
  categoriesIds : ids;
  image : option string;
  createdBy : jsval;
  height : jsval;
  humidity : jsval;
  temperature : jsval;
  watering : option bool;
  sunlight : option bool;
  nutrients : option bool;
  price : option (num N);
  stockCount : option Z;
  forSale : option bool
}.
Arguments name {N} _.
Arguments categoriesIds {N} _.
Arguments createdBy {N} _.
Arguments watering {N} _.
Arguments price {N} _.
Arguments stockCount {N} _.
Arguments forSale {N} _.

End Create.

(** [typeof v !== 'undefined' ? toBool(v) : (not set)] *)
Definition flag (v : jsval) : option bool :=
  if defined v then Some (toBool v) else None.

(** The handler up to [new Plants(payload)]: a refusal, or the payload. *)
Definition create_payload (N : Numeric) (b : body) (filename : option string)
    : (Z * string) + Create.payload N :=
  match body_get "categoriesIds" b with
  | JVal categoriesIds =>
      if negb (truthy (Some categoriesIds)) then inl (400, "Kategori seçilmedi")
      else if negb (js_truthy (body_get "createdBy" b))
      then inl (400, "createdBy (userId) eksik")
      else
        match read_price N (body_get "price" b) with
        | InvalidPrice => inl (400, "Invalid price")
        | price =>
            match body_stock b with
            | INVALID => inl (400, "Invalid stockCount")
            | _ =>
                let stock :=
                  match body_stock b with Count n => Some n | _ => None end in
                inr {| Create.name := body_get "name" b;
                       Create.description := body_get "description" b;
                       Create.categoriesIds := normalize_ids categoriesIds;
                       Create.image := filename;
                       Create.createdBy := body_get "createdBy" b;
                       Create.height := body_get "height" b;
                       Create.humidity := body_get "humidity" b;
                       Create.temperature := body_get "temperature" b;
                       Create.watering := flag (body_get "watering" b);
                       Create.sunlight := flag (body_get "sunlight" b);
                       Create.nutrients := flag (body_get "nutrients" b);
                       Create.price := match price with Price n => Some n | _ => None end;
                       Create.stockCount := stock;
                       Create.forSale :=
                         if defined (body_get "forSale" b)
                         then Some (toBool (body_get "forSale" b)
                                    && (0 <? default 0 stock))
                         else None |}
            end
        end
  | _ => inl (400, "Kategori seçilmedi")
  end.

(** ** PUT /plants/:id: the update *)

(** What the handler reads of the plant it found. *)
Record Existing (N : Numeric) := {
  existing_fields : object;            (* name, description, status, ... *)
  existing_image : option string;
  existing_price : option (num N);     (* when [typeof price === 'number'] *)
  existing_forSale : option bool;      (* when [typeof forSale === 'boolean'] *)
  existing_stockCount : option Z       (* when [Number.isFinite(stockCount)] *)
}.
Arguments existing_fields {N} _.
Arguments existing_image {N} _.
Arguments existing_price {N} _.
Arguments existing_forSale {N} _.
Arguments existing_stockCount {N} _.

Module Update.

Record updateData (N : Numeric) := {
  name : jsval;
  description : jsval;
  status : jsval;
  categoriesIds : option ids;
  height : jsval;
  humidity : jsval;
  temperature : jsval;
  image : option string;
  watering : option bool;
  sunlight : option bool;
  nutrients : option bool;
  price : option (num N);              (* [None] is [null] *)
  forSale : bool;
  stockCount : Z
}.
Arguments name {N} _.
Arguments categoriesIds {N} _.
Arguments price {N} _.
Arguments forSale {N} _.
Arguments stockCount {N} _.

End Update.

(** [req.body.k || existing.k] *)
Definition or_existing {N : Numeric} (b : body) (existing : Existing N) (k : string)
    : jsval :=
  if js_truthy (body_get k b) then body_get k b
  else query_get k (existing_fields existing).

(** The handler from the plant found up to the upload: a refusal, or the
    update. *)
Definition update_data (N : Numeric) (b : body) (existing : Existing N)
    : (Z * string) + Update.updateData N :=
  match read_price N (body_get "price" b) with
  | InvalidPrice => inl (400, "Invalid price")
  | price =>
      match body_stock b with
      | INVALID => inl (400, "Invalid stockCount")
      | _ =>
          let stock :=
            match body_stock b with
            | Count n => n
            | _ => default 0 (existing_stockCount existing)
            end in
          let sale := default false (existing_forSale existing) in
          inr {| Update.name := or_existing b existing "name";
                 Update.description := or_existing b existing "description";
                 Update.status := or_existing b existing "status";
                 Update.categoriesIds :=
                   match or_existing b existing "categoriesIds" with
                   | JVal v => Some (normalize_ids v)
                   | _ => None
                   end;
                 Update.height := or_existing b existing "height";
                 Update.humidity := or_existing b existing "humidity";
                 Update.temperature := or_existing b existing "temperature";
                 Update.image := existing_image existing;
                 Update.watering := flag (body_get "watering" b);
                 Update.sunlight := flag (body_get "sunlight" b);
                 Update.nutrients := flag (body_get "nutrients" b);
                 Update.price :=
                   match price with
                   | Price n => Some n
                   | _ => existing_price existing
                   end;
                 Update.forSale :=
                   if defined (body_get "forSale" b)
                   then toBool (body_get "forSale" b) && (0 <? stock)
                   else if stock =? 0 then false else sale;
                 Update.stockCount := stock |}
      end
  end.

(** ** The plant documents and the collection, for the stock routes *)

Record Plant := {
  doc_id : string;
  doc_image : option string;
  doc_stockCount : option Z;     (* [None] when it is not a number *)
  doc_forSale : option bool;     (* [None] when it is not a boolean *)
  doc_fields : object
}.

(** [p.stockCount === 0 && p.forSale === true] *)
Definition sold_out_for_sale (p : Plant) : bool :=
  match doc_stockCount p, doc_forSale p with
  | Some 0, Some true => true
  | _, _ => false
  end.

(** [after.forSale = false] *)
Definition not_forSale (p : Plant) : Plant := {|
  doc_id := doc_id p;
  doc_image := doc_image p;
  doc_stockCount := doc_stockCount p;
  doc_forSale := Some false;
  doc_fields := doc_fields p
|}.

Module Sale.

(** The payload of PATCH /plants/:id/sale: the properties that were set. *)
Record payload (N : Numeric) := {
  price : option (num N);
  forSale : option bool
}.
Arguments price {N} _.
Arguments forSale {N} _.

End Sale.

(** The calls the stock routes make on the [Plants] model. *)
Record Store (N : Numeric) := {
  (** [findOneAndUpdate({ _id, stockCount: { $gte: amount } },
        { $inc: { stockCount: -amount } }, { new: true })] *)
  take_stock : string -> Z -> result (option Plant);
  (** [updateOne({ _id }, { $set: { forSale: false } })] *)
  clear_forSale : string -> result unit;
  (** [findByIdAndUpdate(id, { $set: { stockCount: sc } }, ...)] *)
  set_stock : string -> option Z -> result (option Plant);
  (** [updated.save()] *)
  save : Plant -> result unit;
  (** [findById(id).select('stockCount')]: the stock of the plant found *)
  stock_of : string -> result (option (option Z));
  (** [findByIdAndUpdate(id, { $set: payload }, ...)] *)
  set_sale : string -> Sale.payload N -> result (option Plant)
}.
Arguments take_stock {N} _ _ _.
Arguments clear_forSale {N} _ _.
Arguments set_stock {N} _ _ _.
Arguments save {N} _ _.
Arguments stock_of {N} _ _.
Arguments set_sale {N} _ _ _.

(** A handler's [try] block ends with a reply or with a thrown error; the
    [catch] answers the error with the given status. *)
Definition caught {A : Type} (status : Z) (r : result (reply A)) : reply A :=
  match r with
  | Ok sent => sent
  | Throw message => Refused status message
  end.

Definition with_url (req : Request) (p : Plant) : WithImageUrl Plant :=
  {| plant := p; imageUrl := toImageUrl req (doc_image p) |}.

(** ** POST /plants/:id/buy *)

(** [Number.isFinite(qty) && qty > 0 ? qty : 1] *)
Definition buy_amount (qtyRaw : jsval) : Z :=
  match parseInt10 (js_to_string qtyRaw) with
  | Num qty => if 0 <? qty then qty else 1
  | _ => 1
  end.

Definition buy {N : Numeric} (S : Store N) (req : Request) (id : string)
    (b : option body) : reply (WithImageUrl Plant) :=
  caught 500
    (let qtyRaw := match b with Some b => body_get "qty" b | None => JUndefined end in
     let amount := buy_amount qtyRaw in
     after ← take_stock S id amount;
     match after with
     | None => Ok (Refused 400 "Yetersiz stok")
     | Some after =>
         if sold_out_for_sale after
         then _ ← clear_forSale S (doc_id after);
              Ok (Sent 200 (with_url req (not_forSale after)))
         else Ok (Sent 200 (with_url req after))
     end).

(** ** PATCH /plants/:id/stock *)

Definition patch_stock {N : Numeric} (S : Store N) (req : Request) (id : string)
    (b : body) : reply (WithImageUrl Plant) :=
  caught 500
    (if negb (defined (body_get "stockCount" b))
     then Ok (Refused 400 "stockCount required")
     else
       match toNonNegIntOrNull (body_get "stockCount" b) with
       | INVALID => Ok (Refused 400 "Invalid stockCount")
       | sc =>
           updated ← set_stock S id (match sc with Count n => Some n | _ => None end);
           match updated with
           | None => Ok (Refused 404 "Plant not found")
           | Some updated =>
               if sold_out_for_sale updated
               then _ ← save S (not_forSale updated);
                    Ok (Sent 200 (with_url req (not_forSale updated)))
               else Ok (Sent 200 (with_url req updated))
           end
       end).

(** ** PATCH /plants/:id/sale *)

Definition patch_sale {N : Numeric} (S : Store N) (req : Request) (id : string)
    (b : body) : reply (WithImageUrl Plant) :=
  caught 500
    (match read_price N (body_get "price" b) with
     | InvalidPrice => Ok (Refused 400 "Invalid price")
     | price =>
         let payload_price := match price with Price n => Some n | _ => None end in
         let payload_forSale := flag (body_get "forSale" b) in
         match payload_price, payload_forSale with
         | None, None => Ok (Refused 400 "Nothing to update")
         | _, _ =>
             let write forSale :=
               updated ← set_sale S id {| Sale.price := payload_price;
                                          Sale.forSale := forSale |};
               match updated with
               | None => Ok (Refused 404 "Plant not found")
               | Some updated => Ok (Sent 200 (with_url req updated))
               end in
             match payload_forSale with
             | Some true =>
                 p ← stock_of S id;
                 match p with
                 | None => Ok (Refused 404 "Plant not found")
                 | Some stockCount =>
                     if default 0 stockCount <=? 0 then write (Some false)
                     else write (Some true)
                 end
             | _ => write payload_forSale
             end
         end
     end).

(** A sample engine for the numbers of a price: whole numbers written in
    digits. *)
Definition whole_numbers : Numeric := {|
  num := option Z;
  Number_ := fun v =>
    match v with
    | JVal (VNum (Num n)) => Some n
    | JVal (VStr s) =>
        if all_digits s && negb (is_empty s) then digits 10 s None else None
    | JVal (VBool b) => Some (if b then 1 else 0)
    | JNull => Some 0
    | _ => None
    end;
  Number_isNaN := fun n => match n with None => true | Some _ => false end;
  negative := fun n => match n with Some k => k <? 0 | None => false end
|}.

(** A sample quantity of four hundred digits, more than a double holds. *)
Definition nines : string := string_of_list_ascii (repeat "9"%char 400).

(** A sample collection: one plant, [p1], with the given stock and sale
    flag; every call succeeds. *)
Definition sample_plant (stock : option Z) (sale : option bool) : Plant := {|
  doc_id := "p1";
  doc_image := Some "aloe.jpg";
  doc_stockCount := stock;
  doc_forSale := sale;
  doc_fields := [("name", VStr "Aloe")]
|}.

Definition one_plant (N : Numeric) (stock : Z) (sale : bool) : Store N := {|
  take_stock := fun id amount =>
    if String.eqb id "p1" && (amount <=? stock)
    then Ok (Some (sample_plant (Some (stock - amount)) (Some sale)))
    else Ok None;
  clear_forSale := fun _ => Ok tt;
  set_stock := fun id sc =>
    if String.eqb id "p1" then Ok (Some (sample_plant sc (Some sale))) else Ok None;
  save := fun _ => Ok tt;
  stock_of := fun id => if String.eqb id "p1" then Ok (Some (Some stock)) else Ok None;
  set_sale := fun id payload =>
    if String.eqb id "p1"
    then Ok (Some (sample_plant (Some stock)
                     (Some (default sale (Sale.forSale payload)))))
    else Ok None
|}.

End Plants.

(** ** GET /plants *)

(** The options the handler passes, written out in [Sample]. *)
Definition plants_list_options : Options := Sample.plants_options.

(** What the handler reads of a plant document, and the call it makes on
    the fetched documents. *)
Record PlantDocs (Doc : Type) := {
  (** [Boolean(p.forSale)] *)
  Boolean_forSale : Doc -> bool;
  (** [Number(p.stockCount) > 0] *)
  stock_positive : Doc -> bool;
  (** [plant.image] *)
  image_of : Doc -> option string;
  (** [Plants.populate(result.data, { path: 'categoriesIds' })]: the
      documents, populated *)
  Plants_populate : list Doc -> result (list Doc)
}.
Arguments Boolean_forSale {Doc} _ _.
Arguments stock_positive {Doc} _ _.
Arguments image_of {Doc} _ _.
Arguments Plants_populate {Doc} _ _.

(** [toBool(req.query.availableOnly || false)] *)
Definition availableOnly (q : object) : bool :=
  let v := Plants.query_get "availableOnly" q in
  Plants.toBool (if Plants.js_truthy v then v else Plants.JVal (VBool false)).

(** [result.data] after the two [filter] calls. *)
Definition listed {Doc : Type} (V : PlantDocs Doc) (q : object) (docs : list Doc)
    : list Doc :=
  let wanted :=
    if Plants.defined (Plants.query_get "forSale" q)
    then List.filter
           (fun p => Bool.eqb (Boolean_forSale V p)
                              (Plants.toBool (Plants.query_get "forSale" q)))
           docs
    else docs in
  if availableOnly q
  then List.filter (fun p => Boolean_forSale V p && stock_positive V p) wanted
  else wanted.

Definition plants_list {Doc : Type} (E : Env Doc) (V : PlantDocs Doc) (req : Request)
    : reply (@Response (WithImageUrl Doc)) :=
  Plants.caught 500
    (result ← queryBuilder E req plants_list_options;
     populated ← Plants_populate V (listed V (req_query req) (data result));
     Ok (Sent 200
           (with_data result
              (map (fun p => {| plant := p; imageUrl := toImageUrl req (image_of V p) |})
                   populated)))).

(** Sample documents are names; the ones with a [1] are for sale and the
    ones with a [2] have stock. *)
Definition sample_docs : PlantDocs string := {|
  Boolean_forSale := fun d => includes "1" d;
  stock_positive := fun d => includes "2" d;
  image_of := sample_image;
  Plants_populate := fun docs => Ok docs
|}.

(** ** GET /categories/hierarchy *)

Module Hierarchy.

(** A category document: its [_id], as the string that keys the map (the
    hexadecimal digits of an ObjectId, never the name of a property that
    objects inherit), its [parentId] ([None] for [null]) and the rest of it. *)
Record Category := {
  _id : string;
  parentId : option string;
  _doc : object
}.

(** An entry of [categoriesMap]: [{ ...cat._doc, children }].  The children
    are entries of the same map, shared with it; an entry is referred to by
    its key. *)
Record entry := {
  doc : Category;
  children : list string
}.

(** The first [forEach] *)
Definition enter (categoriesMap : gmap string entry) (cat : Category)
    : gmap string entry :=
  <[_id cat := {| doc := cat; children := [] |}]> categoriesMap.

(** The second [forEach]: the map and [roots] *)
Definition place (state : gmap string entry * list string) (cat : Category)
    : gmap string entry * list string :=
  let '(categoriesMap, roots) := state in
  match parentId cat with
  | Some parent =>
      match categoriesMap !! parent with
      | Some e =>
          (<[parent := {| doc := doc e; children := children e ++ [_id cat] |}]>
             categoriesMap, roots)
      | None => (categoriesMap, roots)
      end
  | None => (categoriesMap, roots ++ [_id cat])
  end.

(** The map and the roots the handler ends with. *)
Definition hierarchy (categories : list Category) : gmap string entry * list string :=
  fold_left place categories (fold_left enter categories ∅, []).

(** An entry once the categories of a list have been placed: the ids of
    those whose parent it is come after its children, in their order. *)
Definition placed (categories : list Category) (id : string) (e : entry) : entry :=
  {| doc := doc e;
     children :=
       children e
       ++ map _id (List.filter (fun c => bool_decide (parentId c = Some id)) categories) |}.

(** A sample collection: a root with two children, one of them with a
    child of its own, and a category whose parent is not in the collection. *)
Definition sample : list Category :=
  [ {| _id := "a"; parentId := None; _doc := [("name", VStr "Plants")] |};
    {| _id := "b"; parentId := Some "a"; _doc := [("name", VStr "Succulents")] |};
    {| _id := "c"; parentId := Some "b"; _doc := [("name", VStr "Aloe")] |};
    {| _id := "d"; parentId := Some "a"; _doc := [("name", VStr "Ferns")] |};
    {| _id := "e"; parentId := Some "zz"; _doc := [("name", VStr "Lost")] |} ].

End Hierarchy.

(** * Properties *)

(** ** Numbers: what rounding leaves exact *)

Lemma nearest53_small (n : Z) : 0 <= n < 2 ^ 53 -> nearest53 n = n.
Proof.
  intros [H0 H1]. unfold nearest53.
  assert (Hb : Z.log2 n + 1 <= 53).
  { destruct (Z.eq_dec n 0) as [->|Hn]; [cbn; lia|].
    assert (Z.log2 n < 53) by (apply Z.log2_lt_pow2; lia). lia. }
  apply Z.leb_le in Hb. rewrite Hb. reflexivity.
Qed.

Lemma nearest53_big (n : Z) : 2 ^ 53 <= n -> 2 ^ 53 <= nearest53 n.
Proof.
  intros Hn. unfold nearest53.
  assert (Hpos : 0 < n) by (pose proof (Z.pow_pos_nonneg 2 53); lia).
  assert (Hlog : 53 <= Z.log2 n) by (apply Z.log2_le_pow2; lia).
  destruct (Z.leb_spec (Z.log2 n + 1) 53) as [Hle|_]; [lia|].
  set (e := Z.log2 n + 1 - 53).
  assert (He : 1 <= e) by (unfold e; lia).
  assert (Hunit : 2 <= 2 ^ e).
  { change 2 with (2 ^ 1) at 1. apply Z.pow_le_mono_r; lia. }
  assert (Hspec : 2 ^ 52 * 2 ^ e <= n).
  { rewrite <- Z.pow_add_r by lia. replace (52 + e) with (Z.log2 n) by (unfold e; lia).
    apply Z.log2_spec. exact Hpos. }
  assert (Hq : 2 ^ 52 <= n / 2 ^ e).
  { apply Z.div_le_lower_bound; lia. }
  assert (H52 : 0 < 2 ^ 52) by (apply Z.pow_pos_nonneg; lia).
  assert (H53 : 2 ^ 53 = 2 ^ 52 * 2) by reflexivity.
  destruct (_ || _); nia.
Qed.

Lemma to_double_exact (n : Z) : - 2 ^ 53 < n < 2 ^ 53 -> to_double n = Num n.
Proof.
  intros Hn. unfold to_double.
  rewrite nearest53_small by lia.
  assert (Hlt : Z.abs n < 2 ^ 1024).
  { assert (2 ^ 53 <= 2 ^ 1024) by (apply Z.pow_le_mono_r; lia). lia. }
  destruct (Z.leb_spec (2 ^ 1024) (Z.abs n)) as [Hge|_]; [lia|].
  f_equal. lia.
Qed.

Lemma to_double_big (n : Z) :
  2 ^ 53 <= n -> to_double n = Infinity \/ exists k, to_double n = Num k /\ 2 ^ 53 <= k.
Proof.
  intros Hn. unfold to_double.
  assert (Hpos : 0 < n) by (pose proof (Z.pow_pos_nonneg 2 53); lia).
  rewrite Z.abs_eq by lia.
  pose proof (nearest53_big n Hn) as Hm.
  destruct (2 ^ 1024 <=? nearest53 n).
  - left. destruct (Z.ltb_spec n 0); [lia | reflexivity].
  - right. eexists. split; [reflexivity|].
    rewrite Z.sgn_pos by lia. lia.
Qed.

Lemma to_double_ge (t n : Z) :
  t < 2 ^ 53 -> 0 <= n -> t <= n ->
  to_double n = Infinity \/ exists k, to_double n = Num k /\ t <= k.
Proof.
  intros Ht H0 Hn. destruct (Z.lt_ge_cases n (2 ^ 53)) as [Hs|Hb].
  - right. exists n. split; [apply to_double_exact; lia | exact Hn].
  - destruct (to_double_big n Hb) as [Hi|(k & Hk & Hge)]; [left; exact Hi|].
    right. exists k. split; [exact Hk | lia].
Qed.

Lemma to_double_gt (t n : Z) :
  t < 2 ^ 53 -> 0 <= n -> t < n ->
  to_double n = Infinity \/ exists k, to_double n = Num k /\ t < k.
Proof.
  intros Ht H0 Hn. destruct (Z.lt_ge_cases n (2 ^ 53)) as [Hs|Hb].
  - right. exists n. split; [apply to_double_exact; lia | exact Hn].
  - destruct (to_double_big n Hb) as [Hi|(k & Hk & Hge)]; [left; exact Hi|].
    right. exists k. split; [exact Hk | lia].
Qed.

Lemma Math_min_to_double (x t : Z) :
  0 <= x -> 0 <= t < 2 ^ 53 ->
  Math_min (to_double x) (Num t) = Num (Z.min x t).
Proof.
  intros Hx Ht. destruct (Z.lt_ge_cases x (2 ^ 53)) as [Hs|Hb].
  - rewrite to_double_exact by lia. cbn.
    destruct (Z.ltb_spec t x); f_equal; lia.
  - destruct (to_double_big x Hb) as [->|(k & -> & Hge)]; cbn.
    + f_equal. lia.
    + destruct (Z.ltb_spec t k); f_equal; lia.
Qed.

(** ** Page window and page arithmetic *)

Lemma page_of (q : object) :
  page q
  = match parseInt (ToString_opt (obj_get "page" q)) with
    | Num n => Num (Z.max 1 n)
    | Infinity => Infinity
    | NegInfinity | NaN => Num 1
    end.
Proof.
  unfold page. destruct (parseInt _) as [n| | |]; try reflexivity.
  destruct n as [|n|n]; try reflexivity.
  cbn. destruct (Z.ltb_spec 1 (Z.pos n)); f_equal; lia.
Qed.


Lemma page_ge_1 (q : object) :
  page q = Infinity \/ exists p, page q = Num p /\ 1 <= p.
Proof.
  rewrite page_of. destruct (parseInt _) as [n| | |]; [right|left|right|right];
    try reflexivity; eexists; (split; [reflexivity | lia]).
Qed.


Lemma skip_exact (cfg : Config) (q : object) (p l : Z) :
  page q = Num p -> limit cfg q = Num l ->
  1 <= l -> (p - 1) * l < 2 ^ 53 ->
  skip cfg q = Num ((p - 1) * l).
Proof.
  intros Hp Hl H1 Hsafe.
  assert (Hp1 : 1 <= p).
  { destruct (page_ge_1 q) as [Hi|(p' & Hp' & Hge)]; congruence. }
  unfold skip. rewrite Hp, Hl. cbn [sub mul].
  rewrite (to_double_exact (p - 1)) by nia.
  apply to_double_exact. nia.
Qed.

Lemma ceiling_floor (totalCount : Z) (p : positive) :
  Qceiling (inject_Z totalCount / inject_Z (Z.pos p)) = - (- totalCount / Z.pos p).
Proof.
  unfold Qceiling, Qfloor, Qdiv, Qmult, Qinv, Qopp, inject_Z. simpl.
  rewrite Z.mul_1_r. reflexivity.
Qed.

(** [lastPage] is the least number of pages of [limit] rows that hold
    [totalCount] rows. *)
Lemma lastPage_ceiling (totalCount limit : Z) :
  1 <= limit ->
  exists L, lastPage totalCount (Num limit) = Num L
            /\ (L - 1) * limit < totalCount <= L * limit.
Proof.
  intros Hl. destruct limit as [|p|p]; try lia.
  cbn [lastPage]. rewrite ceiling_floor. eexists. split; [reflexivity|].
  pose proof (Z.div_mod (- totalCount) (Z.pos p) ltac:(lia)) as Hdm.
  pose proof (Z.mod_pos_bound (- totalCount) (Z.pos p) ltac:(lia)) as Hb.
  nia.
Qed.






(** ** Sorting *)

Lemma includes_str_In (x : string) (l : list string) :
  includes_str x l = true <-> In x l.
Proof.
  unfold includes_str. rewrite existsb_exists. split.
  - intros (y & Hy & Heq). apply String.eqb_eq in Heq. subst y. exact Hy.
  - intros Hx. exists x. split; [exact Hx | apply String.eqb_refl].
Qed.

Lemma includes_str_false (x : string) (l : list string) :
  ~ In x l -> includes_str x l = false.
Proof.
  intros Hn. destruct (includes_str x l) eqn:Hi; [|reflexivity].
  apply includes_str_In in Hi. contradiction.
Qed.

(** A [sort] value names a field: it is the field's name, or that name
    after one [-]. *)
Lemma sortObject_field (cfg : Config) (q : object) (sortField fieldName : string) :
  obj_get "sort" q = Some (VStr sortField) ->
  sortField = String "-" fieldName
  \/ (sortField = fieldName /\ forall rest, fieldName <> String "-" rest) ->
  sortObject cfg q
  = if is_empty sortField then Ok [(defaultSort cfg, -1)]
    else if (length (allowedSortFields cfg) =? 0)%nat
            || includes_str fieldName (allowedSortFields cfg)
    then Ok (sort_on fieldName (if startsWith "-" sortField then -1 else 1))
    else Ok [(defaultSort cfg, -1)].
Proof.
  intros Hq Hname. unfold sortObject. rewrite Hq. cbn [truthy].
  destruct Hname as [-> | [-> Hplain]]; [reflexivity|].
  destruct fieldName as [|c r]; [reflexivity|]. cbn.
  destruct (Ascii.eqb c "-") eqn:Hc; [|reflexivity].
  apply Ascii.eqb_eq in Hc. subst c. destruct (Hplain r). reflexivity.
Qed.

Lemma sortObject_fallback (cfg : Config) (q : object) (fieldName : string) :
  obj_get "sort" q = None
  \/ obj_get "sort" q = Some (VStr EmptyString)
  \/ (allowedSortFields cfg <> []
      /\ ~ In fieldName (allowedSortFields cfg)
      /\ (obj_get "sort" q = Some (VStr (String "-" fieldName))
          \/ (obj_get "sort" q = Some (VStr fieldName)
              /\ forall rest, fieldName <> String "-" rest))) ->
  sortObject cfg q = Ok [(defaultSort cfg, -1)].
Proof.
  intros [Hq | [Hq | (Hne & Hnot & Hq)]].
  - unfold sortObject. rewrite Hq. reflexivity.
  - unfold sortObject. rewrite Hq. reflexivity.
  - assert (Hrefused : (length (allowedSortFields cfg) =? 0)%nat
                       || includes_str fieldName (allowedSortFields cfg) = false).
    { rewrite (includes_str_false _ _ Hnot).
      destruct (allowedSortFields cfg); [contradiction | reflexivity]. }
    destruct Hq as [Hq | [Hq Hplain]].
    + rewrite (sortObject_field cfg q _ fieldName Hq) by (left; reflexivity).
      rewrite Hrefused. reflexivity.
    + rewrite (sortObject_field cfg q _ fieldName Hq) by (right; auto).
      rewrite Hrefused. destruct (is_empty fieldName); reflexivity.
Qed.

(** C2, as stated, fails.  With [allowedSortFields = ['name']] and the
    default sort field [createdAt], the request [?sort=createdAt] names a
    field that is not allowed, and that field is the key of the sort the
    fetch is made with: the fallback sorts on it. *)
Lemma disallowed_field_can_be_the_sort_key :
  let options :=
    {| opt_defaultLimit := None; opt_maxLimit := None; opt_defaultSort := None;
       opt_allowedSortFields := Some ["name"]; opt_allowedFilterFields := None;
       searchFields := None; dateField := None; populate := None |} in
  let q := [("sort", VStr "createdAt")] in
  allowedSortFields (config options) = ["name"]
  /\ ~ In "createdAt" (allowedSortFields (config options))
  /\ sortObject (config options) q = Ok [("createdAt", -1)]
  /\ ~ (forall sortObj, sortObject (config options) q = Ok sortObj ->
                        ~ In "createdAt" (map fst sortObj)).
Proof.
  intros options q.
  split; [reflexivity|].
  split; [cbn; intros [H | []]; discriminate H|].
  split; [reflexivity|].
  intros Hnever. apply (Hnever [("createdAt", -1)] eq_refl). left. reflexivity.
Qed.

(** C2, amended.  When the request has no [sort] parameter (or an empty
    one), or names a field, as [field] or as [-field], that is not a member
    of a non-empty [allowedSortFields], the sort object is exactly
    [{defaultSort: -1}] and it is the sort the fetch is made with; the
    field the request named is its key exactly when it is [defaultSort]
    itself. *)
Theorem sort_falls_back_to_default {Doc : Type} (E : Env Doc)
    (req : Request) (options : Options) (fieldName : string) :
  let cfg := config options in
  let q := req_query req in
  obj_get "sort" q = None
  \/ obj_get "sort" q = Some (VStr EmptyString)
  \/ (allowedSortFields cfg <> []
      /\ ~ In fieldName (allowedSortFields cfg)
      /\ (obj_get "sort" q = Some (VStr (String "-" fieldName))
          \/ (obj_get "sort" q = Some (VStr fieldName)
              /\ forall rest, fieldName <> String "-" rest))) ->
  sortObject cfg q = Ok [(defaultSort cfg, -1)]
  /\ (forall sortObj, sortObject cfg q = Ok sortObj ->
        forall field, In field (map fst sortObj) <-> field = defaultSort cfg)
  /\ queryBuilder_try E req options
     = (filt ← filterObject E options q;
        totalCount ← Model_countDocuments E filt;
        docs ← Model_exec E filt (populates options) [(defaultSort cfg, -1)]
                 (skip cfg q) (limit cfg q);
        Ok (respond cfg req filt [(defaultSort cfg, -1)] totalCount docs)).
Proof.
  intros cfg q H. pose proof (sortObject_fallback cfg q fieldName H) as Hs.
  split; [exact Hs|]. split.
  - intros sortObj Hobj field. rewrite Hs in Hobj. injection Hobj as <-.
    cbn. split; [intros [Heq | []]; symmetry; exact Heq | intros ->; left; reflexivity].
  - unfold queryBuilder_try. fold cfg q. rewrite Hs. reflexivity.
Qed.

Lemma sort_falls_back_to_default_witness :
  let options :=
    {| opt_defaultLimit := None; opt_maxLimit := None; opt_defaultSort := None;
       opt_allowedSortFields := Some ["name"; "-rank"]; opt_allowedFilterFields := None;
       searchFields := None; dateField := None; populate := None |} in
  let cfg := config options in
  (let q := [("sort", VStr "-secret")] in
   (allowedSortFields cfg <> [] /\ ~ In "secret" (allowedSortFields cfg)
    /\ obj_get "sort" q = Some (VStr (String "-" "secret")))
   /\ sortObject cfg q = Ok [("createdAt", -1)])
  /\ (let q := [("sort", VStr "-rank")] in
      (allowedSortFields cfg <> [] /\ ~ In "rank" (allowedSortFields cfg)
       /\ obj_get "sort" q = Some (VStr (String "-" "rank")))
      /\ sortObject cfg q = Ok [("createdAt", -1)])
  /\ sortObject cfg [("sort", VStr "-name")] = Ok [("name", -1)]
  /\ sortObject cfg [("sort", VStr "name")] = Ok [("name", 1)].
Proof.
  intros options cfg.
  assert (Hne : allowedSortFields cfg <> []) by discriminate.
  split; [|split; [|split; reflexivity]]; intros q.
  - assert (Hnot : ~ In "secret" (allowedSortFields cfg)).
    { cbn. intros [Heq | [Heq | []]]; discriminate Heq. }
    split; [repeat split; [exact Hne | exact Hnot]|].
    apply (sort_falls_back_to_default Sample.env (Sample.request q) options "secret").
    right. right. split; [exact Hne|]. split; [exact Hnot|]. left. reflexivity.
  - assert (Hnot : ~ In "rank" (allowedSortFields cfg)).
    { cbn. intros [Heq | [Heq | []]]; discriminate Heq. }
    split; [repeat split; [exact Hne | exact Hnot]|].
    apply (sort_falls_back_to_default Sample.env (Sample.request q) options "rank").
    right. right. split; [exact Hne|]. split; [exact Hnot|]. left. reflexivity.
Defined.

(** ** Escaped patterns are literal *)

(** The class escaped by the filter stage is the set of syntax characters
    of the pattern grammar. *)
Lemma escape_class_syntax (c : ascii) :
  in_escape_class c = RegExp.is_syntax_char c.
Proof. destruct c as [[] [] [] [] [] [] [] []]; reflexivity. Qed.

Lemma tokens_plain (c : ascii) (r : string) :
  RegExp.is_syntax_char c = false ->
  RegExp.tokens (String c r) = cons (RegExp.TAtom (RegExp.Lit c)) <$> RegExp.tokens r.
Proof. destruct c as [[] [] [] [] [] [] [] []]; intros H; try discriminate H; reflexivity. Qed.

Lemma tokens_escaped (c : ascii) (r : string) :
  RegExp.is_syntax_char c = true ->
  RegExp.tokens (String "\" (String c r))
  = cons (RegExp.TAtom (RegExp.Lit c)) <$> RegExp.tokens r.
Proof. intros H. cbn [RegExp.tokens]. rewrite H. reflexivity. Qed.

Lemma tokens_escapeRegExp (s : string) :
  RegExp.tokens (escapeRegExp s)
  = Some (map (fun c => RegExp.TAtom (RegExp.Lit c)) (list_ascii_of_string s)).
Proof.
  induction s as [|c r IH]; [reflexivity|].
  cbn [escapeRegExp list_ascii_of_string map].
  destruct (in_escape_class c) eqn:Hc; rewrite escape_class_syntax in Hc.
  - rewrite (tokens_escaped _ _ Hc), IH. reflexivity.
  - rewrite (tokens_plain _ _ Hc), IH. reflexivity.
Qed.

Lemma terms_literal (l : list ascii) :
  RegExp.terms (map (fun c => RegExp.TAtom (RegExp.Lit c)) l)
  = Some (map (fun c => (RegExp.Lit c, RegExp.One)) l).
Proof.
  induction l as [|c l IH]; [reflexivity|].
  cbn [map RegExp.terms]. destruct l as [|d l].
  - reflexivity.
  - cbn [map] in *. rewrite IH. reflexivity.
Qed.

Lemma compile_escapeRegExp (s : string) :
  RegExp.compile (escapeRegExp s) = Some (literal s).
Proof.
  unfold RegExp.compile. rewrite tokens_escapeRegExp. cbn. apply terms_literal.
Qed.

Lemma match_here_literal (s subject : string) :
  RegExp.match_here true (literal s) subject = prefix_ci s subject.
Proof.
  revert subject. induction s as [|c r IH]; intros subject; [reflexivity|].
  cbn [literal list_ascii_of_string map RegExp.match_here prefix_ci].
  destruct subject as [|d t]; [reflexivity|].
  fold (literal r). rewrite IH. reflexivity.
Qed.

Lemma search_literal (s subject : string) :
  RegExp.search true (literal s) subject = contains_ci s subject.
Proof.
  induction subject as [|d t IH]; cbn [RegExp.search contains_ci];
    rewrite match_here_literal; [reflexivity|].
  rewrite IH. reflexivity.
Qed.

(** An escaped value, compiled with the [i] flag, tests for the value as a
    substring, letter case apart. *)
Lemma test_escapeRegExp (s subject : string) :
  RegExp.test {| RegExp.pattern := escapeRegExp s; RegExp.flags := "i" |} subject
  = Some (contains_ci s subject).
Proof.
  unfold RegExp.test. cbn [RegExp.pattern RegExp.flags].
  rewrite compile_escapeRegExp. cbn. rewrite search_literal. reflexivity.
Qed.

Section FilterStage.

Context {Doc : Type}.
Variable E : Env Doc.

Lemma RegExp_new_escapeRegExp (s flags : string) :
  RegExp_new E (escapeRegExp s) flags
  = Ok {| RegExp.pattern := escapeRegExp s; RegExp.flags := flags |}.
Proof. unfold RegExp_new. rewrite compile_escapeRegExp. reflexivity. Qed.

Lemma field_predicate_Ok (field : string) (filterValue : value) :
  field_predicate E field filterValue = Ok (predicate_of field filterValue).
Proof.
  destruct filterValue as [s| | | |]; try reflexivity.
  unfold field_predicate, predicate_of.
  destruct (includes "," s); [reflexivity|].
  destruct (String.eqb field "status"); [reflexivity|].
  rewrite RegExp_new_escapeRegExp. reflexivity.
Qed.

Lemma filter_step_accepted (cfg : Config) (props : object) (field : string)
    (filterValue : value) (fo : gmap string pred) :
  field_allowed cfg field = true ->
  obj_get field props = Some filterValue ->
  filter_step E cfg props field fo
  = Ok (<[field := predicate_of field filterValue]> fo).
Proof.
  intros Ha Hv. unfold filter_step. rewrite Ha, Hv, field_predicate_Ok. reflexivity.
Qed.

Lemma filter_step_rejected (cfg : Config) (props : object) (field : string)
    (fo : gmap string pred) :
  field_allowed cfg field = false ->
  filter_step E cfg props field fo = Ok fo.
Proof. intros Ha. unfold filter_step. rewrite Ha. reflexivity. Qed.

Lemma filter_fold_cons (cfg : Config) (props : object) (x : string)
    (fields : list string) (fo : gmap string pred) :
  filter_fold cfg props (x :: fields) fo
  = filter_fold cfg props fields (filter_pure_step cfg props fo x).
Proof. reflexivity. Qed.

Lemma forEach_filter_step (cfg : Config) (props : object)
    (fields : list string) (fo : gmap string pred) :
  forEach (filter_step E cfg props) fields fo = Ok (filter_fold cfg props fields fo).
Proof.
  revert fo. induction fields as [|field fields IH]; intros fo; [reflexivity|].
  cbn [forEach]. rewrite filter_fold_cons. unfold filter_pure_step.
  destruct (field_allowed cfg field) eqn:Ha.
  - destruct (obj_get field props) as [filterValue|] eqn:Hv.
    + rewrite (filter_step_accepted cfg props field filterValue fo Ha Hv).
      cbn. apply IH.
    + assert (Hstep : filter_step E cfg props field fo = Ok fo)
        by (unfold filter_step; rewrite Ha, Hv; reflexivity).
      rewrite Hstep. cbn. apply IH.
  - rewrite (filter_step_rejected cfg props field fo Ha). cbn. apply IH.
Qed.

End FilterStage.

Lemma filter_fold_lookup (cfg : Config) (props : object)
    (fields : list string) (fo : gmap string pred) (field : string) :
  filter_fold cfg props fields fo !! field
  = match obj_get field props with
    | Some filterValue =>
        if field_allowed cfg field && bool_decide (field ∈ fields)
        then Some (predicate_of field filterValue)
        else fo !! field
    | None => fo !! field
    end.
Proof.
  revert fo. induction fields as [|x fields IH]; intros fo.
  - cbn. rewrite andb_false_r. destruct (obj_get field props); reflexivity.
  - rewrite filter_fold_cons, IH. clear IH. unfold filter_pure_step.
    destruct (obj_get field props) as [filterValue|] eqn:Hv.
    + destruct (decide (x = field)) as [->|Hne].
      * rewrite (bool_decide_eq_true_2 (field ∈ field :: fields)) by (left).
        rewrite Hv. destruct (field_allowed cfg field); cbn.
        -- destruct (bool_decide (field ∈ fields)); [reflexivity|].
           apply lookup_insert_eq.
        -- reflexivity.
      * assert (Hb : bool_decide (field ∈ x :: fields) = bool_decide (field ∈ fields)).
        { apply bool_decide_ext. rewrite elem_of_cons. intuition congruence. }
        rewrite Hb.
        destruct (field_allowed cfg field && bool_decide (field ∈ fields));
          [reflexivity|].
        destruct (field_allowed cfg x); [|reflexivity].
        destruct (obj_get x props); [|reflexivity].
        apply lookup_insert_ne. exact Hne.
    + destruct (field_allowed cfg x); [|reflexivity].
      destruct (obj_get x props) eqn:Hx; [|reflexivity].
      apply lookup_insert_ne. intros ->. congruence.
Qed.

(** [Object.keys] lists exactly the names of the properties. *)
Lemma insert_index_In (e e' : N * string) (l : list (N * string)) :
  In e' (insert_index e l) <-> e' = e \/ In e' l.
Proof.
  induction l as [|x l IH]; cbn.
  - intuition.
  - destruct (fst e <? fst x)%N; cbn; rewrite ?IH; intuition.
Qed.

Lemma sorted_indices_In (e : N * string) (l : list (N * string)) :
  In e (foldr insert_index [] l) <-> In e l.
Proof.
  induction l as [|x l IH]; cbn; [reflexivity|].
  rewrite insert_index_In, IH. intuition.
Qed.

Lemma own_keys_In (k : string) (names : list string) :
  In k (own_keys names) <-> In k names.
Proof.
  unfold own_keys. rewrite in_app_iff, in_map_iff, filter_In. split.
  - intros [((n, k') & Hk & Hin) | [Hin _]]; [|exact Hin].
    cbn in Hk. subst k'. apply (proj1 (sorted_indices_In _ _)) in Hin.
    apply (proj2 (list_elem_of_In _ _)), list_elem_of_omap in Hin.
    destruct Hin as (k' & Hin & Hf). apply list_elem_of_In in Hin.
    destruct (array_index k'); [|discriminate]. congruence.
  - intros Hin. destruct (array_index k) as [n|] eqn:Hidx.
    + left. exists (n, k). split; [reflexivity|].
      apply (proj2 (sorted_indices_In _ _)), list_elem_of_In, list_elem_of_omap.
      exists k. split; [apply list_elem_of_In; exact Hin|]. rewrite Hidx. reflexivity.
    + right. auto.
Qed.

Lemma obj_get_In (k : string) (o : object) (v : value) :
  obj_get k o = Some v -> In k (Object_keys o).
Proof.
  intros H. apply own_keys_In. induction o as [|[k' v'] o IH]; [discriminate|].
  cbn in *. destruct (String.eqb k' k) eqn:Hk.
  - left. apply String.eqb_eq. exact Hk.
  - right. auto.
Qed.

(** What the field stage leaves under each name. *)
Lemma field_filters_lookup {Doc : Type} (E : Env Doc) (cfg : Config)
    (toProcess : value) (fo : gmap string pred) :
  is_object toProcess = true ->
  exists fo',
    field_filters E cfg (Some toProcess) fo = Ok fo'
    /\ forall field,
         fo' !! field
         = match obj_get field (props_of toProcess) with
           | Some filterValue =>
               if field_allowed cfg field
               then Some (predicate_of field filterValue)
               else fo !! field
           | None => fo !! field
           end.
Proof.
  intros Hobj. unfold field_filters. rewrite Hobj, forEach_filter_step.
  eexists. split; [reflexivity|]. intros field. rewrite filter_fold_lookup.
  destruct (obj_get field (props_of toProcess)) as [filterValue|] eqn:Hv;
    [|reflexivity].
  rewrite (bool_decide_eq_true_2 _ (proj2 (list_elem_of_In _ _) (obj_get_In _ _ _ Hv))), andb_true_r.
  reflexivity.
Qed.

Lemma field_filters_Ok {Doc : Type} (E : Env Doc) (cfg : Config)
    (toProcess : option value) (fo : gmap string pred) :
  exists fo',
    field_filters E cfg toProcess fo = Ok fo'
    /\ forall field, field_allowed cfg field = false -> fo' !! field = fo !! field.
Proof.
  destruct toProcess as [v|]; [|exists fo; split; reflexivity].
  destruct (is_object v) eqn:Hobj.
  - destruct (field_filters_lookup E cfg v fo Hobj) as (fo' & Heq & Hlook).
    exists fo'. split; [exact Heq|]. intros field Hf. rewrite Hlook, Hf.
    destruct (obj_get field (props_of v)); reflexivity.
  - exists fo. unfold field_filters. rewrite Hobj. split; reflexivity.
Qed.

(** ** The built-ins behind a multi-value filter *)




Lemma append_cons (c : ascii) (a b : string) :
  String c a +:+ b = String c (a +:+ b).
Proof. reflexivity. Qed.






(** ** Filtering: what an accepted field gets *)

Lemma field_allowed_false (cfg : Config) (field : string) :
  allowedFilterFields cfg <> [] ->
  ~ In field (allowedFilterFields cfg) ->
  field_allowed cfg field = false.
Proof.
  intros Hne Hnot. unfold field_allowed.
  rewrite (includes_str_false _ _ Hnot).
  destruct (allowedFilterFields cfg); [contradiction | reflexivity].
Qed.

(** C5. For an accepted filter field other than [status] whose value is a
    string with no comma, the metacharacters [. * + ? ^ $ { } ( ) | [ ] \]
    of the value are escaped before the case-insensitive pattern is made:
    the pattern denotes the characters of the value one by one, so the
    predicate holds of a subject exactly when the value occurs in it as a
    literal substring (letter case apart, as the [i] flag asks). *)
Theorem substring_filter_is_literal {Doc : Type} (E : Env Doc) (cfg : Config)
    (toProcess : value) (field s : string) (fo : gmap string pred) :
  is_object toProcess = true ->
  obj_get field (props_of toProcess) = Some (VStr s) ->
  field_allowed cfg field = true ->
  includes "," s = false ->
  field <> "status" ->
  let re := {| RegExp.pattern := escapeRegExp s; RegExp.flags := "i" |} in
  (exists fo', field_filters E cfg (Some toProcess) fo = Ok fo'
               /\ fo' !! field = Some (PRegex re))
  /\ RegExp.compile (RegExp.pattern re) = Some (literal s)
  /\ forall subject, RegExp.test re subject = Some (contains_ci s subject).
Proof.
  intros Hobj Hv Ha Hc Hs re. split; [|split].
  - destruct (field_filters_lookup E cfg toProcess fo Hobj) as (fo' & Heq & Hlook).
    exists fo'. split; [exact Heq|]. rewrite Hlook, Hv, Ha.
    unfold predicate_of. rewrite Hc.
    apply String.eqb_neq in Hs. rewrite Hs. reflexivity.
  - apply compile_escapeRegExp.
  - intros subject. apply test_escapeRegExp.
Qed.

Lemma substring_filter_is_literal_witness :
  let cfg := config Sample.plants_options in
  let toProcess := VObj [("name", VStr "a.b*c")] in
  let re := {| RegExp.pattern := "a\.b\*c"; RegExp.flags := "i" |} in
  (is_object toProcess = true
   /\ obj_get "name" (props_of toProcess) = Some (VStr "a.b*c")
   /\ field_allowed cfg "name" = true
   /\ includes "," "a.b*c" = false /\ "name" <> "status")
  /\ (exists fo', field_filters Sample.env cfg (Some toProcess) ∅ = Ok fo'
                  /\ fo' !! "name" = Some (PRegex re))
  /\ RegExp.test re "Plant A.B*C (rare)" = Some true
  /\ RegExp.test re "Plant AxBBBC" = Some false.
Proof.
  intros cfg toProcess re.
  assert (H0 : is_object toProcess = true) by reflexivity.
  assert (H1 : obj_get "name" (props_of toProcess) = Some (VStr "a.b*c")) by reflexivity.
  assert (H2 : field_allowed cfg "name" = true) by reflexivity.
  assert (H3 : includes "," "a.b*c" = false) by reflexivity.
  assert (H4 : "name" <> "status") by discriminate.
  destruct (substring_filter_is_literal Sample.env cfg toProcess "name" "a.b*c" ∅
              H0 H1 H2 H3 H4) as (Hstage & _ & Htest).
  split; [repeat split; assumption|].
  split; [exact Hstage|].
  split; [exact (Htest "Plant A.B*C (rare)") | exact (Htest "Plant AxBBBC")].
Defined.



(** C6.  The code at [?filter[status][$ne]=inactive], on the options of the
    plants route: the field [status] is accepted, its value is the object
    [{ $ne: 'inactive' }], which is not a string, and it is stored
    unchanged.  The collection reads it as an operator: the condition holds
    of a plant whose status is [active], and of none whose status is
    [inactive]; an exact match on the value would hold of neither. *)
Theorem operator_object_is_not_an_exact_match :
  let v := VObj [("$ne", VStr "inactive")] in
  let q := [("filter", VObj [("status", v)])] in
  field_allowed (config Sample.plants_options) "status" = true
  /\ candidate_value q "status" = Some v
  /\ (forall s, v <> VStr s)
  /\ (exists m, filterObject Sample.env Sample.plants_options q = Ok m
                /\ m !! "status" = Some (PValue v))
  /\ condition_holds v "active" = Some true
  /\ same_string v "active" = false
  /\ condition_holds v "inactive" = Some false
  /\ (exists response,
        queryBuilder Sample.env (Sample.request q) Sample.plants_options = Ok response
        /\ filters_applied (query_info response) = 1%nat).
Proof.
  intros v q.
  split; [reflexivity|]. split; [reflexivity|].
  split; [intros s H; discriminate H|].
  split; [eexists; split; [reflexivity | vm_compute; reflexivity]|].
  split; [reflexivity|]. split; [reflexivity|]. split; [reflexivity|].
  eexists. split; [vm_compute; reflexivity | vm_compute; reflexivity].
Qed.



(** ** The other directives that write the filter *)

Section Stages.

Context {Doc : Type}.
Variable E : Env Doc.

Lemma category_filter_lookup (q : object) (fo f1 : gmap string pred)
    (k : string) (p : pred) :
  category_filter E q fo = Ok f1 ->
  f1 !! k = Some p ->
  fo !! k = Some p
  \/ (k = "categoriesIds" /\ truthy (obj_get "categories" q) = true
      /\ exists id, p = PId id).
Proof.
  unfold category_filter. destruct (truthy (obj_get "categories" q)) eqn:Ht.
  - destruct (obj_get "categories" q) as [[name| | | |]|];
      try (intros Habs; discriminate Habs).
    destruct (Categories_findOne E (trim name)) as [[id|]|]; cbn;
      try (intros Habs; discriminate Habs).
    + intros [= <-] Hk. destruct (decide (k = "categoriesIds")) as [->|Hne].
      * rewrite lookup_insert_eq in Hk. right. injection Hk as <-. eauto.
      * rewrite lookup_insert_ne in Hk by congruence. left. exact Hk.
    + intros [= <-] Hk. left. exact Hk.
  - intros [= <-] Hk. left. exact Hk.
Qed.

Lemma mapM_RegExp_new (src flags : string) (fields : list string)
    (conditions : list (string * RegExp.t)) :
  mapM (fun field => re ← RegExp_new E src flags; Ok (field, re)) fields = Ok conditions ->
  conditions = map (fun field => (field, {| RegExp.pattern := src; RegExp.flags := flags |}))
                   fields.
Proof.
  assert (Hnew : RegExp_new E src flags
                 = Ok {| RegExp.pattern := src; RegExp.flags := flags |}
                 \/ exists m, RegExp_new E src flags = Throw m).
  { unfold RegExp_new. destruct (RegExp.compile src); [left; reflexivity|].
    destruct (RegExp_syntax_error E src); eauto. }
  revert conditions. induction fields as [|f fields IH]; intros conditions; cbn.
  - intros [= <-]. reflexivity.
  - destruct Hnew as [Hn | (m & Hn)]; rewrite Hn in *; cbn;
      [|intros Habs; discriminate Habs].
    destruct (mapM _ fields) as [ys|]; cbn; [|intros Habs; discriminate Habs].
    intros [= <-]. rewrite (IH ys eq_refl). reflexivity.
Qed.

(** The search clause: one condition per configured field, the pattern
    being the search term as it was given. *)
Lemma search_filter_Ok (options : Options) (q : object) (fo f3 : gmap string pred) :
  search_filter E options q fo = Ok f3 ->
  match obj_get "search" q, searchFields options with
  | Some searchTerm, Some fields =>
      if truthy (Some searchTerm) then
        f3 = <["$or" := POr (map (fun field =>
                 (field, {| RegExp.pattern := ToString searchTerm;
                            RegExp.flags := "i" |})) fields)]> fo
      else f3 = fo
  | _, _ => f3 = fo
  end.
Proof.
  unfold search_filter.
  destruct (obj_get "search" q) as [searchTerm|]; [|intros [= <-]; reflexivity].
  destruct (searchFields options) as [fields|]; [|intros [= <-]; reflexivity].
  destruct (truthy (Some searchTerm)); [|intros [= <-]; reflexivity].
  destruct (mapM _ fields) as [conditions|] eqn:Hm; cbn;
    [|intros Habs; discriminate Habs].
  intros [= <-]. rewrite (mapM_RegExp_new _ _ _ _ Hm). reflexivity.
Qed.

Lemma search_filter_lookup (options : Options) (q : object)
    (fo f3 : gmap string pred) (k : string) (p : pred) :
  search_filter E options q fo = Ok f3 ->
  f3 !! k = Some p ->
  fo !! k = Some p
  \/ (k = "$or" /\ truthy (obj_get "search" q) = true
      /\ exists conditions, p = POr conditions).
Proof.
  intros H Hk. apply search_filter_Ok in H.
  destruct (obj_get "search" q) as [searchTerm|]; [|subst; auto].
  destruct (searchFields options) as [fields|]; [|subst; auto].
  destruct (truthy (Some searchTerm)) eqn:Ht; [|subst; auto].
  subst f3. destruct (decide (k = "$or")) as [->|Hne].
  - rewrite lookup_insert_eq in Hk. injection Hk as <-. right. eauto.
  - rewrite lookup_insert_ne in Hk by congruence. auto.
Qed.

Lemma date_filter_given (options : Options) (q : object) (fo : gmap string pred) :
  dates_given q = true ->
  date_filter E options q fo = <[date_field options := date_range E q]> fo.
Proof. unfold date_filter. intros ->. reflexivity. Qed.

Lemma date_filter_lookup (options : Options) (q : object)
    (fo : gmap string pred) (k : string) (p : pred) :
  date_filter E options q fo !! k = Some p ->
  fo !! k = Some p
  \/ (k = date_field options /\ dates_given q = true /\ p = date_range E q).
Proof.
  destruct (dates_given q) eqn:Hg.
  - rewrite (date_filter_given options q fo Hg).
    destruct (decide (k = date_field options)) as [->|Hne].
    + rewrite lookup_insert_eq. intros [= <-]. auto.
    + rewrite lookup_insert_ne by congruence. auto.
  - unfold date_filter. rewrite Hg. auto.
Qed.

Lemma filterObject_Ok (options : Options) (q : object) (m : gmap string pred) :
  filterObject E options q = Ok m ->
  exists f3, filter_before_dates E options q = Ok f3
             /\ m = date_filter E options q f3.
Proof.
  unfold filterObject. destruct (filter_before_dates E options q) as [f3|]; cbn.
  - intros [= <-]. eauto.
  - intros Habs. discriminate Habs.
Qed.

End Stages.

(** ** Allow-listing of filter fields *)

(** C3, as stated, fails: with [allowedFilterFields = ['status']], the
    request [?filter[createdAt]=2020&date_from=2024-01-01] has the candidate
    field [createdAt], which is not allowed, and yet the filter object has a
    [createdAt] key, written by the date range. *)
Lemma disallowed_name_can_remain_a_key :
  let options :=
    {| opt_defaultLimit := None; opt_maxLimit := None; opt_defaultSort := None;
       opt_allowedSortFields := None; opt_allowedFilterFields := Some ["status"];
       searchFields := None; dateField := None; populate := None |} in
  let q := [("filter[createdAt]", VStr "2020"); ("date_from", VStr "2024-01-01")] in
  filterToProcess q = Some (VObj [("createdAt", VStr "2020")])
  /\ allowedFilterFields (config options) = ["status"]
  /\ (exists m, filterObject Sample.env options q = Ok m
                /\ m !! "createdAt"
                   = Some (PRange (Some {| time_value := Some 1704067200000 |}) None))
  /\ ~ (forall m, filterObject Sample.env options q = Ok m -> m !! "createdAt" = None).
Proof.
  intros options q.
  assert (Hm : exists m, filterObject Sample.env options q = Ok m
                /\ m !! "createdAt"
                   = Some (PRange (Some {| time_value := Some 1704067200000 |}) None)).
  { eexists. split; [reflexivity|]. vm_compute. reflexivity. }
  split; [reflexivity|]. split; [reflexivity|]. split; [exact Hm|].
  intros Hall. destruct Hm as (m & Heq & Hk).
  rewrite (Hall m Heq) in Hk. discriminate Hk.
Qed.

(** C3, amended. For a candidate filter field that is not a member of a
    non-empty [allowedFilterFields], the field stage leaves the entry of
    that name as it was and raises no error; so the filter object holds no
    predicate made from the candidate, and has a key of that name only when
    another directive writes one: [categoriesIds] for a category that was
    found, [$or] for the search, the date field for a date range. *)
Theorem disallowed_filter_is_dropped {Doc : Type} (E : Env Doc)
    (options : Options) (q : object) (field : string) :
  let cfg := config options in
  allowedFilterFields cfg <> [] ->
  ~ In field (allowedFilterFields cfg) ->
  (forall toProcess fo,
     exists fo', field_filters E cfg toProcess fo = Ok fo'
                 /\ fo' !! field = fo !! field)
  /\ (forall m p,
        filterObject E options q = Ok m ->
        m !! field = Some p ->
        (field = "categoriesIds" /\ truthy (obj_get "categories" q) = true
         /\ exists id, p = PId id)
        \/ (field = "$or" /\ truthy (obj_get "search" q) = true
            /\ exists conditions, p = POr conditions)
        \/ (field = date_field options /\ dates_given q = true
            /\ p = date_range E q)).
Proof.
  intros cfg Hne Hnot.
  pose proof (field_allowed_false cfg field Hne Hnot) as Hrej.
  split.
  - intros toProcess fo.
    destruct (field_filters_Ok E cfg toProcess fo) as (fo' & Heq & Hframe).
    exists fo'. split; [exact Heq | apply Hframe; exact Hrej].
  - intros m p Hm Hp.
    destruct (filterObject_Ok E options q m Hm) as (f3 & Hf3 & ->).
    apply date_filter_lookup in Hp as [Hp | Hdate]; [|auto].
    unfold filter_before_dates in Hf3. fold cfg in Hf3.
    destruct (category_filter E q ∅) as [f1|] eqn:Hf1; cbn in Hf3;
      [|discriminate Hf3].
    destruct (field_filters_Ok E cfg (filterToProcess q) f1) as (f2 & Hf2 & Hframe).
    rewrite Hf2 in Hf3. cbn in Hf3.
    apply (search_filter_lookup E options q f2 f3 field p Hf3) in Hp
      as [Hp | Hsearch]; [|auto].
    rewrite (Hframe field Hrej) in Hp.
    apply (category_filter_lookup E q ∅ f1 field p Hf1) in Hp
      as [Hp | Hcat]; [|auto].
    rewrite lookup_empty in Hp. discriminate Hp.
Qed.

Lemma disallowed_filter_is_dropped_witness :
  let options :=
    {| opt_defaultLimit := None; opt_maxLimit := None; opt_defaultSort := None;
       opt_allowedSortFields := None; opt_allowedFilterFields := Some ["status"];
       searchFields := None; dateField := None; populate := None |} in
  let q := [("filter[price]", VStr "10"); ("filter[status]", VStr "active")] in
  (allowedFilterFields (config options) <> []
   /\ ~ In "price" (allowedFilterFields (config options)))
  /\ exists m, filterObject Sample.env options q = Ok m
               /\ m !! "price" = None
               /\ m !! "status" = Some (PValue (VStr "active")).
Proof.
  intros options q.
  assert (H1 : allowedFilterFields (config options) <> []) by discriminate.
  assert (H2 : ~ In "price" (allowedFilterFields (config options))).
  { cbn. intros [Heq | []]. discriminate Heq. }
  split; [split; assumption|].
  destruct (disallowed_filter_is_dropped Sample.env options q "price" H1 H2)
    as [_ Hkey].
  eexists. split; [reflexivity|]. split; [|vm_compute; reflexivity].
  match goal with |- ?m !! _ = None => destruct (m !! "price") as [p|] eqn:Hp end;
    [|reflexivity].
  destruct (Hkey _ p eq_refl Hp) as [(Heq & _) | [(Heq & _) | (Heq & _)]];
    discriminate Heq.
Defined.

(** ** Date range *)

(** [options.dateField || 'createdAt'], from the option. *)
Lemma date_field_of (options : Options) (f : string) :
  (dateField options = Some f /\ f <> EmptyString)
  \/ ((dateField options = None \/ dateField options = Some EmptyString)
      /\ f = "createdAt") ->
  date_field options = f.
Proof.
  unfold date_field. intros [[-> Hf] | [[-> | ->] ->]]; try reflexivity.
  destruct f; [contradiction | reflexivity].
Qed.

Lemma date_bound_of {Doc : Type} (E : Env Doc) (v : option value) :
  date_bound E v = (if truthy v then Date_new E <$> v else None).
Proof. destruct v as [d|]; [|reflexivity]. unfold date_bound. reflexivity. Qed.

(** The range a request with a date writes, at the date field. *)
Lemma date_filter_written {Doc : Type} (E : Env Doc) (options : Options)
    (q : object) (f : string) (fo : gmap string pred) :
  date_field options = f ->
  truthy (obj_get "date_from" q) = true \/ truthy (obj_get "date_to" q) = true ->
  date_filter E options q fo
  = <[f := PRange (if truthy (obj_get "date_from" q)
                   then Date_new E <$> obj_get "date_from" q else None)
                  (if truthy (obj_get "date_to" q)
                   then Date_new E <$> obj_get "date_to" q else None)]> fo.
Proof.
  intros <- Hg. unfold date_filter, dates_given, date_range.
  rewrite !date_bound_of.
  destruct Hg as [-> | ->]; [reflexivity|]. rewrite orb_true_r. reflexivity.
Qed.

(** C10, as stated, fails.  In [?filter[createdAt]=2020&date_from=] the
    parameter [date_from] is present, with the empty string for its value;
    the test of line 190 fails on it, no range is built, and the predicate
    the field filter placed on [createdAt] stays. *)
Lemma empty_date_replaces_nothing :
  let q := [("filter[createdAt]", VStr "2020"); ("date_from", VStr EmptyString)] in
  obj_get "date_from" q = Some (VStr EmptyString)
  /\ (exists m, filterObject Sample.env Sample.no_options q = Ok m
                /\ m !! "createdAt"
                   = Some (PRegex {| RegExp.pattern := "2020"; RegExp.flags := "i" |}))
  /\ ~ (forall m, filterObject Sample.env Sample.no_options q = Ok m ->
                  exists gte lte, m !! "createdAt" = Some (PRange gte lte)).
Proof.
  intros q.
  assert (Hm : exists m, filterObject Sample.env Sample.no_options q = Ok m
                /\ m !! "createdAt"
                   = Some (PRegex {| RegExp.pattern := "2020"; RegExp.flags := "i" |})).
  { eexists. split; [reflexivity|]. vm_compute. reflexivity. }
  split; [reflexivity|]. split; [exact Hm|].
  intros Hall. destruct Hm as (m & Heq & Hk).
  destruct (Hall m Heq) as (gte & lte & Hr). rewrite Hr in Hk. discriminate Hk.
Qed.

(** C10, amended.  When [date_from] or [date_to] is given with a value
    that is not empty, the date range replaces whatever predicate the
    filter held on the date field ([options.dateField], or [createdAt] when
    that option is missing or empty) with the range object just built:
    [$gte] is the date made of [date_from] and [$lte] the date made of
    [date_to], each only when that parameter is given and not empty.  Every
    other key is left as it was. *)
Theorem date_range_replaces_date_field {Doc : Type} (E : Env Doc)
    (options : Options) (q : object) (f : string) :
  let range :=
    PRange (if truthy (obj_get "date_from" q)
            then Date_new E <$> obj_get "date_from" q else None)
           (if truthy (obj_get "date_to" q)
            then Date_new E <$> obj_get "date_to" q else None) in
  (dateField options = Some f /\ f <> EmptyString)
  \/ ((dateField options = None \/ dateField options = Some EmptyString)
      /\ f = "createdAt") ->
  truthy (obj_get "date_from" q) = true \/ truthy (obj_get "date_to" q) = true ->
  (forall fo,
     date_filter E options q fo !! f = Some range
     /\ forall k, k <> f -> date_filter E options q fo !! k = fo !! k)
  /\ (forall m, filterObject E options q = Ok m ->
        exists f3, filter_before_dates E options q = Ok f3
                   /\ m = <[f := range]> f3
                   /\ m !! f = Some range
                   /\ forall k, k <> f -> m !! k = f3 !! k).
Proof.
  intros range Hf Hg. apply date_field_of in Hf. split.
  - intros fo. rewrite (date_filter_written E options q f fo Hf Hg). split.
    + apply lookup_insert_eq.
    + intros k Hk. apply lookup_insert_ne. congruence.
  - intros m Hm. destruct (filterObject_Ok E options q m Hm) as (f3 & Hf3 & ->).
    exists f3. rewrite (date_filter_written E options q f f3 Hf Hg).
    split; [exact Hf3|]. split; [reflexivity|]. split.
    + apply lookup_insert_eq.
    + intros k Hk. apply lookup_insert_ne. congruence.
Qed.

Lemma date_range_replaces_date_field_witness :
  let options :=
    {| opt_defaultLimit := None; opt_maxLimit := None; opt_defaultSort := None;
       opt_allowedSortFields := None; opt_allowedFilterFields := None;
       searchFields := None; dateField := Some "updatedAt"; populate := None |} in
  let q := [("filter[updatedAt]", VStr "2020"); ("filter[createdAt]", VStr "2021");
            ("date_from", VStr "2024-01-01"); ("date_to", VStr EmptyString)] in
  ((dateField options = Some "updatedAt" /\ "updatedAt" <> EmptyString)
   /\ truthy (obj_get "date_from" q) = true)
  /\ exists f3 m,
       filter_before_dates Sample.env options q = Ok f3
       /\ filterObject Sample.env options q = Ok m
       /\ f3 !! "updatedAt"
          = Some (PRegex {| RegExp.pattern := "2020"; RegExp.flags := "i" |})
       /\ m !! "updatedAt"
          = Some (PRange (Some {| time_value := Some 1704067200000 |}) None)
       /\ m !! "createdAt" = f3 !! "createdAt"
       /\ f3 !! "createdAt"
          = Some (PRegex {| RegExp.pattern := "2021"; RegExp.flags := "i" |}).
Proof.
  intros options q.
  assert (Hf : dateField options = Some "updatedAt" /\ "updatedAt" <> EmptyString)
    by (split; [reflexivity | discriminate]).
  assert (Hg : truthy (obj_get "date_from" q) = true) by reflexivity.
  split; [split; assumption|].
  destruct (date_range_replaces_date_field Sample.env options q "updatedAt"
              (or_introl Hf) (or_introl Hg)) as [_ Hm].
  destruct (Hm _ eq_refl) as (f3 & Hf3 & _ & Hdate & Hframe).
  exists f3. eexists. split; [exact Hf3|]. split; [reflexivity|].
  split; [injection Hf3 as <-; vm_compute; reflexivity|].
  split; [exact Hdate|].
  split; [apply Hframe; discriminate|].
  injection Hf3 as <-. vm_compute. reflexivity.
Defined.

(** ** Dates that do not parse *)

(** C1, as stated, fails.  In [?date_to=] the parameter [date_to] is
    present and its value, the empty string, is no date; the call does not
    abort: the bound is dropped and the envelope of the whole collection is
    returned.  With [?date_from=2024-01-01&date_to=] the envelope is that of
    a query with the lower bound only. *)
Lemma empty_date_is_not_rejected :
  let req := Sample.request [("date_to", VStr EmptyString)] in
  let req' := Sample.request [("date_from", VStr "2024-01-01");
                              ("date_to", VStr EmptyString)] in
  obj_get "date_to" (req_query req) = Some (VStr EmptyString)
  /\ time_value (Date_new Sample.env (VStr EmptyString)) = None
  /\ (exists response,
        queryBuilder Sample.env req Sample.no_options = Ok response
        /\ total response = 25)
  /\ filterObject Sample.env Sample.no_options (req_query req) = Ok ∅
  /\ ~ (exists message, queryBuilder Sample.env req Sample.no_options = Throw message)
  /\ (exists m response,
        filterObject Sample.env Sample.no_options (req_query req') = Ok m
        /\ m !! "createdAt"
           = Some (PRange (Some {| time_value := Some 1704067200000 |}) None)
        /\ queryBuilder Sample.env req' Sample.no_options = Ok response).
Proof.
  intros req req'. split; [reflexivity|]. split; [reflexivity|]. split.
  { eexists. split; [vm_compute; reflexivity | reflexivity]. }
  split; [reflexivity|]. split.
  - intros (message & H). vm_compute in H. discriminate H.
  - eexists. eexists. split; [reflexivity|].
    split; [vm_compute; reflexivity | vm_compute; reflexivity].
Qed.

Section AbortLemmas.

Context {Doc : Type}.
Variable E : Env Doc.

Lemma unparseable_bound (v : option value) :
  unparseable E v ->
  truthy v = true
  /\ (if truthy v then Date_new E <$> v else None) = Some {| time_value := None |}.
Proof.
  intros (d & -> & Ht & Hd). split; [exact Ht|]. rewrite Ht. cbn.
  destruct (Date_new E d) as [t]. cbn in Hd. subst t. reflexivity.
Qed.

(** The count of a filter with an [Invalid Date] at a date path is
    refused. *)
Lemma Model_countDocuments_invalid (m : gmap string pred) (f : string) :
  In f (Date_paths E) ->
  invalid_date_at m f = true ->
  exists path, In path (Date_paths E) /\ invalid_date_at m path = true
               /\ Model_countDocuments E m = Throw (CastError E path).
Proof.
  intros Hin Hbad. unfold Model_countDocuments.
  destruct (List.find (invalid_date_at m) (Date_paths E)) as [path|] eqn:Hfind.
  - apply List.find_some in Hfind as [Hp Hb]. exists path. auto.
  - pose proof (List.find_none _ _ Hfind f Hin) as Hnone.
    rewrite Hbad in Hnone. discriminate Hnone.
Qed.

(** Whatever the try block throws is thrown again behind the prefix. *)
Lemma queryBuilder_rethrows (req : Request) (options : Options) (cause : string) :
  queryBuilder_try E req options = Throw cause ->
  queryBuilder E req options = Throw (error_prefix +:+ cause).
Proof. unfold queryBuilder. intros ->. reflexivity. Qed.

End AbortLemmas.

(** C1, amended.  When [date_from] or [date_to] is given with a value that
    is not empty and does not parse as a date, and the date field is a date
    path of the model's schema (as [createdAt] is for the models of the
    three callers), the call aborts with an error, the fixed prefix followed
    by the cause, and returns no envelope.  The bound is not dropped: if
    the filter object is reached at all, it holds the range on the date
    field with the [Invalid Date] for that bound, and it is the count of the
    model that refuses it, with a CastError. *)
Theorem unparseable_date_aborts {Doc : Type} (E : Env Doc)
    (req : Request) (options : Options) (f : string) :
  let q := req_query req in
  (dateField options = Some f /\ f <> EmptyString)
  \/ ((dateField options = None \/ dateField options = Some EmptyString)
      /\ f = "createdAt") ->
  In f (Date_paths E) ->
  unparseable E (obj_get "date_from" q) \/ unparseable E (obj_get "date_to" q) ->
  (exists cause, queryBuilder E req options = Throw (error_prefix +:+ cause))
  /\ (forall response, queryBuilder E req options <> Ok response)
  /\ (forall m, filterObject E options q = Ok m ->
        (exists gte lte,
           m !! f = Some (PRange gte lte)
           /\ (unparseable E (obj_get "date_from" q)
               -> gte = Some {| time_value := None |})
           /\ (unparseable E (obj_get "date_to" q)
               -> lte = Some {| time_value := None |}))
        /\ exists path, In path (Date_paths E)
                        /\ Model_countDocuments E m = Throw (CastError E path)).
Proof.
  intros q Hf Hpath Hbad. apply date_field_of in Hf.
  assert (Hg : truthy (obj_get "date_from" q) = true
               \/ truthy (obj_get "date_to" q) = true).
  { destruct Hbad as [H | H]; apply unparseable_bound in H as [Ht _]; auto. }
  assert (Hfilter : forall m, filterObject E options q = Ok m ->
            (exists gte lte,
               m !! f = Some (PRange gte lte)
               /\ (unparseable E (obj_get "date_from" q)
                   -> gte = Some {| time_value := None |})
               /\ (unparseable E (obj_get "date_to" q)
                   -> lte = Some {| time_value := None |}))
            /\ exists path, In path (Date_paths E)
                            /\ Model_countDocuments E m = Throw (CastError E path)).
  { intros m Hm. destruct (filterObject_Ok E options q m Hm) as (f3 & _ & ->).
    rewrite (date_filter_written E options q f f3 Hf Hg).
    assert (Hinv : invalid_date_at
                     (<[f := PRange (if truthy (obj_get "date_from" q)
                                     then Date_new E <$> obj_get "date_from" q else None)
                                    (if truthy (obj_get "date_to" q)
                                     then Date_new E <$> obj_get "date_to" q else None)]> f3)
                     f = true).
    { unfold invalid_date_at. rewrite lookup_insert_eq.
      destruct Hbad as [H | H]; apply unparseable_bound in H as [_ ->];
        [reflexivity | apply orb_true_r]. }
    split.
    - eexists. eexists. rewrite lookup_insert_eq. split; [reflexivity|].
      split; intros H; apply unparseable_bound in H as [_ H]; exact H.
    - destruct (Model_countDocuments_invalid E _ f Hpath Hinv) as (path & Hp & _ & Hc).
      exists path. auto. }
  assert (Hthrow : exists cause, queryBuilder E req options = Throw (error_prefix +:+ cause)).
  { assert (Htry : exists cause, queryBuilder_try E req options = Throw cause).
    { unfold queryBuilder_try. fold q.
      destruct (sortObject (config options) q) as [sortObj|cause]; cbn; [|eauto].
      destruct (filterObject E options q) as [m|cause] eqn:Hm; cbn; [|eauto].
      destruct (Hfilter m eq_refl) as (_ & path & _ & ->). cbn. eauto. }
    destruct Htry as (cause & Htry). exists cause.
    apply queryBuilder_rethrows. exact Htry. }
  split; [exact Hthrow|]. split; [|exact Hfilter].
  intros response Hok. destruct Hthrow as (cause & Ht). rewrite Ht in Hok.
  discriminate Hok.
Qed.

Lemma unparseable_date_aborts_witness :
  let req := Sample.request [("date_from", VStr "2024-01-01");
                             ("date_to", VStr "31/31/2024")] in
  (((dateField Sample.no_options = None \/ dateField Sample.no_options = Some EmptyString)
    /\ "createdAt" = "createdAt")
   /\ In "createdAt" (Date_paths Sample.env)
   /\ unparseable Sample.env (obj_get "date_to" (req_query req)))
  /\ (exists m,
        filterObject Sample.env Sample.no_options (req_query req) = Ok m
        /\ m !! "createdAt"
           = Some (PRange (Some {| time_value := Some 1704067200000 |})
                          (Some {| time_value := None |})))
  /\ queryBuilder Sample.env req Sample.no_options
     = Throw (error_prefix +:+ CastError Sample.env "createdAt").
Proof.
  intros req.
  assert (Hf : (dateField Sample.no_options = None
                \/ dateField Sample.no_options = Some EmptyString)
               /\ "createdAt" = "createdAt") by (split; [left|]; reflexivity).
  assert (Hpath : In "createdAt" (Date_paths Sample.env)) by (left; reflexivity).
  assert (Hbad : unparseable Sample.env (obj_get "date_to" (req_query req))).
  { exists (VStr "31/31/2024"). repeat split; reflexivity. }
  split; [split; [exact Hf | split; [exact Hpath | exact Hbad]]|].
  destruct (unparseable_date_aborts Sample.env req Sample.no_options "createdAt"
              (or_intror Hf) Hpath (or_intror Hbad)) as ((cause & Hthrow) & _ & Hfilter).
  split.
  - eexists. split; [reflexivity|]. vm_compute. reflexivity.
  - rewrite Hthrow. f_equal. f_equal.
    vm_compute in Hthrow. injection Hthrow as <-. vm_compute. reflexivity.
Defined.

(** ** Global search *)

(** C9. The code at [?search=a.c] with [searchFields = ['name']]: the
    filter has the one clause [$or] with one condition on [name], but its
    pattern is the search term itself, unescaped, so the dot stands for any
    character and the condition holds of ["abc"], in which ["a.c"] does not
    occur.  And with [searchFields = []] the clause is still added, with no
    condition in it. *)
Theorem search_term_is_used_as_pattern :
  let options fields :=
    {| opt_defaultLimit := None; opt_maxLimit := None; opt_defaultSort := None;
       opt_allowedSortFields := None; opt_allowedFilterFields := None;
       searchFields := Some fields; dateField := None; populate := None |} in
  let re := {| RegExp.pattern := "a.c"; RegExp.flags := "i" |} in
  (exists m, filterObject Sample.env (options ["name"]) [("search", VStr "a.c")] = Ok m
             /\ m !! "$or" = Some (POr [("name", re)]))
  /\ RegExp.test re "abc" = Some true
  /\ contains_ci "a.c" "abc" = false
  /\ (exists m, filterObject Sample.env (options []) [("search", VStr "a.c")] = Ok m
                /\ m !! "$or" = Some (POr [])).
Proof.
  intros options re.
  split; [eexists; split; [reflexivity | vm_compute; reflexivity]|].
  split; [reflexivity|]. split; [reflexivity|].
  eexists; split; [reflexivity | vm_compute; reflexivity].
Qed.

(** ** Navigation URLs *)

(** C8. The code at [req.query = { filter: { name: 'john' }, page: '2' }]
    (what the nested form of [?filter[name]=john&page=2] gives): the query
    filters on [name], but [first_page_url] carries
    [filter=%5Bobject%20Object%5D], from which the filter cannot be read
    back; and a parameter given twice, an array, comes out as one string. *)
Theorem first_page_url_loses_nested_filter :
  let req := Sample.request [("filter", VObj [("name", VStr "john")]); ("page", VStr "2")] in
  (exists m, filterObject Sample.env Sample.plants_options (req_query req) = Ok m
             /\ m !! "name"
                = Some (PRegex {| RegExp.pattern := "john"; RegExp.flags := "i" |}))
  /\ (exists response,
        queryBuilder Sample.env req Sample.plants_options = Ok response
        /\ first_page_url response
           = "http://localhost:3000/plants/?filter=%5Bobject%20Object%5D&page=1")
  /\ buildUrl (Sample.request [("tag", VArr [VStr "a"; VStr "b"])]) (Num 1)
     = "http://localhost:3000/plants/?tag=a%2Cb&page=1".
Proof.
  intros req.
  split; [eexists; split; [reflexivity | vm_compute; reflexivity]|].
  split; [|vm_compute; reflexivity].
  eexists. split; [vm_compute; reflexivity | reflexivity].
Qed.

(** ** Where the candidate filters come from *)

Lemma append_nil_l (s : string) : EmptyString +:+ s = s.
Proof. reflexivity. Qed.

Lemma strip_prefix_app (p s : string) : strip_prefix p (p +:+ s) = Some s.
Proof.
  induction p as [|a p IH]; [reflexivity|].
  rewrite append_cons. cbn. rewrite Ascii.eqb_refl. exact IH.
Qed.

Lemma strip_prefix_Some (p s r : string) :
  strip_prefix p s = Some r -> s = p +:+ r.
Proof.
  revert s. induction p as [|a p IH]; intros s; cbn.
  - intros [= ->]. reflexivity.
  - destruct s as [|b s]; [discriminate|].
    destruct (Ascii.eqb a b) eqn:Hab; [|discriminate].
    apply Ascii.eqb_eq in Hab. subst b. intros H.
    rewrite append_cons, <- (IH s H). reflexivity.
Qed.

Lemma strip_last_app (c : ascii) (s : string) :
  strip_last c (s +:+ String c EmptyString) = Some s.
Proof.
  induction s as [|d s IH].
  - rewrite append_nil_l. cbn. rewrite Ascii.eqb_refl. reflexivity.
  - rewrite append_cons. cbn [strip_last].
    destruct (s +:+ String c EmptyString) eqn:Hs.
    + destruct s; discriminate Hs.
    + rewrite IH. reflexivity.
Qed.

Lemma strip_last_Some (c : ascii) (s r : string) :
  strip_last c s = Some r -> s = r +:+ String c EmptyString.
Proof.
  revert r. induction s as [|d s IH]; intros r; [discriminate|].
  cbn [strip_last]. destruct s as [|e s].
  - destruct (Ascii.eqb d c) eqn:Hd; [|discriminate].
    apply Ascii.eqb_eq in Hd. subst d. intros [= <-]. reflexivity.
  - destruct (strip_last c (String e s)) as [r'|] eqn:Hr; [|discriminate].
    intros [= <-]. rewrite append_cons, <- (IH r' eq_refl). reflexivity.
Qed.

Lemma bracket_key_inj (f g : string) : bracket_key f = bracket_key g -> f = g.
Proof.
  unfold bracket_key. intros H.
  assert (Hs : strip_prefix "filter[" ("filter[" +:+ f +:+ "]")
               = strip_prefix "filter[" ("filter[" +:+ g +:+ "]")) by (rewrite H; reflexivity).
  rewrite !strip_prefix_app in Hs. injection Hs as Hs.
  assert (Hl : strip_last "]" (f +:+ "]") = strip_last "]" (g +:+ "]"))
    by (rewrite Hs; reflexivity).
  rewrite !strip_last_app in Hl. injection Hl as Hl. exact Hl.
Qed.

(** The bracket key of a field name. *)
Lemma match_filter_key_bracket (key fieldName : string) :
  match_filter_key key = Some fieldName
  <-> key = bracket_key fieldName
      /\ is_empty fieldName = false
      /\ has_line_terminator fieldName = false.
Proof.
  unfold match_filter_key, bracket_key. split.
  - destruct (strip_prefix "filter[" key) as [rest|] eqn:Hp; [|discriminate].
    cbn. destruct (strip_last "]" rest) as [f|] eqn:Hl; [|discriminate].
    cbn. destruct (is_empty f) eqn:He; [discriminate|].
    destruct (has_line_terminator f) eqn:Ht; [discriminate|].
    intros [= <-]. split; [|auto].
    rewrite (strip_prefix_Some _ _ _ Hp), (strip_last_Some _ _ _ Hl). reflexivity.
  - intros (-> & He & Ht).
    rewrite strip_prefix_app. cbn. rewrite strip_last_app. cbn.
    rewrite He, Ht. reflexivity.
Qed.

Lemma obj_get_define_eq (k : string) (v : value) (o : object) :
  obj_get k (define_property k v o) = Some v.
Proof.
  induction o as [|[k' v'] o IH]; cbn.
  - rewrite String.eqb_refl. reflexivity.
  - destruct (String.eqb k' k) eqn:Hk; cbn; rewrite Hk; [reflexivity | exact IH].
Qed.

Lemma obj_get_define_ne (k k' : string) (v : value) (o : object) :
  k <> k' -> obj_get k' (define_property k v o) = obj_get k' o.
Proof.
  intros Hne. induction o as [|[k0 v0] o IH]; cbn.
  - apply String.eqb_neq in Hne. rewrite Hne. reflexivity.
  - destruct (String.eqb k0 k) eqn:Hk; cbn.
    + apply String.eqb_eq in Hk. subst k0.
      apply String.eqb_neq in Hne. rewrite Hne. reflexivity.
    + rewrite IH. reflexivity.
Qed.

Lemma obj_get_set_eq (k : string) (v : value) (o : object) :
  k <> "__proto__" -> obj_get k (obj_set k v o) = Some v.
Proof.
  intros Hk. unfold obj_set. apply String.eqb_neq in Hk. rewrite Hk.
  apply obj_get_define_eq.
Qed.

Lemma obj_get_set_ne (k k' : string) (v : value) (o : object) :
  k <> k' -> obj_get k' (obj_set k v o) = obj_get k' o.
Proof.
  intros Hne. unfold obj_set. destruct (String.eqb k "__proto__"); [reflexivity|].
  apply obj_get_define_ne. exact Hne.
Qed.

(** The manual scan gives each field named by a bracket key the value of
    that key, and nothing else; the name [__proto__] gets none. *)
Lemma manualFilter_lookup (q : object) (fieldName : string) :
  obj_get fieldName (manualFilter q)
  = if is_empty fieldName || has_line_terminator fieldName
       || String.eqb fieldName "__proto__"
    then None
    else obj_get (bracket_key fieldName) q.
Proof.
  unfold manualFilter.
  set (step := fun (m : object) (key : string) =>
           match match_filter_key key, obj_get key q with
           | Some f, Some v => obj_set f v m
           | _, _ => m
           end).
  set (refused := is_empty fieldName || has_line_terminator fieldName
                  || String.eqb fieldName "__proto__").
  assert (Hfold : forall keys m,
    obj_get fieldName (foldl step m keys)
    = if bool_decide (bracket_key fieldName ∈ keys) && negb refused
      then match obj_get (bracket_key fieldName) q with
           | Some v => Some v
           | None => obj_get fieldName m
           end
      else obj_get fieldName m).
  { induction keys as [|x keys IH]; intros m; [reflexivity|].
    cbn [foldl]. rewrite IH. clear IH.
    destruct (decide (x = bracket_key fieldName)) as [->|Hx].
    - rewrite (bool_decide_eq_true_2 (_ ∈ _ :: keys)) by left.
      destruct refused eqn:Hv; cbn.
      + rewrite andb_false_r. unfold step.
        destruct (match_filter_key (bracket_key fieldName)) as [f|] eqn:Hm;
          [|reflexivity].
        apply match_filter_key_bracket in Hm as (Heq & He & Ht).
        apply bracket_key_inj in Heq. subst f.
        unfold refused in Hv. rewrite He, Ht in Hv. cbn in Hv.
        destruct (obj_get (bracket_key fieldName) q); [|reflexivity].
        unfold obj_set. rewrite Hv. reflexivity.
      + rewrite andb_true_r. unfold step.
        unfold refused in Hv. apply orb_false_iff in Hv as [Hv Hp].
        assert (Hm : match_filter_key (bracket_key fieldName) = Some fieldName).
        { apply match_filter_key_bracket. apply orb_false_iff in Hv. tauto. }
        rewrite Hm. destruct (obj_get (bracket_key fieldName) q) as [v|] eqn:Hq.
        * rewrite obj_get_set_eq by (apply String.eqb_neq; exact Hp).
          destruct (bool_decide _); reflexivity.
        * destruct (bool_decide _); reflexivity.
    - assert (Hb : bool_decide (bracket_key fieldName ∈ x :: keys)
                   = bool_decide (bracket_key fieldName ∈ keys)).
      { apply bool_decide_ext. rewrite elem_of_cons. intuition congruence. }
      rewrite Hb.
      assert (Hstep : obj_get fieldName (step m x) = obj_get fieldName m).
      { unfold step. destruct (match_filter_key x) as [f|] eqn:Hm; [|reflexivity].
        destruct (obj_get x q); [|reflexivity].
        apply obj_get_set_ne. intros ->.
        apply match_filter_key_bracket in Hm as (Heq & _). contradiction. }
      rewrite Hstep. reflexivity. }
  rewrite Hfold. cbn [obj_get].
  destruct refused; cbn; [rewrite andb_false_r; reflexivity|].
  rewrite andb_true_r.
  destruct (obj_get (bracket_key fieldName) q) as [v|] eqn:Hq.
  - rewrite (bool_decide_eq_true_2 _ (proj2 (list_elem_of_In _ _) (obj_get_In _ _ _ Hq))).
    reflexivity.
  - destruct (bool_decide _); reflexivity.
Qed.

(** ** The filter object, entry by entry *)

Section FilterEntries.

Context {Doc : Type}.
Variable E : Env Doc.

Lemma category_filter_Ok (q : object) (fo f1 : gmap string pred) :
  category_filter E q fo = Ok f1 ->
  f1 = match category_id E q with
       | Some id => <["categoriesIds" := PId id]> fo
       | None => fo
       end.
Proof.
  unfold category_filter, category_id.
  destruct (obj_get "categories" q) as [[name|n|b|l|o]|]; cbn;
    try (intros H; inversion H; reflexivity).
  - destruct (is_empty name); cbn; [intros [= <-]; reflexivity|].
    destruct (Categories_findOne E (trim name)) as [[id|]|]; cbn;
      intros H; inversion H; reflexivity.
  - destruct n as [[| |]| | |]; intros H; inversion H; reflexivity.
  - destruct b; intros H; inversion H; reflexivity.
Qed.

Lemma search_filter_clause (options : Options) (q : object) (fo f3 : gmap string pred) :
  search_filter E options q fo = Ok f3 ->
  f3 = match search_clause options q with
       | Some clause => <["$or" := clause]> fo
       | None => fo
       end.
Proof.
  intros H. apply search_filter_Ok in H. unfold search_clause.
  destruct (obj_get "search" q) as [searchTerm|]; [|exact H].
  destruct (searchFields options) as [fields|]; [|exact H].
  destruct (truthy (Some searchTerm)); exact H.
Qed.

Lemma field_filters_accepted (cfg : Config) (q : object) (f1 f2 : gmap string pred) :
  field_filters E cfg (filterToProcess q) f1 = Ok f2 ->
  forall k, f2 !! k = match accepted_candidate cfg q k with
                      | Some v => Some (predicate_of k v)
                      | None => f1 !! k
                      end.
Proof.
  intros H k. unfold accepted_candidate, candidate_value.
  destruct (filterToProcess q) as [toProcess|] eqn:Hp.
  - destruct (is_object toProcess) eqn:Hobj.
    + destruct (field_filters_lookup E cfg toProcess f1 Hobj) as (fo' & Heq & Hlook).
      rewrite Heq in H. injection H as <-. rewrite Hlook.
      destruct (obj_get k (props_of toProcess)); destruct (field_allowed cfg k);
        reflexivity.
    + unfold field_filters in H. rewrite Hobj in H. injection H as <-.
      destruct (field_allowed cfg k); reflexivity.
  - cbn in H. injection H as <-. destruct (field_allowed cfg k); reflexivity.
Qed.

(** Every entry of the filter object, read off the request. *)
Lemma filterObject_lookup (options : Options) (q : object) (m : gmap string pred) :
  filterObject E options q = Ok m ->
  forall k, m !! k = filter_entry E options q k.
Proof.
  intros Hm k. destruct (filterObject_Ok E options q m Hm) as (f3 & Hf3 & ->).
  unfold filter_before_dates in Hf3.
  destruct (category_filter E q ∅) as [f1|] eqn:Hf1; cbn in Hf3; [|discriminate Hf3].
  destruct (field_filters E (config options) (filterToProcess q) f1) as [f2|] eqn:Hf2;
    cbn in Hf3; [|discriminate Hf3].
  pose proof (category_filter_Ok q ∅ f1 Hf1) as H1.
  pose proof (field_filters_accepted (config options) q f1 f2 Hf2 k) as H2.
  pose proof (search_filter_clause options q f2 f3 Hf3) as H3.
  unfold filter_entry, date_filter.
  destruct (dates_given q); cbn [andb].
  - case_bool_decide as Hk.
    + subst k. apply lookup_insert_eq.
    + rewrite lookup_insert_ne by congruence.
      subst f3. clear Hk.
      case_bool_decide as Hor.
      * subst k. destruct (search_clause options q) as [clause|].
        -- apply lookup_insert_eq.
        -- rewrite H2. destruct (accepted_candidate _ q "$or"); [reflexivity|].
           subst f1. destruct (category_id E q);
             [rewrite lookup_insert_ne by discriminate|]; apply lookup_empty.
      * assert (Hf : (match search_clause options q with
                      | Some clause => <["$or" := clause]> f2
                      | None => f2
                      end) !! k = f2 !! k).
        { destruct (search_clause options q); [|reflexivity].
          apply lookup_insert_ne. congruence. }
        rewrite Hf, H2. destruct (accepted_candidate _ q k); [reflexivity|].
        subst f1. case_bool_decide as Hc.
        -- subst k. destruct (category_id E q); cbn;
             [apply lookup_insert_eq | apply lookup_empty].
        -- destruct (category_id E q);
             [rewrite lookup_insert_ne by congruence|]; apply lookup_empty.
  - subst f3. case_bool_decide as Hor.
    + subst k. destruct (search_clause options q) as [clause|].
      * apply lookup_insert_eq.
      * rewrite H2. destruct (accepted_candidate _ q "$or"); [reflexivity|].
        subst f1. destruct (category_id E q);
          [rewrite lookup_insert_ne by discriminate|]; apply lookup_empty.
    + assert (Hf : (match search_clause options q with
                    | Some clause => <["$or" := clause]> f2
                    | None => f2
                    end) !! k = f2 !! k).
      { destruct (search_clause options q); [|reflexivity].
        apply lookup_insert_ne. congruence. }
      rewrite Hf, H2. destruct (accepted_candidate _ q k); [reflexivity|].
      subst f1. case_bool_decide as Hc.
      * subst k. destruct (category_id E q); cbn;
          [apply lookup_insert_eq | apply lookup_empty].
      * destruct (category_id E q);
          [rewrite lookup_insert_ne by congruence|]; apply lookup_empty.
Qed.

End FilterEntries.

Lemma candidate_value_nested (q : object) (f : value) :
  obj_get "filter" q = Some f ->
  is_object f = true ->
  filterToProcess q = Some f
  /\ forall k, candidate_value q k = obj_get k (props_of f).
Proof.
  intros Hf Hobj.
  assert (Hp : filterToProcess q = Some f).
  { unfold filterToProcess. rewrite Hf. cbn [from_option]. rewrite Hobj.
    destruct f; try discriminate Hobj; reflexivity. }
  split; [exact Hp|]. intros k. unfold candidate_value. rewrite Hp, Hobj. reflexivity.
Qed.

Lemma candidate_value_bracket (q : object) (fieldName : string) (v : value) :
  from_option is_object false (obj_get "filter" q) = false ->
  is_empty fieldName = false ->
  has_line_terminator fieldName = false ->
  fieldName <> "__proto__" ->
  obj_get (bracket_key fieldName) q = Some v ->
  candidate_value q fieldName = Some v.
Proof.
  intros Hno He Ht Hp Hq.
  assert (Hm : obj_get fieldName (manualFilter q) = Some v).
  { apply String.eqb_neq in Hp. rewrite manualFilter_lookup, He, Ht, Hp. exact Hq. }
  unfold candidate_value, filterToProcess. rewrite Hno, orb_true_r.
  pose proof (obj_get_In _ _ _ Hm) as Hin.
  destruct (Object_keys (manualFilter q)) as [|x l]; [destruct Hin|].
  cbn. exact Hm.
Qed.

(** X1. Every entry of the filter object is decided by the last directive
    that writes its name: the date range on the date field, else the search
    clause on [$or], else the accepted candidate of that name, compiled,
    else the category found on [categoriesIds]; a name that no directive
    writes is absent. *)
Theorem filter_entries_by_precedence {Doc : Type} (E : Env Doc)
    (options : Options) (q : object) (m : gmap string pred) :
  filterObject E options q = Ok m ->
  forall k, m !! k = filter_entry E options q k.
Proof. apply filterObject_lookup. Qed.

Lemma filter_entries_by_precedence_witness :
  let q := [("filter[createdAt]", VStr "2020"); ("filter[name]", VStr "rose");
            ("categories", VStr " Sukulent "); ("search", VStr "gul");
            ("date_to", VStr "2024-01-31")] in
  exists m,
    filterObject Sample.env Sample.no_options q = Ok m
    /\ m !! "createdAt" = Some (PRange None (Some {| time_value := Some 1706659200000 |}))
    /\ m !! "name" = Some (PRegex {| RegExp.pattern := "rose"; RegExp.flags := "i" |})
    /\ m !! "categoriesIds" = Some (PId "66b1f0c2a4d3e5f6a7b8c9d0")
    /\ m !! "$or" = None
    /\ m !! "price" = None.
Proof.
  intros q. eexists. split; [reflexivity|].
  pose proof (filter_entries_by_precedence Sample.env Sample.no_options q _ eq_refl) as H.
  repeat split; rewrite H; vm_compute; reflexivity.
Defined.

(** X2. A filter given in the bracket syntax, [filter[field]=value], on an
    allowed field reaches the filter object as the predicate of that value
    (and takes the place of a category found on the same name), unless the
    name is [$or] or the date field, which the search and the date range
    write after it.  That is so when [req.query.filter] is not itself an
    object and the field name is not empty, holds no line break and is not
    [__proto__], a name under which the scan stores nothing. *)
Theorem bracket_filter_reaches_filter {Doc : Type} (E : Env Doc)
    (options : Options) (q : object) (fieldName : string) (v : value)
    (m : gmap string pred) :
  from_option is_object false (obj_get "filter" q) = false ->
  is_empty fieldName = false ->
  has_line_terminator fieldName = false ->
  fieldName <> "__proto__" ->
  obj_get (bracket_key fieldName) q = Some v ->
  field_allowed (config options) fieldName = true ->
  fieldName <> "$or" ->
  fieldName <> date_field options ->
  filterObject E options q = Ok m ->
  m !! fieldName = Some (predicate_of fieldName v).
Proof.
  intros Hno He Ht Hp Hq Ha Hor Hdate Hm.
  rewrite (filterObject_lookup E options q m Hm). unfold filter_entry.
  rewrite (bool_decide_eq_false_2 _ Hdate), andb_false_r.
  rewrite (bool_decide_eq_false_2 _ Hor).
  unfold accepted_candidate. rewrite Ha.
  rewrite (candidate_value_bracket q fieldName v Hno He Ht Hp Hq). reflexivity.
Qed.

Lemma bracket_filter_reaches_filter_witness :
  let q := [("page", VStr "2"); ("filter[status]", VStr "active,inactive");
            ("filter[__proto__]", VStr "x")] in
  (from_option is_object false (obj_get "filter" q) = false
   /\ is_empty "status" = false /\ has_line_terminator "status" = false
   /\ "status" <> "__proto__"
   /\ obj_get (bracket_key "status") q = Some (VStr "active,inactive")
   /\ field_allowed (config Sample.no_options) "status" = true
   /\ "status" <> "$or" /\ "status" <> date_field Sample.no_options)
  /\ exists m, filterObject Sample.env Sample.no_options q = Ok m
               /\ m !! "status" = Some (PIn ["active"; "inactive"])
               /\ m !! "__proto__" = None
               /\ size m = 1%nat.
Proof.
  intros q.
  assert (H1 : from_option is_object false (obj_get "filter" q) = false) by reflexivity.
  assert (H2 : is_empty "status" = false) by reflexivity.
  assert (H3 : has_line_terminator "status" = false) by reflexivity.
  assert (Hp : "status" <> "__proto__") by discriminate.
  assert (H4 : obj_get (bracket_key "status") q = Some (VStr "active,inactive"))
    by reflexivity.
  assert (H5 : field_allowed (config Sample.no_options) "status" = true)
    by reflexivity.
  assert (H6 : "status" <> "$or") by discriminate.
  assert (H7 : "status" <> date_field Sample.no_options) by discriminate.
  split; [repeat split; assumption|].
  eexists. split; [reflexivity|].
  split; [|split; vm_compute; reflexivity].
  exact (bracket_filter_reaches_filter Sample.env Sample.no_options q "status"
           _ _ H1 H2 H3 Hp H4 H5 H6 H7 eq_refl).
Defined.

(** X3. When [req.query.filter] is an object (the nested form the query
    parser makes of [filter[name]=x]), its properties are the only
    candidates: a bracket key standing in [req.query] beside it, such as
    one a route has stored there, gives no filter. *)
Theorem nested_filter_shadows_bracket_keys {Doc : Type} (E : Env Doc)
    (options : Options) (q : object) (f : value) :
  obj_get "filter" q = Some f ->
  is_object f = true ->
  filterToProcess q = Some f
  /\ (forall k, candidate_value q k = obj_get k (props_of f))
  /\ (forall m k,
        filterObject E options q = Ok m ->
        obj_get k (props_of f) = None ->
        k <> "categoriesIds" -> k <> "$or" -> k <> date_field options ->
        m !! k = None).
Proof.
  intros Hf Hobj. destruct (candidate_value_nested q f Hf Hobj) as [Hp Hc].
  split; [exact Hp|]. split; [exact Hc|].
  intros m k Hm Hk Hcat Hor Hdate.
  rewrite (filterObject_lookup E options q m Hm). unfold filter_entry.
  rewrite (bool_decide_eq_false_2 _ Hdate), andb_false_r.
  rewrite (bool_decide_eq_false_2 _ Hor).
  unfold accepted_candidate. rewrite Hc, Hk.
  rewrite (bool_decide_eq_false_2 _ Hcat).
  destruct (field_allowed (config options) k); reflexivity.
Qed.

Lemma nested_filter_shadows_bracket_keys_witness :
  let f := VObj [("name", VStr "rose")] in
  let q := [("filter", f); ("filter[status]", VStr "active")] in
  (obj_get "filter" q = Some f /\ is_object f = true)
  /\ exists m, filterObject Sample.env Sample.plants_options q = Ok m
               /\ m !! "status" = None
               /\ m !! "name"
                  = Some (PRegex {| RegExp.pattern := "rose"; RegExp.flags := "i" |}).
Proof.
  intros f q.
  assert (H1 : obj_get "filter" q = Some f) by reflexivity.
  assert (H2 : is_object f = true) by reflexivity.
  split; [split; assumption|].
  destruct (nested_filter_shadows_bracket_keys Sample.env Sample.plants_options q f H1 H2)
    as (_ & _ & Hnone).
  eexists. split; [reflexivity|]. split; [|vm_compute; reflexivity].
  apply (Hnone _ "status" eq_refl); [reflexivity | discriminate..].
Defined.

(** X4. A [categories] name is trimmed and looked up; when a category is
    found the filter restricts [categoriesIds] to its id, and when none is
    found no restriction is added at all and the query goes on.  That is so
    when no accepted candidate filter is named [categoriesIds] and the date
    field is another. *)
Theorem category_name_is_resolved {Doc : Type} (E : Env Doc)
    (options : Options) (q : object) (name : string) (found : option string)
    (m : gmap string pred) :
  obj_get "categories" q = Some (VStr name) ->
  is_empty name = false ->
  Categories_findOne E (trim name) = Ok found ->
  accepted_candidate (config options) q "categoriesIds" = None ->
  date_field options <> "categoriesIds" ->
  filterObject E options q = Ok m ->
  m !! "categoriesIds" = PId <$> found.
Proof.
  intros Hc He Hfound Hcand Hdate Hm.
  rewrite (filterObject_lookup E options q m Hm). unfold filter_entry.
  rewrite (bool_decide_eq_false_2 ("categoriesIds" = date_field options))
    by congruence.
  rewrite andb_false_r.
  rewrite (bool_decide_eq_false_2 ("categoriesIds" = "$or")) by discriminate.
  rewrite Hcand, (bool_decide_eq_true_2 _ eq_refl).
  unfold category_id. rewrite Hc, He, Hfound. reflexivity.
Qed.

Lemma category_name_is_resolved_witness :
  let q := [("categories", VStr "Kaktus")] in
  (obj_get "categories" q = Some (VStr "Kaktus")
   /\ is_empty "Kaktus" = false
   /\ Categories_findOne Sample.env (trim "Kaktus") = Ok None
   /\ accepted_candidate (config Sample.plants_options) q "categoriesIds" = None
   /\ date_field Sample.plants_options <> "categoriesIds")
  /\ exists m, filterObject Sample.env Sample.plants_options q = Ok m
               /\ m !! "categoriesIds" = None.
Proof.
  intros q.
  assert (H1 : obj_get "categories" q = Some (VStr "Kaktus")) by reflexivity.
  assert (H2 : is_empty "Kaktus" = false) by reflexivity.
  assert (H3 : Categories_findOne Sample.env (trim "Kaktus") = Ok None) by reflexivity.
  assert (H4 : accepted_candidate (config Sample.plants_options) q "categoriesIds" = None)
    by reflexivity.
  assert (H5 : date_field Sample.plants_options <> "categoriesIds") by discriminate.
  split; [repeat split; assumption|].
  eexists. split; [reflexivity|].
  exact (category_name_is_resolved Sample.env Sample.plants_options q "Kaktus" None
           _ H1 H2 H3 H4 H5 eq_refl).
Defined.

(** ** Parameters that are not strings *)

Lemma startsWith_substring1 (c : ascii) (s : string) :
  startsWith c s = true -> s = String c (substring1 s).
Proof.
  destruct s as [|d r]; [discriminate|]. cbn. intros H.
  apply Ascii.eqb_eq in H. subst d. reflexivity.
Qed.

(** The sort object has one property, or none when the request names
    [__proto__]. *)
Lemma sortObject_shape (cfg : Config) (q : object) (sortObj : list (string * Z)) :
  sortObject cfg q = Ok sortObj ->
  (exists field dir, sortObj = [(field, dir)] /\ (dir = 1 \/ dir = -1))
  \/ (sortObj = []
      /\ (obj_get "sort" q = Some (VStr "__proto__")
          \/ obj_get "sort" q = Some (VStr "-__proto__"))).
Proof.
  unfold sortObject. destruct (truthy (obj_get "sort" q)).
  - destruct (obj_get "sort" q) as [[sortField| | | |]|];
      try (intros H; discriminate H).
    destruct (_ || _).
    + unfold sort_on. intros [= <-].
      destruct (startsWith "-" sortField) eqn:Hd.
      * destruct (String.eqb (substring1 sortField) "__proto__") eqn:Hp.
        -- right. split; [reflexivity|]. right.
           apply String.eqb_eq in Hp.
           rewrite (startsWith_substring1 _ _ Hd), Hp. reflexivity.
        -- left. eauto.
      * destruct (String.eqb sortField "__proto__") eqn:Hp.
        -- right. split; [reflexivity|]. left.
           apply String.eqb_eq in Hp. rewrite Hp. reflexivity.
        -- left. eauto.
    + intros [= <-]. left. eauto.
  - intros [= <-]. left. eauto.
Qed.

Lemma sortObject_not_string (cfg : Config) (q : object) :
  given_not_string (obj_get "sort" q) ->
  sortObject cfg q = Throw "sortField.startsWith is not a function".
Proof.
  intros [Ht Hns]. unfold sortObject. rewrite Ht.
  destruct (obj_get "sort" q) as [[s| | | |]|]; try reflexivity.
  destruct (Hns s). reflexivity.
Qed.

Lemma category_filter_not_string {Doc : Type} (E : Env Doc) (q : object)
    (fo : gmap string pred) :
  given_not_string (obj_get "categories" q) ->
  category_filter E q fo = Throw "req.query.categories.trim is not a function".
Proof.
  intros [Ht Hns]. unfold category_filter. rewrite Ht.
  destruct (obj_get "categories" q) as [[s| | | |]|]; try reflexivity.
  destruct (Hns s). reflexivity.
Qed.

(** X5. A [sort] or a [categories] parameter that is given but is not a
    string (a parameter repeated in the URL arrives as an array) makes the
    whole call abort, whatever the collection: the error carries the fixed
    prefix and no envelope is returned. *)
Theorem non_string_parameter_aborts {Doc : Type} (E : Env Doc)
    (req : Request) (options : Options) :
  given_not_string (obj_get "sort" (req_query req))
  \/ given_not_string (obj_get "categories" (req_query req)) ->
  exists cause,
    queryBuilder E req options = Throw (error_prefix +:+ cause)
    /\ (cause = "sortField.startsWith is not a function"
        \/ cause = "req.query.categories.trim is not a function").
Proof.
  intros H. unfold queryBuilder, queryBuilder_try.
  destruct (sortObject (config options) (req_query req)) as [sortObj|cause] eqn:Hs.
  - destruct H as [Hsort | Hcat].
    + rewrite (sortObject_not_string _ _ Hsort) in Hs. discriminate Hs.
    + cbn. unfold filterObject, filter_before_dates.
      rewrite (category_filter_not_string E _ ∅ Hcat). cbn. eauto.
  - destruct H as [Hsort | Hcat].
    + rewrite (sortObject_not_string _ _ Hsort) in Hs. injection Hs as <-.
      cbn. eauto.
    + (* the sort threw first: it can only be the sort's own error *)
      cbn. exists cause. split; [reflexivity|]. left.
      unfold sortObject in Hs.
      destruct (truthy (obj_get "sort" (req_query req))); [|discriminate Hs].
      destruct (obj_get "sort" (req_query req)) as [[s| | | |]|];
        try (injection Hs as <-; reflexivity).
      destruct (_ || _); discriminate Hs.
Qed.

Lemma non_string_parameter_aborts_witness :
  let req := Sample.request [("sort", VArr [VStr "name"; VStr "-price"])] in
  (given_not_string (obj_get "sort" (req_query req))
   \/ given_not_string (obj_get "categories" (req_query req)))
  /\ exists cause,
       queryBuilder Sample.env req Sample.plants_options
       = Throw (error_prefix +:+ cause).
Proof.
  intros req.
  assert (H : given_not_string (obj_get "sort" (req_query req))
              \/ given_not_string (obj_get "categories" (req_query req))).
  { left. split; [reflexivity|]. intros s Heq. discriminate Heq. }
  split; [exact H|].
  destruct (non_string_parameter_aborts Sample.env req Sample.plants_options H)
    as (cause & Heq & _).
  exists cause. exact Heq.
Defined.

(** ** The search clause *)

Section Search.

Context {Doc : Type}.
Variable E : Env Doc.



End Search.



(** ** The page window and the navigation links *)

(** X7. For a count [0 <= total < 2^53] and a limit of at least 1: there
    is no previous link exactly on page 1 and no next link exactly from the
    last page on; on a page that exists the rows [from..to] lie within
    [1..total], there are at most [limit] of them, exactly [limit] before
    the last page, and the last page ends at [total]; on a page past the
    last one (the page [Infinity] is one) [to] is [total] and [from] lies
    beyond it. *)
Theorem window_and_navigation {Doc : Type} (cfg : Config) (req : Request)
    (filt : gmap string pred) (sortObj : list (string * Z))
    (totalCount : Z) (docs : list Doc) (l : Z) :
  0 <= totalCount < 2 ^ 53 ->
  limit cfg (req_query req) = Num l ->
  1 <= l ->
  let r := respond cfg req filt sortObj totalCount docs in
  let p := page (req_query req) in
  exists L,
    last_page r = Num L
    /\ (prev_page_url r = None <-> p = Num 1)
    /\ (next_page_url r = None <-> p = Infinity \/ exists n, p = Num n /\ L <= n)
    /\ (forall n, p = Num n -> n <= L ->
        exists a b, from r = Some (Num a) /\ to r = Some (Num b)
                    /\ 1 <= a <= b /\ b <= totalCount /\ b - a + 1 <= l
                    /\ (n < L -> b - a + 1 = l)
                    /\ (n = L -> b = totalCount))
    /\ ((p = Infinity \/ exists n, p = Num n /\ L < n) -> 0 < totalCount ->
        exists a, from r = Some a /\ to r = Some (Num totalCount)
                  /\ (a = Infinity \/ exists k, a = Num k /\ totalCount < k)).
Proof.
  intros [Ht0 Ht] Hl H1 r p.
  destruct (lastPage_ceiling totalCount l H1) as (L & HL & Hlo & Hhi).
  exists L. subst r.
  cbn [respond prev_page_url next_page_url last_page from to].
  rewrite Hl, HL. fold p. split; [reflexivity|].
  assert (HLt : L <= totalCount) by nia.
  assert (Hsgn : Z.sgn l = 1) by (apply Z.sgn_pos; lia).
  assert (Hinf : 0 < totalCount ->
            skip cfg (req_query req) = Infinity ->
            exists a,
              (if 0 <? totalCount then Some (skip cfg (req_query req) + Num 1)%num
               else None) = Some a
              /\ (if 0 <? totalCount
                  then Some (Math_min (skip cfg (req_query req) + Num l)%num
                                      (Num totalCount))
                  else None) = Some (Num totalCount)
              /\ (a = Infinity \/ exists k, a = Num k /\ totalCount < k)).
  { intros Hpos Hs. apply Z.ltb_lt in Hpos. rewrite Hpos, Hs.
    exists Infinity. cbn. auto. }
  destruct (page_ge_1 (req_query req)) as [Hi | (n & Hn & Hge)]; fold p in Hi || fold p in Hn.
  - rewrite Hi. cbn [ltb].
    split; [split; intros Hx; discriminate Hx|].
    split; [split; [left; reflexivity | reflexivity]|].
    split; [intros n Hx; discriminate Hx|].
    intros _ Hpos. apply (Hinf Hpos).
    unfold skip. fold p. rewrite Hi, Hl. cbn. rewrite Hsgn. reflexivity.
  - rewrite Hn. cbn [ltb].
    split; [|split; [|split]].
    + destruct (Z.ltb_spec 1 n); split; intros Hx; try discriminate Hx;
        try reflexivity.
      * injection Hx as ->. lia.
      * f_equal. lia.
    + destruct (Z.ltb_spec n L); split; intros Hx; try discriminate Hx.
      * destruct Hx as [Hx|(n' & [= <-] & Hx)]; [discriminate Hx | lia].
      * right. exists n. split; [reflexivity | exact H].
      * reflexivity.
    + intros n' [= <-] HnL.
      assert (Hpos : 0 < totalCount) by nia.
      assert (Hs : skip cfg (req_query req) = Num ((n - 1) * l))
        by (apply skip_exact; [exact Hn | exact Hl | exact H1 | nia]).
      apply Z.ltb_lt in Hpos as Hpos'. rewrite Hpos', Hs. cbn [add].
      rewrite (to_double_exact ((n - 1) * l + 1)) by nia.
      rewrite (Math_min_to_double ((n - 1) * l + l) totalCount) by nia.
      exists ((n - 1) * l + 1), (Z.min ((n - 1) * l + l) totalCount).
      split; [reflexivity|]. split; [reflexivity|].
      assert (Hskip : (n - 1) * l < totalCount) by nia.
      split; [split; [nia | apply Z.min_glb; lia]|].
      split; [apply Z.le_min_r|].
      split; [pose proof (Z.le_min_l ((n - 1) * l + l) totalCount); lia|].
      split.
      * intros Hlt. assert (n * l < totalCount) by nia.
        rewrite Z.min_l by lia. lia.
      * intros ->. apply Z.min_r. lia.
    + intros [Hx|(n' & [= <-] & HLn)] Hpos; [discriminate Hx|].
      assert (Hsk : skip cfg (req_query req) = (to_double (n - 1) * Num l)%num).
      { unfold skip. fold p. rewrite Hn, Hl. reflexivity. }
      destruct (to_double_ge L (n - 1) ltac:(lia) ltac:(lia) ltac:(lia))
        as [Hk|(k & Hk & HkL)]; rewrite Hk in Hsk.
      * apply (Hinf Hpos). rewrite Hsk. cbn. rewrite Hsgn. reflexivity.
      * cbn [mul] in Hsk.
        destruct (to_double_ge totalCount (k * l) ltac:(lia) ltac:(nia) ltac:(nia))
          as [Hs|(s & Hs & Hst)]; rewrite Hs in Hsk.
        -- apply (Hinf Hpos). exact Hsk.
        -- apply Z.ltb_lt in Hpos as Hpos'. rewrite Hpos', Hsk. cbn [add].
           rewrite (Math_min_to_double (s + l) totalCount) by lia.
           rewrite Z.min_r by lia.
           exists (to_double (s + 1)). split; [reflexivity|].
           split; [reflexivity|].
           destruct (to_double_gt totalCount (s + 1) ltac:(lia) ltac:(lia) ltac:(lia))
             as [Hf|(f & Hf & Hft)]; rewrite Hf; [left; reflexivity|].
           right. exists f. split; [reflexivity | exact Hft].
Qed.

Lemma window_and_navigation_witness :
  let cfg := config Sample.plants_options in
  let req := Sample.request [("page", VStr "3"); ("limit", VStr "10")] in
  let r := respond cfg req ∅ [("createdAt", -1)] 25 (@nil string) in
  (0 <= 25 < 2 ^ 53 /\ limit cfg (req_query req) = Num 10 /\ 1 <= 10)
  /\ next_page_url r = None
  /\ from r = Some (Num 21) /\ to r = Some (Num 25).
Proof.
  intros cfg req r.
  assert (H0 : 0 <= 25 < 2 ^ 53) by (split; [lia | reflexivity]).
  assert (Hl : limit cfg (req_query req) = Num 10) by reflexivity.
  assert (H1 : 1 <= 10) by lia.
  split; [repeat split; try assumption; apply H0|].
  destruct (window_and_navigation cfg req ∅ [("createdAt", -1)] 25 (@nil string) 10
              H0 Hl H1) as (L & HL & _ & Hnext & _ & _).
  split; [|split; reflexivity].
  apply Hnext. right. exists 3. split; [reflexivity|].
  assert (HL3 : last_page r = Num 3) by reflexivity.
  unfold r in HL3. rewrite HL in HL3. injection HL3 as ->. lia.
Defined.

(** ** What the envelope reports *)

Lemma queryBuilder_Ok_inv {Doc : Type} (E : Env Doc) (req : Request)
    (options : Options) (r : Response) :
  queryBuilder E req options = Ok r ->
  exists sortObj m totalCount docs,
    sortObject (config options) (req_query req) = Ok sortObj
    /\ filterObject E options (req_query req) = Ok m
    /\ Model_countDocuments E m = Ok totalCount
    /\ Model_exec E m (populates options) sortObj
         (skip (config options) (req_query req))
         (limit (config options) (req_query req)) = Ok docs
    /\ r = respond (config options) req m sortObj totalCount docs.
Proof.
  unfold queryBuilder, queryBuilder_try.
  destruct (sortObject (config options) (req_query req)) as [sortObj|] eqn:Hs;
    cbn; [|intros H; discriminate H].
  destruct (filterObject E options (req_query req)) as [m|] eqn:Hf;
    cbn; [|intros H; discriminate H].
  destruct (Model_countDocuments E m) as [totalCount|] eqn:Hc;
    cbn; [|intros H; discriminate H].
  destruct (Model_exec E m _ _ _ _) as [docs|] eqn:He;
    cbn; [|intros H; discriminate H].
  intros [= <-]. eauto 10.
Qed.

(** X8. When the call returns an envelope, [total] is the collection's
    count for the filter and [data] is its fetch for the same filter, with
    the sort, skip and limit computed from the request, and [query_info]
    reports the number of entries of the filter.  The sort is on one field,
    ascending or descending, and [query_info] reports that direction and
    that field (the default field when the name is empty); or, when the
    request asks to sort on [__proto__], the fetch has no sort at all and
    [query_info] reports the default field, descending. *)
Theorem envelope_reports_the_query {Doc : Type} (E : Env Doc) (req : Request)
    (options : Options) (r : Response) :
  queryBuilder E req options = Ok r ->
  let cfg := config options in
  let q := req_query req in
  exists m sortObj,
    filterObject E options q = Ok m
    /\ Model_countDocuments E m = Ok (total r)
    /\ Model_exec E m (populates options) sortObj (skip cfg q) (limit cfg q)
       = Ok (data r)
    /\ per_page r = limit cfg q /\ current_page r = page q
    /\ filters_applied (query_info r) = size m
    /\ ((exists field dir,
           sortObj = [(field, dir)] /\ (dir = 1 \/ dir = -1)
           /\ sort_direction (query_info r) = (if dir =? 1 then "asc" else "desc")
           /\ (field <> EmptyString -> sort_by (query_info r) = field)
           /\ (field = EmptyString -> sort_by (query_info r) = defaultSort cfg))
        \/ (sortObj = []
            /\ (obj_get "sort" q = Some (VStr "__proto__")
                \/ obj_get "sort" q = Some (VStr "-__proto__"))
            /\ sort_direction (query_info r) = "desc"
            /\ sort_by (query_info r) = defaultSort cfg)).
Proof.
  intros H cfg q.
  destruct (queryBuilder_Ok_inv E req options r H)
    as (sortObj & m & totalCount & docs & Hs & Hf & Hc & He & ->).
  exists m, sortObj. cbn.
  split; [exact Hf|]. split; [exact Hc|]. split; [exact He|].
  split; [reflexivity|]. split; [reflexivity|]. split; [reflexivity|].
  destruct (sortObject_shape _ _ _ Hs) as [(field & dir & -> & Hdir)|(-> & Hq)].
  - left. exists field, dir. split; [reflexivity|]. split; [exact Hdir|].
    split; [destruct Hdir as [-> | ->]; reflexivity|].
    split; [destruct field; [intros Hne; destruct Hne|]; reflexivity|].
    intros ->. reflexivity.
  - right. auto.
Qed.

Lemma envelope_reports_the_query_witness :
  (let req := Sample.request [("sort", VStr "name"); ("limit", VStr "3")] in
   exists r,
     queryBuilder Sample.env req Sample.plants_options = Ok r
     /\ data r = ["plant-1"; "plant-2"; "plant-3"]
     /\ sort_by (query_info r) = "name"
     /\ sort_direction (query_info r) = "asc")
  /\ (let req := Sample.request [("sort", VStr "__proto__")] in
      exists r,
        queryBuilder Sample.env req Sample.no_options = Ok r
        /\ sortObject (config Sample.no_options) (req_query req) = Ok []
        /\ sort_by (query_info r) = "createdAt"
        /\ sort_direction (query_info r) = "desc").
Proof.
  split; intros req.
  - eexists. split; [vm_compute; reflexivity|].
    match goal with
    | |- data ?r = _ /\ _ =>
        destruct (envelope_reports_the_query Sample.env req Sample.plants_options r
                    ltac:(vm_compute; reflexivity))
          as (m & sortObj & _)
    end.
    repeat split.
  - eexists. split; [vm_compute; reflexivity|]. repeat split.
Defined.

(** ** Reading the navigation URLs back *)























(** ** The plants of a category *)

Lemma category_plants_Sent {Doc : Type} (E : Env Doc) (image : Doc -> option string)
    (req : Request) (id : string) (status : Z) (body : @Response (WithImageUrl Doc)) :
  category_plants E image req id = Sent status body ->
  status = 200
  /\ exists m docs,
       filterObject E category_plants_options (category_plants_query req id) = Ok m
       /\ Model_countDocuments E m = Ok (total body)
       /\ map plant (data body) = docs
       /\ exists sortObj,
            Model_exec E m (populates category_plants_options) sortObj
              (skip (config category_plants_options) (category_plants_query req id))
              (limit (config category_plants_options) (category_plants_query req id))
            = Ok docs.
Proof.
  unfold category_plants.
  destruct (queryBuilder E _ category_plants_options) as [r|] eqn:Hq;
    [|intros H; discriminate H].
  intros [= <- <-]. split; [reflexivity|].
  destruct (queryBuilder_Ok_inv E _ _ r Hq)
    as (sortObj & m & totalCount & docs & _ & Hf & Hc & He & ->).
  exists m, docs. cbn. split; [exact Hf|]. split; [exact Hc|].
  split; [|exists sortObj; exact He].
  rewrite map_map. cbn. apply map_id.
Qed.

(** X10. When [req.query.filter] is not an object, every answer of
    GET /categories/:id/plants counts and fetches with a filter whose
    [categoriesIds] entry is the predicate of the id of the path: the
    case-insensitive pattern of the escaped id (or the list of its parts,
    should it hold a comma).  A [categories] name or a
    [filter[categoriesIds]] sent by the client does not change it. *)
Theorem category_route_filters_on_path_id {Doc : Type} (E : Env Doc)
    (image : Doc -> option string) (req : Request) (id : string)
    (status : Z) (body : @Response (WithImageUrl Doc)) :
  from_option is_object false (obj_get "filter" (req_query req)) = false ->
  category_plants E image req id = Sent status body ->
  exists m,
    filterObject E category_plants_options (category_plants_query req id) = Ok m
    /\ Model_countDocuments E m = Ok (total body)
    /\ m !! "categoriesIds" = Some (predicate_of "categoriesIds" (VStr id)).
Proof.
  intros Hno Hsent.
  destruct (category_plants_Sent E image req id status body Hsent)
    as (_ & m & docs & Hf & Hc & _).
  exists m. split; [exact Hf|]. split; [exact Hc|].
  rewrite (filterObject_lookup E _ _ m Hf). unfold filter_entry.
  rewrite (bool_decide_eq_false_2 ("categoriesIds" = date_field category_plants_options))
    by discriminate.
  rewrite andb_false_r.
  rewrite (bool_decide_eq_false_2 ("categoriesIds" = "$or")) by discriminate.
  unfold accepted_candidate.
  assert (Ha : field_allowed (config category_plants_options) "categoriesIds" = true)
    by reflexivity.
  rewrite Ha.
  rewrite (candidate_value_bracket (category_plants_query req id) "categoriesIds" (VStr id));
    [reflexivity | | reflexivity | reflexivity | discriminate |].
  - unfold category_plants_query. rewrite obj_get_set_ne by discriminate. exact Hno.
  - apply obj_get_set_eq. discriminate.
Qed.

Lemma category_route_filters_on_path_id_witness :
  let req := Sample.request [("categories", VStr "Sukulent"); ("page", VStr "2")] in
  let id := "66b1f0c2a4d3e5f6a7b8c9d0" in
  from_option is_object false (obj_get "filter" (req_query req)) = false
  /\ exists body m,
       category_plants Sample.env sample_image req id = Sent 200 body
       /\ filterObject Sample.env category_plants_options (category_plants_query req id)
          = Ok m
       /\ m !! "categoriesIds"
          = Some (PRegex {| RegExp.pattern := id; RegExp.flags := "i" |}).
Proof.
  intros req id.
  assert (H : from_option is_object false (obj_get "filter" (req_query req)) = false)
    by reflexivity.
  split; [exact H|].
  assert (Hs : exists body, category_plants Sample.env sample_image req id = Sent 200 body)
    by (eexists; vm_compute; reflexivity).
  destruct Hs as (body & Hs).
  destruct (category_route_filters_on_path_id Sample.env sample_image req id 200 body H Hs)
    as (m & Hf & _ & Hk).
  exists body, m. split; [exact Hs|]. split; [exact Hf | exact Hk].
Defined.

(** X11. When [req.query.filter] is an object with no [categoriesIds]
    property (once [filter[name]=x] has been parsed into its nested form,
    say) and no [categories] name is given, the id of the path is not
    applied: every answer of GET /categories/:id/plants counts and fetches
    with a filter that has no [categoriesIds] entry, whatever the id. *)
Theorem category_route_ignores_path_id {Doc : Type} (E : Env Doc)
    (image : Doc -> option string) (req : Request) (id : string) (f : value)
    (status : Z) (body : @Response (WithImageUrl Doc)) :
  obj_get "filter" (req_query req) = Some f ->
  is_object f = true ->
  obj_get "categoriesIds" (props_of f) = None ->
  obj_get "categories" (req_query req) = None ->
  category_plants E image req id = Sent status body ->
  exists m,
    filterObject E category_plants_options (category_plants_query req id) = Ok m
    /\ Model_countDocuments E m = Ok (total body)
    /\ m !! "categoriesIds" = None.
Proof.
  intros Hf Hobj Hnone Hcat Hsent.
  destruct (category_plants_Sent E image req id status body Hsent)
    as (_ & m & docs & Hm & Hc & _).
  exists m. split; [exact Hm|]. split; [exact Hc|].
  assert (Hf' : obj_get "filter" (category_plants_query req id) = Some f).
  { unfold category_plants_query. rewrite obj_get_set_ne by discriminate. exact Hf. }
  destruct (candidate_value_nested _ f Hf' Hobj) as [_ Hcand].
  rewrite (filterObject_lookup E _ _ m Hm). unfold filter_entry.
  rewrite (bool_decide_eq_false_2 ("categoriesIds" = date_field category_plants_options))
    by discriminate.
  rewrite andb_false_r.
  rewrite (bool_decide_eq_false_2 ("categoriesIds" = "$or")) by discriminate.
  unfold accepted_candidate. rewrite Hcand, Hnone.
  destruct (field_allowed _ "categoriesIds"); cbn;
    unfold category_id, category_plants_query;
    rewrite obj_get_set_ne by discriminate; rewrite Hcat; reflexivity.
Qed.

Lemma category_route_ignores_path_id_witness :
  let f := VObj [("name", VStr "rose")] in
  let req := Sample.request [("filter", f)] in
  let id := "66b1f0c2a4d3e5f6a7b8c9d0" in
  (obj_get "filter" (req_query req) = Some f /\ is_object f = true
   /\ obj_get "categoriesIds" (props_of f) = None
   /\ obj_get "categories" (req_query req) = None)
  /\ exists body m,
       category_plants Sample.env sample_image req id = Sent 200 body
       /\ filterObject Sample.env category_plants_options (category_plants_query req id)
          = Ok m
       /\ m !! "categoriesIds" = None.
Proof.
  intros f req id.
  assert (H1 : obj_get "filter" (req_query req) = Some f) by reflexivity.
  assert (H2 : is_object f = true) by reflexivity.
  assert (H3 : obj_get "categoriesIds" (props_of f) = None) by reflexivity.
  assert (H4 : obj_get "categories" (req_query req) = None) by reflexivity.
  split; [repeat split; assumption|].
  assert (Hs : exists body, category_plants Sample.env sample_image req id = Sent 200 body)
    by (eexists; vm_compute; reflexivity).
  destruct Hs as (body & Hs).
  destruct (category_route_ignores_path_id Sample.env sample_image req id f 200 body
              H1 H2 H3 H4 Hs) as (m & Hf & _ & Hk).
  exists body, m. split; [exact Hs|]. split; [exact Hf | exact Hk].
Defined.

(** ** The plants routes: stock and sale *)

Module PlantsFacts.

Import Plants.

Lemma toNonNegIntOrNull_Count (v : jsval) (n : Z) :
  toNonNegIntOrNull v = Count n ->
  0 <= n /\ parseInt10 (js_to_string v) = Num n.
Proof.
  unfold toNonNegIntOrNull.
  destruct (negb (defined v) || _ || is_empty_string v); [discriminate|].
  destruct (parseInt10 (js_to_string v)) as [k| | |]; try discriminate.
  destruct (Z.ltb_spec k 0); [discriminate|].
  intros [= <-]. auto.
Qed.

Lemma read_price_Price (N : Numeric) (v : jsval) (x : num N) :
  read_price N v = Price x ->
  x = Number_ N v /\ Number_isNaN N x = false /\ negative N x = false.
Proof.
  unfold read_price. destruct (defined v && negb (is_empty_string v)); [|discriminate].
  destruct (Number_isNaN N (Number_ N v) || negative N (Number_ N v)) eqn:Hbad;
    [discriminate|].
  intros [= <-]. apply orb_false_iff in Hbad. tauto.
Qed.

Lemma body_stock_Count (b : body) (n : Z) : body_stock b = Count n -> 0 <= n.
Proof.
  unfold body_stock. destruct (_ && _); [|discriminate].
  intros H. apply toNonNegIntOrNull_Count in H. tauto.
Qed.

Lemma create_payload_inr (N : Numeric) (b : body) (filename : option string)
    (p : Create.payload N) :
  create_payload N b filename = inr p ->
  js_truthy (Create.createdBy p) = true
  /\ Create.stockCount p = match body_stock b with Count n => Some n | _ => None end
  /\ body_stock b <> INVALID
  /\ Create.price p
     = match read_price N (body_get "price" b) with Price n => Some n | _ => None end
  /\ Create.forSale p
     = (if defined (body_get "forSale" b)
        then Some (toBool (body_get "forSale" b)
                   && (0 <? default 0 (Create.stockCount p)))
        else None).
Proof.
  unfold create_payload.
  destruct (body_get "categoriesIds" b) as [| |c]; try discriminate.
  destruct (negb (truthy (Some c))); [discriminate|].
  destruct (js_truthy (body_get "createdBy" b)) eqn:Hc; [|discriminate]. cbn [negb].
  destruct (read_price N (body_get "price" b)) eqn:Hp; try discriminate;
    destruct (body_stock b) eqn:Hs; try discriminate;
    intros [= <-]; cbn; repeat split; try assumption; discriminate.
Qed.

End PlantsFacts.

(** X12. A payload that POST /plants hands to [new Plants] has a creator;
    its stock is absent or at least 0; its price is absent or a number that
    is neither NaN nor negative; and it is for sale only with a stock above
    0, so that a plant created with [forSale] and no stock is stored as not
    for sale. *)
Theorem created_plant_is_for_sale_only_with_stock (N : Plants.Numeric)
    (b : Plants.body) (filename : option string) (p : Plants.Create.payload N) :
  Plants.create_payload N b filename = inr p ->
  Plants.js_truthy (Plants.Create.createdBy p) = true
  /\ (forall n, Plants.Create.stockCount p = Some n -> 0 <= n)
  /\ (forall x, Plants.Create.price p = Some x ->
        Plants.Number_isNaN N x = false /\ Plants.negative N x = false)
  /\ (Plants.Create.forSale p = Some true ->
        exists n, Plants.Create.stockCount p = Some n /\ 0 < n)
  /\ (Plants.Create.stockCount p = None ->
        Plants.Create.forSale p <> Some true).
Proof.
  intros H.
  destruct (PlantsFacts.create_payload_inr N b filename p H)
    as (Hc & Hs & _ & Hp & Hf).
  split; [exact Hc|]. split; [|split; [|split]].
  - intros n Hn. rewrite Hs in Hn.
    destruct (Plants.body_stock b) eqn:Hb; try discriminate Hn.
    injection Hn as <-. exact (PlantsFacts.body_stock_Count b _ Hb).
  - intros x Hx. rewrite Hp in Hx.
    destruct (Plants.read_price N _) eqn:Hr; try discriminate Hx.
    injection Hx as <-. apply PlantsFacts.read_price_Price in Hr. tauto.
  - intros Hsale. rewrite Hf in Hsale.
    destruct (Plants.defined _); [|discriminate Hsale].
    injection Hsale as Hsale. apply andb_true_iff in Hsale as [_ Hpos].
    destruct (Plants.Create.stockCount p) as [n|]; [|discriminate Hpos].
    exists n. split; [reflexivity|]. apply Z.ltb_lt. exact Hpos.
  - intros Hnone Hsale. rewrite Hf, Hnone in Hsale.
    destruct (Plants.defined _); [|discriminate Hsale].
    rewrite andb_false_r in Hsale. discriminate Hsale.
Qed.

Lemma created_plant_is_for_sale_only_with_stock_witness :
  let b := [("name", Some (VStr "Aloe")); ("categoriesIds", Some (VStr "c1, c2,"));
            ("createdBy", Some (VStr "u1")); ("forSale", Some (VStr "true"));
            ("stockCount", Some (VStr "0")); ("price", Some (VStr "12"))] in
  exists p,
    Plants.create_payload Plants.whole_numbers b (Some "aloe.jpg") = inr p
    /\ Plants.Create.categoriesIds p = Plants.Ids ["c1"; "c2"]
    /\ Plants.Create.stockCount p = Some 0
    /\ Plants.Create.forSale p = Some false.
Proof.
  intros b. eexists. split; [reflexivity|].
  split; [reflexivity|]. split; [reflexivity|].
  match goal with
  | |- Plants.Create.forSale ?p = _ =>
      pose proof (created_plant_is_for_sale_only_with_stock Plants.whole_numbers b
                    (Some "aloe.jpg") p eq_refl) as (_ & _ & _ & Hsale & _);
      destruct (Plants.Create.forSale p) as [[|]|] eqn:Hf
  end.
  - destruct (Hsale eq_refl) as (n & Hn & Hpos). cbn in Hn. injection Hn as <-. lia.
  - reflexivity.
  - discriminate Hf.
Defined.

Module UpdateFacts.

Import Plants.

Lemma update_data_inr (N : Numeric) (b : body) (e : Existing N)
    (u : Update.updateData N) :
  update_data N b e = inr u ->
  body_stock b <> INVALID
  /\ Update.stockCount u
     = match body_stock b with
       | Count n => n
       | _ => default 0 (existing_stockCount e)
       end
  /\ Update.forSale u
     = (if defined (body_get "forSale" b)
        then toBool (body_get "forSale" b) && (0 <? Update.stockCount u)
        else if Update.stockCount u =? 0 then false
             else default false (existing_forSale e))
  /\ Update.price u
     = match read_price N (body_get "price" b) with
       | Price n => Some n
       | _ => existing_price e
       end
  /\ read_price N (body_get "price" b) <> InvalidPrice.
Proof.
  unfold update_data.
  destruct (read_price N (body_get "price" b)) eqn:Hp; try discriminate;
    destruct (body_stock b) eqn:Hs; try discriminate;
    intros [= <-]; cbn; repeat split; discriminate.
Qed.

End UpdateFacts.

(** X13. The update PUT /plants/:id builds never has a plant for sale with
    a stock of 0: with [forSale] in the body the plant is for sale only if
    asked and the stock is above 0, without it a stock of 0 turns the sale
    off.  The stock is the count of the body when one is given, which is at
    least 0, and the stock the plant had otherwise; the price is the one of
    the body, neither NaN nor negative, or the one the plant had. *)
Theorem updated_plant_is_not_for_sale_without_stock (N : Plants.Numeric)
    (b : Plants.body) (e : Plants.Existing N) (u : Plants.Update.updateData N) :
  Plants.update_data N b e = inr u ->
  (Plants.Update.forSale u = true -> Plants.Update.stockCount u <> 0)
  /\ (Plants.defined (Plants.body_get "forSale" b) = true ->
      Plants.Update.forSale u = true ->
      Plants.toBool (Plants.body_get "forSale" b) = true
      /\ 0 < Plants.Update.stockCount u)
  /\ (forall n, Plants.body_stock b = Plants.Count n ->
        Plants.Update.stockCount u = n /\ 0 <= n)
  /\ (Plants.body_stock b = Plants.CountNull ->
        Plants.Update.stockCount u = default 0 (Plants.existing_stockCount e))
  /\ (forall x, Plants.Update.price u = Some x ->
        Plants.existing_price e = Some x
        \/ (Plants.Number_isNaN N x = false /\ Plants.negative N x = false)).
Proof.
  intros H.
  destruct (UpdateFacts.update_data_inr N b e u H) as (Hinv & Hs & Hf & Hp & _).
  split; [|split; [|split; [|split]]].
  - intros Hsale Hzero. rewrite Hf, Hzero in Hsale. cbn in Hsale.
    destruct (Plants.defined _); [|discriminate Hsale].
    rewrite andb_false_r in Hsale. discriminate Hsale.
  - intros Hd Hsale. rewrite Hf, Hd in Hsale.
    apply andb_true_iff in Hsale as [Hb Hpos]. split; [exact Hb|].
    apply Z.ltb_lt. exact Hpos.
  - intros n Hn. rewrite Hs, Hn. split; [reflexivity|].
    exact (PlantsFacts.body_stock_Count b n Hn).
  - intros Hn. rewrite Hs, Hn. reflexivity.
  - intros x Hx. rewrite Hp in Hx.
    destruct (Plants.read_price N _) eqn:Hr; auto.
    injection Hx as <-. right. apply PlantsFacts.read_price_Price in Hr. tauto.
Qed.

Lemma updated_plant_is_not_for_sale_without_stock_witness :
  let b := [("stockCount", Some (VStr "0")); ("name", Some (VStr EmptyString))] in
  let e := Plants.Build_Existing Plants.whole_numbers
             [("name", VStr "Aloe")] (Some "aloe.jpg") (Some (Some 12)) (Some true)
             (Some 4) in
  exists u,
    Plants.update_data Plants.whole_numbers b e = inr u
    /\ Plants.Update.name u = Plants.JVal (VStr "Aloe")
    /\ Plants.Update.stockCount u = 0
    /\ Plants.Update.forSale u = false.
Proof.
  intros b e. eexists. split; [reflexivity|].
  split; [reflexivity|]. split; [reflexivity|].
  match goal with
  | |- Plants.Update.forSale ?u = _ =>
      pose proof (updated_plant_is_not_for_sale_without_stock Plants.whole_numbers b e u
                    eq_refl) as (Hsale & _);
      destruct (Plants.Update.forSale u) eqn:Hf; [|reflexivity]
  end.
  destruct (Hsale eq_refl). reflexivity.
Defined.

(** ** The stock routes *)

Module StockFacts.

Import Plants.

Lemma buy_amount_positive (qtyRaw : jsval) : 1 <= buy_amount qtyRaw.
Proof.
  unfold buy_amount. destruct (parseInt10 _) as [qty| | |]; try lia.
  destruct (Z.ltb_spec 0 qty); lia.
Qed.

Lemma buy_amount_qty (qtyRaw : jsval) (qty : Z) :
  parseInt10 (js_to_string qtyRaw) = Num qty -> 0 < qty -> buy_amount qtyRaw = qty.
Proof.
  unfold buy_amount. intros -> H. destruct (Z.ltb_spec 0 qty); [reflexivity|lia].
Qed.

Lemma buy_amount_one (qtyRaw : jsval) :
  (forall qty, parseInt10 (js_to_string qtyRaw) = Num qty -> qty <= 0) ->
  buy_amount qtyRaw = 1.
Proof.
  unfold buy_amount. intros H.
  destruct (parseInt10 (js_to_string qtyRaw)) as [qty| | |]; try reflexivity.
  specialize (H qty eq_refl). destruct (Z.ltb_spec 0 qty); [lia | reflexivity].
Qed.

Lemma sold_out_for_sale_false (p : Plant) :
  sold_out_for_sale p = false ->
  ~ (doc_stockCount p = Some 0 /\ doc_forSale p = Some true).
Proof.
  unfold sold_out_for_sale. intros H [Hs Hf]. rewrite Hs, Hf in H. discriminate H.
Qed.

Lemma not_forSale_not_for_sale (p : Plant) :
  ~ (doc_stockCount (not_forSale p) = Some 0 /\ doc_forSale (not_forSale p) = Some true).
Proof. intros [_ H]. discriminate H. Qed.

Lemma sale_write {N : Numeric} (S : Store N) (req : Request) (id : string)
    (payload : Sale.payload N) (status : Z) (w : WithImageUrl Plant) :
  caught 500
    (updated ← set_sale S id payload;
     match updated with
     | None => Ok (Refused 404 "Plant not found")
     | Some updated => Ok (Sent 200 (with_url req updated))
     end) = Sent status w ->
  status = 200
  /\ set_sale S id payload = Ok (Some (plant w))
  /\ imageUrl w = toImageUrl req (doc_image (plant w)).
Proof.
  destruct (set_sale S id payload) as [[updated|]|]; cbn; intros Hf;
    try discriminate Hf.
  injection Hf as <- <-. auto.
Qed.

End StockFacts.

(** X14. A purchase that POST /plants/:id/buy answers with 200 took an
    amount of at least 1 from the stock (the finite number above 0 that the
    [qty] of the body reads as, a double, and 1 when it reads as anything
    else) through the one conditional update of the collection.  The plant
    in the answer is the one the update returned, and it is never shown for
    sale with a stock of 0: in that case the sale flag was cleared in the
    collection first. *)
Theorem purchase_takes_stock_once {N : Plants.Numeric} (S : Plants.Store N)
    (req : Request) (id : string) (b : option Plants.body)
    (status : Z) (w : WithImageUrl Plants.Plant) :
  Plants.buy S req id b = Sent status w ->
  let qtyRaw := match b with
                | Some b => Plants.body_get "qty" b
                | None => Plants.JUndefined
                end in
  status = 200
  /\ exists amount after,
       Plants.take_stock S id amount = Ok (Some after)
       /\ 1 <= amount
       /\ (forall qty, Plants.parseInt10 (Plants.js_to_string qtyRaw) = Num qty ->
             0 < qty -> amount = qty)
       /\ ((forall qty, Plants.parseInt10 (Plants.js_to_string qtyRaw) = Num qty ->
              qty <= 0) -> amount = 1)
       /\ Plants.doc_id (plant w) = Plants.doc_id after
       /\ Plants.doc_stockCount (plant w) = Plants.doc_stockCount after
       /\ imageUrl w = toImageUrl req (Plants.doc_image after)
       /\ ~ (Plants.doc_stockCount (plant w) = Some 0
             /\ Plants.doc_forSale (plant w) = Some true)
       /\ (Plants.doc_forSale (plant w) <> Plants.doc_forSale after ->
             Plants.clear_forSale S (Plants.doc_id after) = Ok tt).
Proof.
  intros H qtyRaw. unfold Plants.buy in H. fold qtyRaw in H.
  destruct (Plants.take_stock S id (Plants.buy_amount qtyRaw)) as [[after|]|] eqn:Ht;
    cbn in H; try discriminate H.
  assert (Hamount : 1 <= Plants.buy_amount qtyRaw
                    /\ (forall qty,
                          Plants.parseInt10 (Plants.js_to_string qtyRaw) = Num qty ->
                          0 < qty -> Plants.buy_amount qtyRaw = qty)
                    /\ ((forall qty,
                           Plants.parseInt10 (Plants.js_to_string qtyRaw) = Num qty ->
                           qty <= 0) -> Plants.buy_amount qtyRaw = 1)).
  { split; [apply StockFacts.buy_amount_positive|].
    split; [intros qty; apply StockFacts.buy_amount_qty|].
    apply StockFacts.buy_amount_one. }
  destruct Hamount as (Hpos & Hqty & Hone).
  destruct (Plants.sold_out_for_sale after) eqn:Hsold.
  - destruct (Plants.clear_forSale S (Plants.doc_id after)) as [[]|] eqn:Hc;
      cbn in H; [|discriminate H].
    injection H as <- <-. split; [reflexivity|].
    exists (Plants.buy_amount qtyRaw), after. cbn.
    repeat split; auto. intros [_ Habs]. discriminate Habs.
  - injection H as <- <-. split; [reflexivity|].
    exists (Plants.buy_amount qtyRaw), after. cbn.
    repeat split; auto.
    + apply StockFacts.sold_out_for_sale_false. exact Hsold.
    + intros Habs. destruct Habs. reflexivity.
Qed.

Lemma purchase_takes_stock_once_witness :
  let S := Plants.one_plant Plants.whole_numbers 3 true in
  let req := Sample.request [] in
  (let b := Some [("qty", Some (VStr "3"))] in
   exists w,
     Plants.buy S req "p1" b = Sent 200 w
     /\ Plants.doc_stockCount (plant w) = Some 0
     /\ Plants.doc_forSale (plant w) = Some false
     /\ exists after,
          Plants.take_stock S "p1" 3 = Ok (Some after)
          /\ Plants.doc_forSale after = Some true)
  /\ (let b := Some [("qty", Some (VStr Plants.nines))] in
      exists w,
        Plants.buy S req "p1" b = Sent 200 w
        /\ Plants.doc_stockCount (plant w) = Some 2
        /\ exists after, Plants.take_stock S "p1" 1 = Ok (Some after)).
Proof.
  intros S req. split; intros b.
  - eexists. split; [reflexivity|].
    split; [reflexivity|]. split; [reflexivity|].
    match goal with
    | |- context [Plants.take_stock S "p1" 3] =>
        pose proof (purchase_takes_stock_once S req "p1" b 200 _ eq_refl)
          as (_ & amount & after & Ht & _ & Hq & _)
    end.
    assert (Ha : amount = 3) by (apply Hq; [reflexivity|lia]).
    subst amount. exists after. split; [exact Ht|].
    vm_compute in Ht. injection Ht as <-. reflexivity.
  - eexists. split; [vm_compute; reflexivity|]. split; [reflexivity|].
    match goal with
    | |- context [Plants.take_stock S "p1" 1] =>
        pose proof (purchase_takes_stock_once S req "p1" b 200 _
                      ltac:(vm_compute; reflexivity))
          as (_ & amount & after & Ht & _ & _ & Hone & _)
    end.
    assert (Ha : amount = 1).
    { apply Hone. intros qty Hq. vm_compute in Hq. discriminate Hq. }
    subst amount. exists after. exact Ht.
Defined.

(** X15. When PATCH /plants/:id/stock answers 200 it wrote, in one update,
    either the finite number at least 0 that the [stockCount] of the body
    reads as (a double: beyond [2^53] the nearest one), or [null], and
    [null] exactly for a body whose [stockCount] is [null] or the empty
    string.  The plant in the answer is never shown for sale with a stock
    of 0: in that case it was saved as not for sale. *)
Theorem stock_patch_writes_count_or_null {N : Plants.Numeric} (S : Plants.Store N)
    (req : Request) (id : string) (b : Plants.body)
    (status : Z) (w : WithImageUrl Plants.Plant) :
  Plants.patch_stock S req id b = Sent status w ->
  let v := Plants.body_get "stockCount" b in
  status = 200
  /\ exists sc updated,
       Plants.set_stock S id sc = Ok (Some updated)
       /\ (forall n, sc = Some n ->
             0 <= n /\ Plants.parseInt10 (Plants.js_to_string v) = Num n)
       /\ (sc = None <-> v = Plants.JNull \/ Plants.is_empty_string v = true)
       /\ Plants.doc_stockCount (plant w) = Plants.doc_stockCount updated
       /\ imageUrl w = toImageUrl req (Plants.doc_image updated)
       /\ ~ (Plants.doc_stockCount (plant w) = Some 0
             /\ Plants.doc_forSale (plant w) = Some true)
       /\ (Plants.doc_forSale (plant w) <> Plants.doc_forSale updated ->
             Plants.save S (plant w) = Ok tt).
Proof.
  intros H v. unfold Plants.patch_stock in H. fold v in H.
  destruct (Plants.defined v) eqn:Hd; cbn in H; [|discriminate H].
  assert (Hsc : exists sc,
             match Plants.toNonNegIntOrNull v with
             | Plants.Count n => sc = Some n
             | Plants.CountNull => sc = None
             | Plants.INVALID => False
             end
             /\ Plants.caught 500
                  (updated ← Plants.set_stock S id sc;
                   match updated with
                   | None => Ok (Refused 404 "Plant not found")
                   | Some updated =>
                       if Plants.sold_out_for_sale updated
                       then _ ← Plants.save S (Plants.not_forSale updated);
                            Ok (Sent 200 (Plants.with_url req (Plants.not_forSale updated)))
                       else Ok (Sent 200 (Plants.with_url req updated))
                   end) = Sent status w).
  { destruct (Plants.toNonNegIntOrNull v); [exists None|discriminate H|exists (Some n)];
      split; auto. }
  clear H. destruct Hsc as (sc & Hread & H).
  destruct (Plants.set_stock S id sc) as [[updated|]|] eqn:Hset;
    cbn in H; try discriminate H.
  assert (Hn : forall n, sc = Some n ->
                 0 <= n /\ Plants.parseInt10 (Plants.js_to_string v) = Num n).
  { intros n ->. destruct (Plants.toNonNegIntOrNull v) eqn:Hv; try easy.
    injection Hread as <-. apply PlantsFacts.toNonNegIntOrNull_Count. exact Hv. }
  assert (Hnull : sc = None <-> v = Plants.JNull \/ Plants.is_empty_string v = true).
  { unfold Plants.toNonNegIntOrNull in Hread. rewrite Hd in Hread. cbn [negb orb] in Hread.
    split.
    - intros ->. destruct v as [| |x]; [discriminate Hd|left; reflexivity|].
      right. destruct (Plants.is_empty_string (Plants.JVal x)); [reflexivity|].
      cbn in Hread. destruct (Plants.parseInt10 _) as [k| | |]; try easy.
      destruct (k <? 0); easy.
    - intros [->| He]; [exact Hread|].
      rewrite He, orb_true_r in Hread. exact Hread. }
  destruct (Plants.sold_out_for_sale updated) eqn:Hsold.
  - destruct (Plants.save S (Plants.not_forSale updated)) as [[]|] eqn:Hs;
      cbn in H; [|discriminate H].
    injection H as <- <-. split; [reflexivity|].
    exists sc, updated. cbn.
    split; [exact Hset|]. split; [exact Hn|]. split; [exact Hnull|].
    split; [reflexivity|]. split; [reflexivity|].
    split; [intros [_ Habs]; discriminate Habs|].
    intros _. exact Hs.
  - injection H as <- <-. split; [reflexivity|].
    exists sc, updated. cbn.
    split; [exact Hset|]. split; [exact Hn|]. split; [exact Hnull|].
    split; [reflexivity|]. split; [reflexivity|].
    split; [apply StockFacts.sold_out_for_sale_false; exact Hsold|].
    intros Habs. destruct Habs. reflexivity.
Qed.

Lemma stock_patch_writes_count_or_null_witness :
  let S := Plants.one_plant Plants.whole_numbers 3 true in
  let req := Sample.request [] in
  (let b := [("stockCount", None)] in
   exists w,
     Plants.patch_stock S req "p1" b = Sent 200 w
     /\ Plants.doc_stockCount (plant w) = None
     /\ Plants.set_stock S "p1" None = Ok (Some (plant w)))
  /\ (let b := [("stockCount", Some (VStr "9007199254740993"))] in
      exists w,
        Plants.patch_stock S req "p1" b = Sent 200 w
        /\ Plants.doc_stockCount (plant w) = Some 9007199254740992)
  /\ Plants.patch_stock S req "p1" [("stockCount", Some (VStr Plants.nines))]
     = Refused 400 "Invalid stockCount".
Proof.
  intros S req. split; [|split; [|vm_compute; reflexivity]]; intros b.
  - eexists. split; [reflexivity|]. split; [reflexivity|].
    match goal with
    | |- Plants.set_stock S "p1" None = Ok (Some (plant ?w)) =>
        pose proof (stock_patch_writes_count_or_null S req "p1" b 200 w eq_refl)
          as (_ & sc & updated & Hset & _ & Hnull & _)
    end.
    assert (Hsc : sc = None) by (apply Hnull; left; reflexivity).
    subst sc. rewrite Hset. vm_compute in Hset. injection Hset as <-. reflexivity.
  - eexists. split; [vm_compute; reflexivity | reflexivity].
Defined.

(** X16. When PATCH /plants/:id/sale answers 200 it wrote one update that
    sets a price, a sale flag or both.  The written flag is [true] only if
    the body asked for it and the stock the route read just before was
    above 0; a written price is the number of the body, neither NaN nor
    negative; and the flag is left out exactly when the body has no
    [forSale]. *)
Theorem sale_patch_needs_stock {N : Plants.Numeric} (S : Plants.Store N)
    (req : Request) (id : string) (b : Plants.body)
    (status : Z) (w : WithImageUrl Plants.Plant) :
  Plants.patch_sale S req id b = Sent status w ->
  status = 200
  /\ exists payload,
       Plants.set_sale S id payload = Ok (Some (plant w))
       /\ (Plants.Sale.price payload <> None \/ Plants.Sale.forSale payload <> None)
       /\ (Plants.Sale.forSale payload = Some true ->
             Plants.toBool (Plants.body_get "forSale" b) = true
             /\ exists n, Plants.stock_of S id = Ok (Some (Some n)) /\ 0 < n)
       /\ (Plants.Sale.forSale payload = None <->
             Plants.defined (Plants.body_get "forSale" b) = false)
       /\ (forall x, Plants.Sale.price payload = Some x ->
             x = Plants.Number_ N (Plants.body_get "price" b)
             /\ Plants.Number_isNaN N x = false /\ Plants.negative N x = false)
       /\ imageUrl w = toImageUrl req (Plants.doc_image (plant w)).
Proof.
  intros H. unfold Plants.patch_sale in H.
  set (pp := match Plants.read_price N (Plants.body_get "price" b) with
             | Plants.Price n => Some n
             | _ => None
             end).
  assert (Hprice : forall x, pp = Some x ->
             x = Plants.Number_ N (Plants.body_get "price" b)
             /\ Plants.Number_isNaN N x = false /\ Plants.negative N x = false).
  { intros x. unfold pp.
    destruct (Plants.read_price N _) eqn:Hr; try (intros Habs; discriminate Habs).
    intros [= <-]. apply PlantsFacts.read_price_Price. exact Hr. }
  pose proof (fun f => StockFacts.sale_write S req id
                          {| Plants.Sale.price := pp; Plants.Sale.forSale := f |}
                          status w) as Hw.
  unfold Plants.flag in H.
  destruct (Plants.defined (Plants.body_get "forSale" b)) eqn:Hd.
  - assert (H' : Plants.caught 500
              (if Plants.toBool (Plants.body_get "forSale" b)
               then p ← Plants.stock_of S id;
                    match p with
                    | None => Ok (Refused 404 "Plant not found")
                    | Some stockCount =>
                        updated ← Plants.set_sale S id
                          {| Plants.Sale.price := pp;
                             Plants.Sale.forSale :=
                               Some (negb (default 0 stockCount <=? 0)) |};
                        match updated with
                        | None => Ok (Refused 404 "Plant not found")
                        | Some updated => Ok (Sent 200 (Plants.with_url req updated))
                        end
                    end
               else updated ← Plants.set_sale S id
                      {| Plants.Sale.price := pp; Plants.Sale.forSale := Some false |};
                    match updated with
                    | None => Ok (Refused 404 "Plant not found")
                    | Some updated => Ok (Sent 200 (Plants.with_url req updated))
                    end) = Sent status w).
    { fold pp in H.
      destruct (Plants.read_price N (Plants.body_get "price" b)) eqn:Hr;
        try discriminate H; unfold pp in *;
        destruct (Plants.toBool (Plants.body_get "forSale" b)); try exact H;
        destruct (Plants.stock_of S id) as [[stockCount|]|]; try exact H;
        cbn in H |- *; destruct (default 0 stockCount <=? 0); exact H. }
    clear H. destruct (Plants.toBool (Plants.body_get "forSale" b)) eqn:Hb.
    + destruct (Plants.stock_of S id) as [[stockCount|]|] eqn:Hst;
        cbn in H'; try discriminate H'.
      destruct (Hw _ H') as (-> & Hset & Hurl). split; [reflexivity|].
      eexists. split; [exact Hset|]. cbn.
      split; [right; discriminate|]. split; [|split; [|split; [exact Hprice|exact Hurl]]].
      * intros [= Hneg]. split; [reflexivity|].
        destruct stockCount as [n|]; cbn in Hneg; [|discriminate Hneg].
        exists n. split; [reflexivity|].
        destruct (Z.leb_spec n 0); [discriminate Hneg|lia].
      * split; intros Habs; discriminate Habs.
    + destruct (Hw _ H') as (-> & Hset & Hurl). split; [reflexivity|].
      eexists. split; [exact Hset|]. cbn.
      split; [right; discriminate|]. split; [|split; [|split; [exact Hprice|exact Hurl]]].
      * intros Habs; discriminate Habs.
      * split; intros Habs; discriminate Habs.
  - assert (H' : exists x, pp = Some x
              /\ Plants.caught 500
                   (updated ← Plants.set_sale S id
                      {| Plants.Sale.price := pp; Plants.Sale.forSale := None |};
                    match updated with
                    | None => Ok (Refused 404 "Plant not found")
                    | Some updated => Ok (Sent 200 (Plants.with_url req updated))
                    end) = Sent status w).
    { fold pp in H. unfold pp in *.
      destruct (Plants.read_price N (Plants.body_get "price" b)) eqn:Hr;
        try discriminate H.
      exists n. split; [reflexivity|exact H]. }
    clear H. destruct H' as (x & Hx & H').
    destruct (Hw _ H') as (-> & Hset & Hurl). split; [reflexivity|].
    eexists. split; [exact Hset|]. cbn.
    split; [left; rewrite Hx; discriminate|].
    split; [|split; [|split; [exact Hprice|exact Hurl]]].
    + intros Habs; discriminate Habs.
    + split; reflexivity.
Qed.

Lemma sale_patch_needs_stock_witness :
  let S := Plants.one_plant Plants.whole_numbers 0 false in
  let req := Sample.request [] in
  let b := [("forSale", Some (VStr "yes")); ("price", Some (VStr "15"))] in
  exists w,
    Plants.patch_sale S req "p1" b = Sent 200 w
    /\ Plants.doc_forSale (plant w) = Some false
    /\ exists payload,
         Plants.set_sale S "p1" payload = Ok (Some (plant w))
         /\ Plants.Sale.forSale payload <> Some true.
Proof.
  intros S req b. eexists. split; [reflexivity|]. split; [reflexivity|].
  match goal with
  | |- context [plant ?w] =>
      pose proof (sale_patch_needs_stock S req "p1" b 200 w eq_refl)
        as (_ & payload & Hset & _ & Hsale & _)
  end.
  exists payload. split; [exact Hset|].
  intros Htrue. destruct (Hsale Htrue) as (_ & n & Hn & Hpos).
  vm_compute in Hn. injection Hn as <-. lia.
Defined.

(** ** The list of plants *)

Lemma List_filter_sublist {A : Type} (f : A -> bool) (l : list A) :
  sublist (List.filter f l) l.
Proof.
  induction l as [|x l IH]; cbn; [constructor|].
  destruct (f x); [apply sublist_skip|apply sublist_cons]; exact IH.
Qed.

Lemma listed_sublist {Doc : Type} (V : PlantDocs Doc) (q : object) (docs : list Doc) :
  sublist (listed V q docs) docs.
Proof.
  unfold listed.
  destruct (availableOnly q); destruct (Plants.defined _);
    repeat (etrans; [apply List_filter_sublist|]); reflexivity.
Qed.

Lemma listed_In {Doc : Type} (V : PlantDocs Doc) (q : object) (docs : list Doc)
    (p : Doc) :
  In p (listed V q docs)
  <-> In p docs
      /\ (Plants.defined (Plants.query_get "forSale" q) = true ->
            Boolean_forSale V p = Plants.toBool (Plants.query_get "forSale" q))
      /\ (availableOnly q = true ->
            Boolean_forSale V p = true /\ stock_positive V p = true).
Proof.
  unfold listed.
  destruct (availableOnly q); destruct (Plants.defined _);
    rewrite ?filter_In, ?andb_true_iff, ?eqb_true_iff; intuition congruence.
Qed.

Lemma plants_list_Sent {Doc : Type} (E : Env Doc) (V : PlantDocs Doc) (req : Request)
    (status : Z) (body : @Response (WithImageUrl Doc)) :
  plants_list E V req = Sent status body ->
  status = 200
  /\ exists result,
       queryBuilder E req plants_list_options = Ok result
       /\ Plants_populate V (listed V (req_query req) (data result))
          = Ok (map plant (data body))
       /\ body = with_data result (data body).
Proof.
  unfold plants_list.
  destruct (queryBuilder E req plants_list_options) as [result|];
    cbn; [|intros H; discriminate H].
  destruct (Plants_populate V _) as [populated|] eqn:Hp;
    cbn; [|intros H; discriminate H].
  intros [= <- <-]. split; [reflexivity|]. exists result. cbn.
  rewrite map_map. cbn. rewrite map_id. auto.
Qed.

(** X17. GET /plants applies [forSale] and [availableOnly] to the page it
    fetched, not to the query: the documents it answers with are those of
    the fetched page that pass the two tests, in the order of the page,
    while [total] is the count of the query's filter, in which the
    [forSale] parameter is no entry (a [forSale] entry comes only from the
    [filter] syntax) and [availableOnly] never is.  The page size and the
    last page are those of the unfiltered count. *)
Theorem listing_filters_the_fetched_page {Doc : Type} (E : Env Doc)
    (V : PlantDocs Doc) (req : Request) (status : Z)
    (body : @Response (WithImageUrl Doc)) :
  plants_list E V req = Sent status body ->
  let q := req_query req in
  let cfg := config plants_list_options in
  status = 200
  /\ exists m docs kept,
       filterObject E plants_list_options q = Ok m
       /\ Model_countDocuments E m = Ok (total body)
       /\ m !! "forSale" = predicate_of "forSale" <$> candidate_value q "forSale"
       /\ m !! "availableOnly" = None
       /\ (exists sortObj,
             Model_exec E m (populates plants_list_options) sortObj
               (skip cfg q) (limit cfg q) = Ok docs)
       /\ sublist kept docs
       /\ (forall p, In p kept <->
             In p docs
             /\ (Plants.defined (Plants.query_get "forSale" q) = true ->
                   Boolean_forSale V p = Plants.toBool (Plants.query_get "forSale" q))
             /\ (availableOnly q = true ->
                   Boolean_forSale V p = true /\ stock_positive V p = true))
       /\ Plants_populate V kept = Ok (map plant (data body))
       /\ per_page body = limit cfg q
       /\ last_page body = lastPage (total body) (limit cfg q).
Proof.
  intros H q cfg.
  destruct (plants_list_Sent E V req status body H) as (-> & result & Hq & Hp & Hb).
  split; [reflexivity|].
  destruct (queryBuilder_Ok_inv E req _ result Hq)
    as (sortObj & m & totalCount & docs & _ & Hf & Hc & He & ->).
  cbn in Hp. exists m, docs, (listed V q docs).
  rewrite Hb. cbn.
  split; [exact Hf|]. split; [exact Hc|].
  split; [|split; [|split; [exists sortObj; exact He|]]].
  - rewrite (filterObject_lookup E _ _ m Hf). unfold filter_entry.
    rewrite (bool_decide_eq_false_2 ("forSale" = date_field plants_list_options))
      by discriminate.
    rewrite andb_false_r.
    rewrite (bool_decide_eq_false_2 ("forSale" = "$or")) by discriminate.
    unfold accepted_candidate.
    assert (Ha : field_allowed (config plants_list_options) "forSale" = true)
      by reflexivity.
    rewrite Ha. fold q.
    destruct (candidate_value q "forSale"); [reflexivity|].
    rewrite (bool_decide_eq_false_2 ("forSale" = "categoriesIds")) by discriminate.
    reflexivity.
  - rewrite (filterObject_lookup E _ _ m Hf). unfold filter_entry.
    rewrite (bool_decide_eq_false_2 ("availableOnly" = date_field plants_list_options))
      by discriminate.
    rewrite andb_false_r.
    rewrite (bool_decide_eq_false_2 ("availableOnly" = "$or")) by discriminate.
    unfold accepted_candidate.
    assert (Ha : field_allowed (config plants_list_options) "availableOnly" = false)
      by reflexivity.
    rewrite Ha.
    rewrite (bool_decide_eq_false_2 ("availableOnly" = "categoriesIds")) by discriminate.
    reflexivity.
  - split; [apply listed_sublist|]. split; [apply listed_In|].
    split; [exact Hp|]. split; reflexivity.
Qed.

Lemma listing_filters_the_fetched_page_witness :
  let req := Sample.request [("availableOnly", VStr "true"); ("limit", VStr "25")] in
  exists body,
    plants_list Sample.env sample_docs req = Sent 200 body
    /\ map plant (data body) = ["plant-12"; "plant-21"]
    /\ total body = 25
    /\ last_page body = Num 1.
Proof.
  intros req. eexists. split; [vm_compute; reflexivity|].
  split; [reflexivity|]. split; [reflexivity|].
  match goal with
  | |- last_page ?body = Num 1 =>
      pose proof (listing_filters_the_fetched_page Sample.env sample_docs req 200 body
                    eq_refl)
        as (_ & m & docs & kept & _ & _ & _ & _ & _ & _ & _ & _ & _ & Hlast)
  end.
  etrans; [exact Hlast|]. vm_compute. reflexivity.
Defined.

(** ** The category hierarchy *)

Module HierarchyFacts.

Import Hierarchy.

Lemma enter_fold_None (categories : list Category) (m : gmap string entry)
    (id : string) :
  fold_left enter categories m !! id = None
  <-> m !! id = None /\ ~ In id (map _id categories).
Proof.
  revert m. induction categories as [|c categories IH]; intros m; cbn.
  - tauto.
  - rewrite IH. unfold enter. rewrite lookup_insert_None. tauto.
Qed.

Lemma enter_fold_Some (categories : list Category) (m : gmap string entry)
    (id : string) (e : entry) :
  fold_left enter categories m !! id = Some e ->
  m !! id = Some e
  \/ (children e = [] /\ In (doc e) categories /\ _id (doc e) = id).
Proof.
  revert m. induction categories as [|c categories IH]; intros m; cbn.
  - auto.
  - intros H. destruct (IH _ H) as [Hm|(Hc & Hin & Hid)]; [|tauto].
    unfold enter in Hm. apply lookup_insert_Some in Hm as [[<- <-]|[_ Hm]]; cbn; auto.
Qed.

Lemma place_fold (categories : list Category) (m : gmap string entry)
    (roots : list string) :
  snd (fold_left place categories (m, roots))
  = roots ++ map _id (List.filter (fun c => bool_decide (parentId c = None)) categories)
  /\ forall id,
       fst (fold_left place categories (m, roots)) !! id
       = placed categories id <$> m !! id.
Proof.
  revert m roots. induction categories as [|c categories IH]; intros m roots.
  - cbn. rewrite app_nil_r. split; [reflexivity|]. intros id.
    destruct (m !! id) as [[d ch]|]; cbn; [|reflexivity].
    unfold placed. cbn. rewrite app_nil_r. reflexivity.
  - cbn [fold_left List.filter].
    destruct (parentId c) as [parent|] eqn:Hparent.
    + assert (Hroot : bool_decide (Some parent = @None string) = false)
        by (apply bool_decide_eq_false_2; discriminate).
      rewrite Hroot.
      destruct (m !! parent) as [e|] eqn:He.
      * assert (Hp : place (m, roots) c
                     = (<[parent := {| doc := doc e;
                                       children := children e ++ [_id c] |}]> m, roots))
          by (unfold place; rewrite Hparent, He; reflexivity).
        rewrite Hp.
        destruct (IH (<[parent := {| doc := doc e;
                                     children := children e ++ [_id c] |}]> m) roots)
          as [Hr Hm].
        split; [exact Hr|]. intros id. rewrite Hm.
        destruct (decide (parent = id)) as [<-|Hne].
        -- rewrite lookup_insert_eq, He. cbn. unfold placed. cbn.
           rewrite bool_decide_eq_true_2 by exact Hparent. cbn.
           rewrite <- app_assoc. reflexivity.
        -- rewrite lookup_insert_ne by exact Hne.
           destruct (m !! id) as [e'|]; cbn; [|reflexivity].
           unfold placed. cbn [List.filter].
           rewrite bool_decide_eq_false_2 by congruence. reflexivity.
      * assert (Hp : place (m, roots) c = (m, roots))
          by (unfold place; rewrite Hparent, He; reflexivity).
        rewrite Hp. destruct (IH m roots) as [Hr Hm].
        split; [exact Hr|]. intros id. rewrite Hm.
        destruct (m !! id) as [e'|] eqn:He'; cbn; [|reflexivity].
        unfold placed. cbn [List.filter].
           rewrite bool_decide_eq_false_2 by congruence. reflexivity.
    + rewrite bool_decide_eq_true_2 by reflexivity.
      assert (Hp : place (m, roots) c = (m, roots ++ [_id c]))
        by (unfold place; rewrite Hparent; reflexivity).
      rewrite Hp. destruct (IH m (roots ++ [_id c])) as [Hr Hm].
      split; [rewrite Hr, <- app_assoc; reflexivity|].
      intros id. rewrite Hm.
      destruct (m !! id) as [e'|]; cbn; [|reflexivity].
      unfold placed. cbn [List.filter].
      rewrite bool_decide_eq_false_2 by congruence. reflexivity.
Qed.

Lemma same_id (categories : list Category) (c c' : Category) :
  NoDup (map _id categories) ->
  In c categories -> In c' categories -> _id c = _id c' -> c = c'.
Proof.
  induction categories as [|x categories IH]; cbn; [tauto|].
  intros Hnd. apply NoDup_cons in Hnd as [Hx Hnd].
  intros [->|Hc] [->|Hc'] Hid; auto.
  - exfalso. apply Hx. rewrite Hid. apply list_elem_of_In, in_map. exact Hc'.
  - exfalso. apply Hx. rewrite <- Hid. apply list_elem_of_In, in_map. exact Hc.
Qed.

End HierarchyFacts.

(** X18. With distinct [_id]s, GET /categories/hierarchy answers with the
    categories that have no parent, in the order of the collection, and the
    entry of every category lists as children exactly the categories whose
    [parentId] is its [_id], in that order.  A category whose parent is not
    in the collection is neither a root nor a child of any entry: it is
    left out of the answer. *)
Theorem hierarchy_groups_children_by_parent (categories : list Hierarchy.Category)
    (categoriesMap : gmap string Hierarchy.entry) (roots : list string) :
  NoDup (map Hierarchy._id categories) ->
  Hierarchy.hierarchy categories = (categoriesMap, roots) ->
  roots = map Hierarchy._id
            (List.filter (fun c => bool_decide (Hierarchy.parentId c = None)) categories)
  /\ (forall c, In c categories ->
        categoriesMap !! Hierarchy._id c
        = Some {| Hierarchy.doc := c;
                  Hierarchy.children :=
                    map Hierarchy._id
                      (List.filter
                         (fun c' => bool_decide
                                      (Hierarchy.parentId c' = Some (Hierarchy._id c)))
                         categories) |})
  /\ (forall id, ~ In id (map Hierarchy._id categories) -> categoriesMap !! id = None)
  /\ (forall c parent,
        In c categories -> Hierarchy.parentId c = Some parent ->
        ~ In parent (map Hierarchy._id categories) ->
        ~ In (Hierarchy._id c) roots
        /\ forall id e, categoriesMap !! id = Some e ->
             ~ In (Hierarchy._id c) (Hierarchy.children e)).
Proof.
  intros Hnd Hh. unfold Hierarchy.hierarchy in Hh.
  destruct (HierarchyFacts.place_fold categories
              (fold_left Hierarchy.enter categories ∅) []) as [Hr Hm].
  rewrite Hh in Hr, Hm. cbn in Hr, Hm.
  assert (Hentry : forall c, In c categories ->
            categoriesMap !! Hierarchy._id c
            = Some (Hierarchy.placed categories (Hierarchy._id c)
                      {| Hierarchy.doc := c; Hierarchy.children := [] |})).
  { intros c Hc. rewrite Hm.
    destruct (fold_left Hierarchy.enter categories ∅ !! Hierarchy._id c) as [e|] eqn:He.
    - apply HierarchyFacts.enter_fold_Some in He as [He|(Hch & Hin & Hid)];
        [rewrite lookup_empty in He; discriminate He|].
      assert (Hd : Hierarchy.doc e = c)
        by exact (HierarchyFacts.same_id categories _ _ Hnd Hin Hc Hid).
      destruct e as [d ch]. cbn in Hch, Hd. subst. reflexivity.
    - apply HierarchyFacts.enter_fold_None in He as [_ He].
      destruct He. apply in_map. exact Hc. }
  assert (Hnone : forall id, ~ In id (map Hierarchy._id categories) ->
            categoriesMap !! id = None).
  { intros id Hid. rewrite Hm.
    rewrite (proj2 (HierarchyFacts.enter_fold_None categories ∅ id));
      [reflexivity|]. split; [apply lookup_empty|exact Hid]. }
  split; [exact Hr|]. split; [exact Hentry|]. split; [exact Hnone|].
  intros c parent Hc Hp Hmissing. split.
  - rewrite Hr. intros Hin. apply in_map_iff in Hin as (c' & Hid & Hc').
    apply filter_In in Hc' as [Hc' Hroot]. apply bool_decide_eq_true_1 in Hroot.
    assert (c' = c) by exact (HierarchyFacts.same_id categories _ _ Hnd Hc' Hc Hid).
    subst c'. congruence.
  - intros id e He Hin.
    destruct (in_dec string_dec id (map Hierarchy._id categories)) as [Hid|Hid];
      [|rewrite (Hnone id Hid) in He; discriminate He].
    apply in_map_iff in Hid as (owner & <- & Howner).
    rewrite (Hentry owner Howner) in He. injection He as <-. cbn in Hin.
    apply in_map_iff in Hin as (c' & Hid & Hc').
    apply filter_In in Hc' as [Hc' Hparent]. apply bool_decide_eq_true_1 in Hparent.
    assert (c' = c) by exact (HierarchyFacts.same_id categories _ _ Hnd Hc' Hc Hid).
    subst c'. apply Hmissing. apply in_map_iff. exists owner. split; [|exact Howner].
    congruence.
Qed.

Lemma hierarchy_groups_children_by_parent_witness :
  NoDup (map Hierarchy._id Hierarchy.sample)
  /\ exists categoriesMap,
       Hierarchy.hierarchy Hierarchy.sample = (categoriesMap, ["a"])
       /\ Hierarchy.children <$> categoriesMap !! "a" = Some ["b"; "d"]
       /\ Hierarchy.children <$> categoriesMap !! "b" = Some ["c"]
       /\ Hierarchy.children <$> categoriesMap !! "e" = Some []
       /\ Hierarchy.children <$> categoriesMap !! "zz" = None.
Proof.
  assert (Hnd : NoDup (map Hierarchy._id Hierarchy.sample)).
  { cbn. repeat (apply NoDup_cons_2;
                   [rewrite ?elem_of_cons, elem_of_nil; intros H; intuition discriminate|]).
    apply NoDup_nil_2. }
  split; [exact Hnd|].
  destruct (Hierarchy.hierarchy Hierarchy.sample) as [categoriesMap roots] eqn:Hh.
  destruct (hierarchy_groups_children_by_parent Hierarchy.sample categoriesMap roots
              Hnd Hh) as (-> & Hentry & Hnone & _).
  exists categoriesMap. split; [reflexivity|].
  pose proof (Hentry (Hierarchy.Build_Category "a" None [("name", VStr "Plants")])
                ltac:(cbn; tauto)) as Ha.
  pose proof (Hentry (Hierarchy.Build_Category "b" (Some "a")
                        [("name", VStr "Succulents")])
                ltac:(cbn; tauto)) as Hb.
  pose proof (Hentry (Hierarchy.Build_Category "e" (Some "zz") [("name", VStr "Lost")])
                ltac:(cbn; tauto)) as He.
  cbn [Hierarchy._id] in Ha, Hb, He. rewrite Ha, Hb, He.
  split; [reflexivity|]. split; [reflexivity|]. split; [reflexivity|].
  rewrite Hnone; [reflexivity|]. cbn. intros H; intuition discriminate.
Defined.
